(** * Aliyun OSS uploader: a shallow embedding of [OssService]

    The development follows the TypeScript class [OssService] of the
    plugin (settings record, request signing, content hashing, existence
    probe, retry loop and the upload pipeline) and states the properties
    of that pipeline against it.

    Conventions.
    - A JavaScript string is modelled by the sequence of its UTF-8 bytes
      ([string] of the standard library), so that [TextEncoder.encode] is
      the identity on the underlying bytes.  The separator ['.'] and the
      ASCII letters are single bytes that never occur inside a multi-byte
      UTF-8 sequence, hence splitting and ASCII case folding commute with
      the encoding.
    - A 32-bit word is a [Z] reduced modulo [2^32]; a byte is a
      [Byte.byte].
    - Asynchronous code is sequential here: every [await] is a bind of the
      monad [M], whose state is the trace of observable events. *)

From Stdlib Require Import ZArith List String Ascii Bool Lia.
From Stdlib Require Import Strings.Byte DecimalString.
Import ListNotations.

Local Open Scope string_scope.
Local Open Scope Z_scope.

(** ** JavaScript string primitives *)

Module Js.

(** [s.split(sep)] for a one-character separator: never the empty array. *)
Fixpoint split (sep : ascii) (s : string) : list string :=
  match s with
  | EmptyString => [EmptyString]
  | String c rest =>
      if Ascii.eqb c sep then EmptyString :: split sep rest
      else match split sep rest with
           | [] => [String c EmptyString]
           | seg :: segs => String c seg :: segs
           end
  end.

(** [xs.pop()]: the last element, [undefined] (here [None]) on []. *)
Fixpoint pop (xs : list string) : option string :=
  match xs with
  | [] => None
  | [x] => Some x
  | _ :: rest => pop rest
  end.

(** Truthiness of a string: only the empty string is falsy. *)
Definition truthy (s : string) : bool :=
  match s with EmptyString => false | _ => true end.

(** [a || b] on strings. *)
Definition or (a b : string) : string := if truthy a then a else b.

(** [v || ''] where [v] may be [undefined]. *)
Definition or_undefined (v : option string) (b : string) : string :=
  match v with
  | Some a => or a b
  | None => b
  end.

(** [s.includes(needle)]. *)
Fixpoint includes (needle s : string) : bool :=
  if String.prefix needle s then true
  else match s with
       | EmptyString => false
       | String _ rest => includes needle rest
       end.

(** ASCII lower-casing of one character and of a string. *)
Definition lower_ascii (c : ascii) : ascii :=
  let n := nat_of_ascii c in
  if (65 <=? n)%nat && (n <=? 90)%nat then ascii_of_nat (n + 32) else c.

Fixpoint toLowerCaseASCII (s : string) : string :=
  match s with
  | EmptyString => EmptyString
  | String c rest => String (lower_ascii c) (toLowerCaseASCII rest)
  end.

(** Decimal rendering of an integer, as in a template literal. *)
Definition showZ (z : Z) : string := NilZero.string_of_int (Z.to_int z).

(** [TextEncoder.encode]. *)
Definition encode (s : string) : list byte := list_byte_of_string s.

(** [String.fromCharCode(...bytes)]: one character per byte. *)
Definition fromCharCodes (bs : list byte) : string := string_of_list_byte bs.

End Js.

(** ** Web Crypto primitives used by the service

    [crypto.subtle.digest('SHA-256', _)] and
    [crypto.subtle.sign('HMAC', key{hash:'SHA-1'}, _)] are implemented
    after FIPS 180-4 and RFC 2104 so that signatures and keys can be
    evaluated. *)

Module Crypto.

Definition w32 (x : Z) : Z := Z.land x 0xFFFFFFFF.
Definition add32 (a b : Z) : Z := w32 (a + b).
Definition rotr (n x : Z) : Z := Z.lor (Z.shiftr x n) (w32 (Z.shiftl x (32 - n))).
Definition rotl (n x : Z) : Z := Z.lor (w32 (Z.shiftl x n)) (Z.shiftr x (32 - n)).
Definition not32 (x : Z) : Z := Z.lxor x 0xFFFFFFFF.

Definition Z_of_byte (b : byte) : Z := Z.of_N (Byte.to_N b).

Definition byte_of_Z (z : Z) : byte :=
  match Byte.of_N (Z.to_N (z mod 256)) with
  | Some b => b
  | None => x00
  end.

(** Big-endian rendering of [x] on [n] bytes. *)
Fixpoint be_bytes (n : nat) (x : Z) : list Z :=
  match n with
  | O => []
  | S k => (Z.shiftr x (8 * Z.of_nat k)) mod 256 :: be_bytes k x
  end.

(** Merkle-Damgard padding shared by SHA-1 and SHA-256 (64-byte blocks,
    64-bit big-endian bit length). *)
Definition pad (msg : list Z) : list Z :=
  let len := Z.of_nat (List.length msg) in
  (msg ++ [0x80] ++ repeat 0 (Z.to_nat ((55 - len) mod 64)) ++ be_bytes 8 (8 * len))%list.

Fixpoint words_be (bs : list Z) : list Z :=
  match bs with
  | a :: b :: c :: d :: rest =>
      (Z.shiftl a 24 + Z.shiftl b 16 + Z.shiftl c 8 + d) :: words_be rest
  | _ => []
  end.

Fixpoint chunks (fuel n : nat) (l : list Z) : list (list Z) :=
  match fuel with
  | O => []
  | S f =>
      match l with
      | [] => []
      | _ => firstn n l :: chunks f n (skipn n l)
      end
  end.

Definition blocks (msg : list Z) : list (list Z) :=
  let ws := words_be (pad msg) in chunks (List.length ws) 16 ws.

(** *** SHA-256 *)

(** The round constants are the first 32 bits of the fractional parts of
    the cube roots of the first 64 primes, the initial state those of the
    square roots of the first 8 primes (FIPS 180-4, 4.2.2 and 5.3.3). *)
Definition is_prime (n : nat) : bool :=
  (2 <=? n)%nat && forallb (fun d => negb (n mod d =? 0)%nat) (seq 2 (n - 2)).

Definition first_primes (count : nat) : list Z :=
  map Z.of_nat (firstn count (filter is_prime (seq 0 320))).

(** Integer cube root of [x] below [2^bits], most significant bit first. *)
Fixpoint cube_root (bits : nat) (x acc : Z) : Z :=
  match bits with
  | O => acc
  | S k =>
      let c := acc + 2 ^ Z.of_nat k in
      if c * c * c <=? x then cube_root k x c else cube_root k x acc
  end.

Definition K256 : list Z :=
  Eval vm_compute in
    map (fun p => w32 (cube_root 40 (p * 2 ^ 96) 0)) (first_primes 64).

Definition H256 : list Z :=
  Eval vm_compute in map (fun p => w32 (Z.sqrt (p * 2 ^ 64))) (first_primes 8).

Definition bsig0 x := Z.lxor (Z.lxor (rotr 2 x) (rotr 13 x)) (rotr 22 x).
Definition bsig1 x := Z.lxor (Z.lxor (rotr 6 x) (rotr 11 x)) (rotr 25 x).
Definition ssig0 x := Z.lxor (Z.lxor (rotr 7 x) (rotr 18 x)) (Z.shiftr x 3).
Definition ssig1 x := Z.lxor (Z.lxor (rotr 17 x) (rotr 19 x)) (Z.shiftr x 10).
Definition ch x y z := Z.lxor (Z.land x y) (Z.land (not32 x) z).
Definition maj x y z := Z.lxor (Z.lxor (Z.land x y) (Z.land x z)) (Z.land y z).

Fixpoint schedule256 (n : nat) (w : list Z) : list Z :=
  match n with
  | O => w
  | S k =>
      let t := List.length w in
      let x := add32 (add32 (ssig1 (nth (t - 2) w 0)) (nth (t - 7) w 0))
                     (add32 (ssig0 (nth (t - 15) w 0)) (nth (t - 16) w 0)) in
      schedule256 k (w ++ [x])%list
  end.

Record state256 := St256 { a2 : Z; b2 : Z; c2 : Z; d2 : Z; e2 : Z; f2 : Z; g2 : Z; h2 : Z }.

Definition round256 (s : state256) (kw : Z * Z) : state256 :=
  let t1 := add32 (add32 (add32 (h2 s) (bsig1 (e2 s))) (ch (e2 s) (f2 s) (g2 s)))
                  (add32 (fst kw) (snd kw)) in
  let t2 := add32 (bsig0 (a2 s)) (maj (a2 s) (b2 s) (c2 s)) in
  St256 (add32 t1 t2) (a2 s) (b2 s) (c2 s) (add32 (d2 s) t1) (e2 s) (f2 s) (g2 s).

Definition compress256 (s : state256) (block : list Z) : state256 :=
  let r := fold_left round256 (combine K256 (schedule256 48 block)) s in
  St256 (add32 (a2 s) (a2 r)) (add32 (b2 s) (b2 r)) (add32 (c2 s) (c2 r)) (add32 (d2 s) (d2 r))
        (add32 (e2 s) (e2 r)) (add32 (f2 s) (f2 r)) (add32 (g2 s) (g2 r)) (add32 (h2 s) (h2 r)).

Definition init256 : state256 :=
  St256 (nth 0 H256 0) (nth 1 H256 0) (nth 2 H256 0) (nth 3 H256 0)
        (nth 4 H256 0) (nth 5 H256 0) (nth 6 H256 0) (nth 7 H256 0).

Definition words256 (s : state256) : list Z :=
  [a2 s; b2 s; c2 s; d2 s; e2 s; f2 s; g2 s; h2 s].

Definition sha256 (data : list byte) : list byte :=
  let s := fold_left compress256 (blocks (map Z_of_byte data)) init256 in
  map byte_of_Z (flat_map (be_bytes 4) (words256 s)).

(** *** SHA-1 *)

Fixpoint schedule1 (n : nat) (w : list Z) : list Z :=
  match n with
  | O => w
  | S k =>
      let t := List.length w in
      let x := rotl 1 (Z.lxor (Z.lxor (nth (t - 3) w 0) (nth (t - 8) w 0))
                              (Z.lxor (nth (t - 14) w 0) (nth (t - 16) w 0))) in
      schedule1 k (w ++ [x])%list
  end.

Record state1 := St1 { a1 : Z; b1 : Z; c1 : Z; d1 : Z; e1 : Z }.

Definition f1 (t : nat) (b c d : Z) : Z :=
  if (t <? 20)%nat then ch b c d
  else if (t <? 40)%nat then Z.lxor (Z.lxor b c) d
  else if (t <? 60)%nat then maj b c d
  else Z.lxor (Z.lxor b c) d.

Definition k1 (t : nat) : Z :=
  if (t <? 20)%nat then 0x5a827999
  else if (t <? 40)%nat then 0x6ed9eba1
  else if (t <? 60)%nat then 0x8f1bbcdc
  else 0xca62c1d6.

Definition round1 (s : state1) (tw : nat * Z) : state1 :=
  let t := fst tw in
  let tmp := add32 (add32 (add32 (rotl 5 (a1 s)) (f1 t (b1 s) (c1 s) (d1 s)))
                          (add32 (e1 s) (snd tw))) (k1 t) in
  St1 tmp (a1 s) (rotl 30 (b1 s)) (c1 s) (d1 s).

Definition compress1 (s : state1) (block : list Z) : state1 :=
  let r := fold_left round1 (combine (seq 0 80) (schedule1 64 block)) s in
  St1 (add32 (a1 s) (a1 r)) (add32 (b1 s) (b1 r)) (add32 (c1 s) (c1 r))
      (add32 (d1 s) (d1 r)) (add32 (e1 s) (e1 r)).

Definition init1 : state1 :=
  St1 0x67452301 0xefcdab89 0x98badcfe 0x10325476 0xc3d2e1f0.

Definition words1 (s : state1) : list Z := [a1 s; b1 s; c1 s; d1 s; e1 s].

Definition sha1 (data : list byte) : list byte :=
  let s := fold_left compress1 (blocks (map Z_of_byte data)) init1 in
  map byte_of_Z (flat_map (be_bytes 4) (words1 s)).

(** *** HMAC (RFC 2104) over a hash with 64-byte blocks *)

Definition xor_pad (p : Z) (key : list byte) : list byte :=
  map (fun b => byte_of_Z (Z.lxor (Z_of_byte b) p)) key.

Definition hmac_key (H : list byte -> list byte) (key : list byte) : list byte :=
  let k := if (64 <? List.length key)%nat then H key else key in
  (k ++ repeat x00 (64 - List.length k))%list.

Definition hmac (H : list byte -> list byte) (key msg : list byte) : list byte :=
  let k := hmac_key H key in
  H (xor_pad 0x5c k ++ H (xor_pad 0x36 k ++ msg))%list.

Definition hmac_sha1 : list byte -> list byte -> list byte := hmac sha1.

End Crypto.

(** ** Text encodings of byte strings: [btoa] and two-digit hexadecimal *)

Module Enc.

Definition b64_alphabet : string :=
  "ABCDEFGHIJKLMNOPQRSTUVWXYZabcdefghijklmnopqrstuvwxyz0123456789+/".

Definition b64_char (i : Z) : ascii :=
  match String.get (Z.to_nat i) b64_alphabet with
  | Some c => c
  | None => "="%char
  end.

(** [btoa] on a string whose characters are all below 256. *)
Fixpoint btoa_bytes (bs : list Z) : string :=
  match bs with
  | [] => ""
  | [a] =>
      String (b64_char (Z.shiftr a 2))
        (String (b64_char (Z.shiftl (Z.land a 3) 4)) "==")
  | [a; b] =>
      String (b64_char (Z.shiftr a 2))
        (String (b64_char (Z.lor (Z.shiftl (Z.land a 3) 4) (Z.shiftr b 4)))
           (String (b64_char (Z.shiftl (Z.land b 15) 2)) "="))
  | a :: b :: c :: rest =>
      String (b64_char (Z.shiftr a 2))
        (String (b64_char (Z.lor (Z.shiftl (Z.land a 3) 4) (Z.shiftr b 4)))
           (String (b64_char (Z.lor (Z.shiftl (Z.land b 15) 2) (Z.shiftr c 6)))
              (String (b64_char (Z.land c 63)) (btoa_bytes rest))))
  end.

Definition btoa (s : string) : string :=
  btoa_bytes (map Crypto.Z_of_byte (list_byte_of_string s)).

Definition hex_digit (i : Z) : ascii :=
  match String.get (Z.to_nat i) "0123456789abcdef" with
  | Some c => c
  | None => "0"%char
  end.

(** [b.toString(16).padStart(2, '0')] for a byte [b]. *)
Definition hex2 (b : byte) : string :=
  let z := Crypto.Z_of_byte b in
  String (hex_digit (Z.shiftr z 4)) (String (hex_digit (Z.land z 15)) "").

(** [xs.join('')]. *)
Definition join (xs : list string) : string := fold_right String.append "" xs.

End Enc.

(** ** [Date.prototype.toUTCString]

    The argument is the time value in milliseconds since the epoch.  The
    civil date is recovered from the day number with the usual 400-year
    era arithmetic; [Z.div] and [Z.modulo] round towards minus infinity as
    [Day] and [TimeWithinDay] of ECMAScript do. *)

Module JsDate.

Definition msPerDay : Z := 86400000.

Definition pad_left (width : nat) (s : string) : string :=
  Enc.join (repeat "0" (width - String.length s)) ++ s.

Definition weekday_name (d : Z) : string :=
  nth (Z.to_nat d) ["Sun"; "Mon"; "Tue"; "Wed"; "Thu"; "Fri"; "Sat"] "".

Definition month_name (m : Z) : string :=
  nth (Z.to_nat (m - 1))
      ["Jan"; "Feb"; "Mar"; "Apr"; "May"; "Jun"; "Jul"; "Aug"; "Sep"; "Oct"; "Nov"; "Dec"] "".

(** Year, month (1-12) and day of month of a day number counted from
    1970-01-01. *)
Definition civil_from_days (days : Z) : Z * Z * Z :=
  let z := days + 719468 in
  let era := z / 146097 in
  let doe := z - era * 146097 in
  let yoe := (doe - doe / 1460 + doe / 36524 - doe / 146096) / 365 in
  let doy := doe - (365 * yoe + yoe / 4 - yoe / 100) in
  let mp := (5 * doy + 2) / 153 in
  let d := doy - (153 * mp + 2) / 5 + 1 in
  let m := if mp <? 10 then mp + 3 else mp - 9 in
  let y := yoe + era * 400 in
  (if m <=? 2 then y + 1 else y, m, d).

Definition toUTCString (tv : Z) : string :=
  let day := tv / msPerDay in
  let ms := tv mod msPerDay in
  let '(y, m, d) := civil_from_days day in
  let yearSign := if y <? 0 then "-" else "" in
  weekday_name ((day + 4) mod 7) ++ ", "
    ++ pad_left 2 (Js.showZ d) ++ " " ++ month_name m ++ " "
    ++ yearSign ++ pad_left 4 (Js.showZ (Z.abs y)) ++ " "
    ++ pad_left 2 (Js.showZ (ms / 3600000)) ++ ":"
    ++ pad_left 2 (Js.showZ (ms / 60000 mod 60)) ++ ":"
    ++ pad_left 2 (Js.showZ (ms / 1000 mod 60)) ++ " GMT".

End JsDate.

(** ** Effects: thrown values, observable events and the monad [M] *)

(** A value thrown by [throw] or by a rejected promise: an [Error]
    instance with its [name] and [message], or any other value. *)
Inductive thrown : Type :=
| ErrorObject (name message : string)
| OtherValue (repr : string).

(** [new Error(message)]. *)
Definition newError (message : string) : thrown := ErrorObject "Error" message.

(** [error instanceof Error]. *)
Definition instanceofError (e : thrown) : bool :=
  match e with ErrorObject _ _ => true | OtherValue _ => false end.

Definition message_of (e : thrown) : string :=
  match e with ErrorObject _ m => m | OtherValue _ => "" end.

(** What [crypto.subtle.importKey] rejects a zero-length HMAC key with: a
    [DOMException] of name [DataError], which is an [Error]. *)
Definition zeroLengthKeyError : thrown :=
  ErrorObject "DataError" "Zero-length key is not supported".

(** JavaScript numbers that are only passed along (compression limits). *)
Definition number : Type := Z * positive.

(** Handle of a caller-supplied progress callback. *)
Definition progress_sink : Type := nat.

Record RequestUrlParam : Type := mkRequest {
  url : string;
  method : string;
  headers : list (string * string);
  body : option (list byte)
}.

Record RequestUrlResponse : Type := mkResponse { status : Z }.

(** The [File] handed to [imageCompression] and its options object. *)
Record ImageFile : Type := mkFile {
  file_bits : list byte;
  file_name : string;
  file_type : string
}.

Record CompressionOptions : Type := mkCompressionOptions {
  opt_maxSizeMB : number;
  opt_maxWidthOrHeight : number;
  opt_useWebWorker : bool;
  opt_onProgress : option progress_sink
}.

Inductive event : Type :=
| Request (r : RequestUrlParam)
| Sleep (ms : Z)
| Compress (f : ImageFile) (o : CompressionOptions).

(** Events in chronological order. *)
Definition trace : Type := list event.

Inductive outcome (A : Type) : Type :=
| Resolved (a : A)
| Rejected (e : thrown).
Arguments Resolved {A} a.
Arguments Rejected {A} e.

(** Everything outside the service: the wall clock, the remote store
    reached through [requestUrl], and [imageCompression].  Each may depend
    on the whole history. *)
Record environment : Type := mkEnv {
  clock : trace -> Z;
  remote : trace -> RequestUrlParam -> outcome RequestUrlResponse;
  compressor : trace -> ImageFile -> CompressionOptions -> outcome (list byte)
}.

Definition M (A : Type) : Type := trace -> outcome A * trace.

Definition ret {A} (a : A) : M A := fun tr => (Resolved a, tr).

Definition throw {A} (e : thrown) : M A := fun tr => (Rejected e, tr).

Definition bind {A B} (m : M A) (k : A -> M B) : M B :=
  fun tr =>
    match m tr with
    | (Resolved a, tr') => k a tr'
    | (Rejected e, tr') => (Rejected e, tr')
    end.

(** [try { m } catch (error) { handler error }]. *)
Definition try_catch {A} (m : M A) (handler : thrown -> M A) : M A :=
  fun tr =>
    match m tr with
    | (Resolved a, tr') => (Resolved a, tr')
    | (Rejected e, tr') => handler e tr'
    end.

Declare Scope js_scope.
Delimit Scope js_scope with js.
Notation "x <- m ;; k" := (bind m (fun x => k))
  (at level 61, m at next level, right associativity) : js_scope.
Notation "m ;;; k" := (bind m (fun _ => k))
  (at level 61, right associativity) : js_scope.

Section Primitives.
Variable env : environment.

(** [new Date().toUTCString()]. *)
Definition nowUTCString : M string :=
  fun tr => (Resolved (JsDate.toUTCString (clock env tr)), tr).

(** [await requestUrl(param)]. *)
Definition requestUrl (param : RequestUrlParam) : M RequestUrlResponse :=
  fun tr => (remote env tr param, (tr ++ [Request param])%list).

(** [await new Promise(resolve => setTimeout(resolve, delay))]. *)
Definition sleep (delay : Z) : M unit :=
  fun tr => (Resolved tt, (tr ++ [Sleep delay])%list).

(** [await (await imageCompression(file, options)).arrayBuffer()]. *)
Definition imageCompression (file : ImageFile) (options : CompressionOptions)
  : M (list byte) :=
  fun tr => (compressor env tr file options, (tr ++ [Compress file options])%list).
End Primitives.

(** ** Settings *)

Record AliyunOssSettings : Type := mkSettings {
  accessKeyId : string;
  accessKeySecret : string;
  bucket : string;
  region : string;
  customDomain : string;
  path : string;
  enableCompression : bool;
  maxSizeMB : number;
  maxWidthOrHeight : number;
  interceptPasteAndDrop : bool
}.

Definition DEFAULT_SETTINGS : AliyunOssSettings :=
  {| accessKeyId := "";
     accessKeySecret := "";
     bucket := "";
     region := "";
     customDomain := "";
     path := "obsidian/";
     enableCompression := true;
     maxSizeMB := (3, 10%positive);
     maxWidthOrHeight := (1280, 1%positive);
     interceptPasteAndDrop := true |}.

(** The [options] argument of [uploadWithCompression]. *)
Record UploadOptions : Type := mkOptions {
  onProgress : option progress_sink;
  skipExistCheck : option bool
}.

(** [options?.skipExistCheck] coerced to a boolean: [undefined] is falsy. *)
Definition skipExistCheckOf (options : option UploadOptions) : bool :=
  match options with
  | Some o => match skipExistCheck o with Some b => b | None => false end
  | None => false
  end.

(** [options?.onProgress]. *)
Definition onProgressOf (options : option UploadOptions) : option progress_sink :=
  match options with Some o => onProgress o | None => None end.

(** ** The class [OssService] *)

Definition LF : string := String (ascii_of_nat 10) "".

(** [/^(png|jpe?g|gif|webp|bmp)$/i.test(ext)]. *)
Definition imageExtTest (ext : string) : bool :=
  existsb (String.eqb (Js.toLowerCaseASCII ext))
          ["png"; "jpg"; "jpeg"; "gif"; "webp"; "bmp"].

Definition maxRetries : nat := 3.

(** The [type] of a [Blob] or [File] built with the option [{ type: t }]:
    empty when [t] has a character outside U+0020 to U+007E, else [t] in
    ASCII lower case. *)
Fixpoint blobTypeValid (t : string) : bool :=
  match t with
  | EmptyString => true
  | String c rest =>
      (32 <=? nat_of_ascii c)%nat && (nat_of_ascii c <=? 126)%nat && blobTypeValid rest
  end.

Definition blobType (t : string) : string :=
  if blobTypeValid t then Js.toLowerCaseASCII t else "".

(** [crypto.subtle.importKey('raw', keyData, { name: 'HMAC', hash: 'SHA-1' },
    false, ['sign'])]: the key is its raw bytes, and a key of length zero
    is refused. *)
Definition importKey (keyData : list byte) : M (list byte) :=
  match keyData with
  | [] => throw zeroLengthKeyError
  | _ :: _ => ret keyData
  end.

Section OssService.
Variable settings : AliyunOssSettings.
Variable env : environment.

Local Open Scope js_scope.

Definition validateSettings : M unit :=
  if negb (Js.truthy (accessKeyId settings)) then throw (newError "缺少 Access Key ID")
  else if negb (Js.truthy (accessKeySecret settings)) then throw (newError "缺少 Access Key Secret")
  else if negb (Js.truthy (bucket settings)) then throw (newError "缺少 Bucket")
  else if negb (Js.truthy (region settings)) then throw (newError "缺少 Region")
  else ret tt.

(** The recursion of [retryOperation] on [retryCount] stops as soon as
    [retryCount] reaches [maxRetries]; [fuel] counts the remaining
    distance, so the branch at [O] is the one where the guard
    [retryCount < maxRetries] is false. *)
Fixpoint retry_from {T} (fuel : nat) (operation : M T) (retryCount : nat) : M T :=
  try_catch operation (fun error =>
    match fuel with
    | S fuel' =>
        if (retryCount <? maxRetries)%nat then
          let delay := 2 ^ Z.of_nat retryCount * 1000 in
          sleep delay ;;;
          retry_from fuel' operation (retryCount + 1)
        else throw error
    | O => throw error
    end).

Definition retryOperation {T} (operation : M T) (retryCount : nat) : M T :=
  retry_from (maxRetries - retryCount) operation retryCount.

Definition calculateSignature (stringToSign accessKeySecret : string) : M string :=
  key <- importKey (Js.encode accessKeySecret) ;;
  let signature := Crypto.hmac_sha1 key (Js.encode stringToSign) in
  ret (Enc.btoa (Js.fromCharCodes signature)).

Definition generateSignature (ossPath contentType : string) : M (string * string) :=
  date <- nowUTCString env ;;
  let ossResource := "/" ++ bucket settings ++ "/" ++ ossPath in
  let stringToSign :=
    "PUT" ++ LF ++ LF ++ contentType ++ LF ++ date ++ LF ++ ossResource in
  signature <- calculateSignature stringToSign (accessKeySecret settings) ;;
  let authorization := "OSS " ++ accessKeyId settings ++ ":" ++ signature in
  let endpoint :=
    "https://" ++ bucket settings ++ "." ++ region settings ++ ".aliyuncs.com/" ++ ossPath in
  ret (authorization, endpoint).

Definition calculateHash (data : list byte) : string :=
  let hashArray := Crypto.sha256 data in
  Enc.join (map Enc.hex2 hashArray).

Definition checkFileExists (ossPath : string) : M bool :=
  try_catch
    (let endpoint :=
       "https://" ++ bucket settings ++ "." ++ region settings ++ ".aliyuncs.com/" ++ ossPath in
     date <- nowUTCString env ;;
     let stringToSign :=
       "HEAD" ++ LF ++ LF ++ LF ++ date ++ LF ++ "/" ++ bucket settings ++ "/" ++ ossPath in
     signature <- calculateSignature stringToSign (accessKeySecret settings) ;;
     let authorization := "OSS " ++ accessKeyId settings ++ ":" ++ signature in
     response <- requestUrl env
       {| url := endpoint;
          method := "HEAD";
          headers := [("Authorization", authorization); ("Date", date)];
          body := None |} ;;
     ret (status response =? 200))
    (fun error =>
       if instanceofError error && Js.includes "404" (message_of error)
       then ret false
       else throw error).

(** [fileName.split('.').pop() || '']. *)
Definition fileExtOf (fileName : string) : string :=
  Js.or_undefined (Js.pop (Js.split "." fileName)) "".

Definition ossPathOf (fileContent : list byte) (fileName : string) : string :=
  let fileExt := fileExtOf fileName in
  let originalHash := calculateHash fileContent in
  path settings ++ originalHash ++ "." ++ fileExt.

(** [this.settings.customDomain || `https://${bucket}.${region}.aliyuncs.com`]
    followed by [`${baseUrl}/${ossPath}`]. *)
Definition publicUrl (ossPath : string) : string :=
  let baseUrl :=
    Js.or (customDomain settings)
          ("https://" ++ bucket settings ++ "." ++ region settings ++ ".aliyuncs.com") in
  baseUrl ++ "/" ++ ossPath.

(** The closure passed to [retryOperation] by the upload. *)
Definition putOperation (endpoint authorization contentType : string)
           (finalContent : list byte) : M unit :=
  date <- nowUTCString env ;;
  response <- requestUrl env
    {| url := endpoint;
       method := "PUT";
       headers := [("Authorization", authorization);
                   ("Date", date);
                   ("Content-Type", contentType)];
       body := Some finalContent |} ;;
  if negb (status response =? 200)
  then throw (newError ("上传失败: HTTP " ++ Js.showZ (status response)))
  else ret tt.

(** Statements of [uploadWithCompression] after the existence check. *)
Definition transformAndPut (fileContent : list byte) (fileName : string)
           (options : option UploadOptions) (fileExt ossPath : string) : M string :=
  finalContent <-
    (if enableCompression settings && imageExtTest fileExt then
       let imageFile :=
         {| file_bits := fileContent;
            file_name := fileName;
            file_type := blobType ("image/" ++ fileExt) |} in
       let compressionOptions :=
         {| opt_maxSizeMB := maxSizeMB settings;
            opt_maxWidthOrHeight := maxWidthOrHeight settings;
            opt_useWebWorker := true;
            opt_onProgress := onProgressOf options |} in
       imageCompression env imageFile compressionOptions
     else ret fileContent) ;;
  let contentType := "image/" ++ fileExt in
  sig <- generateSignature ossPath contentType ;;
  let '(authorization, endpoint) := sig in
  retryOperation (putOperation endpoint authorization contentType finalContent) 0 ;;;
  ret (publicUrl ossPath).

Definition uploadWithCompression (fileContent : list byte) (fileName : string)
           (options : option UploadOptions) : M string :=
  let fileExt := fileExtOf fileName in
  let ossPath := ossPathOf fileContent fileName in
  if negb (skipExistCheckOf options) then
    fileExists <- checkFileExists ossPath ;;
    if (fileExists : bool) then ret (publicUrl ossPath)
    else transformAndPut fileContent fileName options fileExt ossPath
  else transformAndPut fileContent fileName options fileExt ossPath.

Definition uploadFile (fileContent : list byte) (fileName : string)
           (progressCallback : option progress_sink) : M string :=
  validateSettings ;;;
  uploadWithCompression fileContent fileName
    (Some {| onProgress := progressCallback; skipExistCheck := Some false |}).

End OssService.

(** ** Vocabulary of the statements *)

(** [s] contains the character [c]. *)
Definition has_char (c : ascii) (s : string) : bool := Js.includes (String c "") s.

Definition is_lower_hex (c : ascii) : bool :=
  let n := nat_of_ascii c in
  ((48 <=? n) && (n <=? 57) || (97 <=? n) && (n <=? 102))%nat.

Fixpoint string_forall (p : ascii -> bool) (s : string) : bool :=
  match s with
  | EmptyString => true
  | String c rest => p c && string_forall p rest
  end.

(** The canonical string of the signing protocol as the specification
    words it: verb, content-MD5, content-type, timestamp and resource,
    one per line. *)
Definition canonical_string (verb contentMD5 contentType date resource : string) : string :=
  verb ++ LF ++ contentMD5 ++ LF ++ contentType ++ LF ++ date ++ LF ++ resource.

(** The specification's signature: base64 of the HMAC-SHA1 tag of the
    text under the secret. *)
Definition spec_signature (secret text : string) : string :=
  Enc.btoa (Js.fromCharCodes (Crypto.hmac Crypto.sha1 (Js.encode secret) (Js.encode text))).

(** The specification's header value: scheme, space, key id, colon,
    signature. *)
Definition authorization_value (scheme keyId signature : string) : string :=
  scheme ++ " " ++ keyId ++ ":" ++ signature.

(** Host-qualified address of an object. *)
Definition endpointOf (s : AliyunOssSettings) (key : string) : string :=
  "https://" ++ bucket s ++ "." ++ region s ++ ".aliyuncs.com/" ++ key.

(** Resource of an object in the canonical string. *)
Definition resourceOf (s : AliyunOssSettings) (key : string) : string :=
  "/" ++ bucket s ++ "/" ++ key.

(** The existence probe sent at date [date]. *)
Definition probeRequest (s : AliyunOssSettings) (key date : string) : RequestUrlParam :=
  {| url := endpointOf s key;
     method := "HEAD";
     headers :=
       [("Authorization",
         authorization_value "OSS" (accessKeyId s)
           (spec_signature (accessKeySecret s)
              (canonical_string "HEAD" "" "" date (resourceOf s key))));
        ("Date", date)];
     body := None |}.

(** A transfer request carrying the authorization [authorization] and sent
    at date [date]. *)
Definition putRequest (endpoint authorization date contentType : string)
           (payload : list byte) : RequestUrlParam :=
  {| url := endpoint;
     method := "PUT";
     headers := [("Authorization", authorization);
                 ("Date", date);
                 ("Content-Type", contentType)];
     body := Some payload |}.

(** One backoff time unit, in the milliseconds of [setTimeout]. *)
Definition timeUnit : Z := 1000.

(** The settings with other compression parameters. *)
Definition withCompression (s : AliyunOssSettings) (enable : bool) (size dim : number)
  : AliyunOssSettings :=
  {| accessKeyId := accessKeyId s;
     accessKeySecret := accessKeySecret s;
     bucket := bucket s;
     region := region s;
     customDomain := customDomain s;
     path := path s;
     enableCompression := enable;
     maxSizeMB := size;
     maxWidthOrHeight := dim;
     interceptPasteAndDrop := interceptPasteAndDrop s |}.

(** The reading of "surfaced as a wrapper": whatever the loop throws
    after its last attempt differs from the value that attempt threw. *)
Definition surfaced_error_is_wrapper {T} (op : M T) (tr0 : trace) : Prop :=
  forall e tr',
    retryOperation op 0 tr0 = (Rejected e, tr') ->
    forall tr_last cause, op tr_last = (Rejected cause, tr') -> e <> cause.

(** What one upload may log: the probe of its key, a compression, and
    transfers of one payload to the endpoint of its key under one
    authorization, separated by waits. *)
Inductive upload_event (s : AliyunOssSettings) (key contentType authorization : string)
          (payload : list byte) : event -> Prop :=
| ue_probe (date : string) :
    upload_event s key contentType authorization payload
      (Request (probeRequest s key date))
| ue_compress (f : ImageFile) (o : CompressionOptions) :
    upload_event s key contentType authorization payload (Compress f o)
| ue_put (date : string) :
    upload_event s key contentType authorization payload
      (Request (putRequest (endpointOf s key) authorization date contentType payload))
| ue_sleep (ms : Z) :
    upload_event s key contentType authorization payload (Sleep ms).

(** The storage key in the words of the specification, with the
    extension of the file name in lower case. *)
Definition spec_storage_key (s : AliyunOssSettings) (content : list byte) (name : string)
  : string :=
  path s ++ Enc.join (map Enc.hex2 (Crypto.sha256 content)) ++ "."
    ++ Js.toLowerCaseASCII (fileExtOf name).

(** The value of the header [k], empty when absent. *)
Definition header (k : string) (hs : list (string * string)) : string :=
  match find (fun kv => String.eqb (fst kv) k) hs with
  | Some kv => snd kv
  | None => ""
  end.

(** The requests of a trace. *)
Definition requests_of (tr : trace) : list RequestUrlParam :=
  flat_map (fun ev => match ev with Request r => [r] | _ => [] end) tr.

(** The reading of the probe claim.  The not-found signal is a rejection
    by an [Error] whose message carries 404, or a response of status 404;
    a success is a response of status 2xx. *)
Definition not_found_signal (o : outcome RequestUrlResponse) : Prop :=
  match o with
  | Resolved response => status response = 404
  | Rejected error =>
      instanceofError error = true /\ Js.includes "404" (message_of error) = true
  end.

Definition success_response (o : outcome RequestUrlResponse) : Prop :=
  match o with
  | Resolved response => 200 <= status response < 300
  | Rejected _ => False
  end.

Definition probe_claim (s : AliyunOssSettings) (env : environment) (key : string)
           (tr : trace) : Prop :=
  let answer := remote env tr (probeRequest s key (JsDate.toUTCString (clock env tr))) in
  (fst (checkFileExists s env key tr) = Resolved false <-> not_found_signal answer)
  /\ (~ success_response answer -> ~ not_found_signal answer ->
      exists error, fst (checkFileExists s env key tr) = Rejected error).

(** ** Concrete environments

    A remote in the style of the object store: it recomputes the
    signature of each request from the headers it receives and rejects a
    mismatch with status 403; [requestUrl] turns a status of 400 and above
    into a rejection whose message carries the status. *)

Module Scenario.

Definition settings : AliyunOssSettings :=
  {| accessKeyId := "LTAI4Demo";
     accessKeySecret := "secret";
     bucket := "mybucket";
     region := "oss-cn-hangzhou";
     customDomain := "";
     path := "obsidian/";
     enableCompression := true;
     maxSizeMB := (3, 10%positive);
     maxWidthOrHeight := (1280, 1%positive);
     interceptPasteAndDrop := true |}.

Definition is_sleep (ev : event) : Z :=
  match ev with Sleep ms => ms | _ => 0 end.

Definition is_request (verb : string) (ev : event) : bool :=
  match ev with Request r => String.eqb (method r) verb | _ => false end.

(** The clock starts on 1 January 2019 and advances with the delays. *)
Definition clock0 : Z := 1546300800000.

Definition sleeping_clock (tr : trace) : Z :=
  clock0 + fold_right Z.add 0 (map is_sleep tr).

Definition count (verb : string) (tr : trace) : nat :=
  List.length (filter (is_request verb) tr).

Definition http_error (code : Z) : thrown :=
  ErrorObject "Error" ("Request failed, status " ++ Js.showZ code).

Definition network_error : thrown := ErrorObject "Error" "net::ERR_CONNECTION_RESET".

(** What the store expects in [Authorization] for the request it sees. *)
Definition expected_authorization (s : AliyunOssSettings) (r : RequestUrlParam) : string :=
  let host := "https://" ++ bucket s ++ "." ++ region s ++ ".aliyuncs.com" in
  let object := substring (String.length host) (String.length (url r)) (url r) in
  let stringToSign :=
    method r ++ LF ++ header "Content-MD5" (headers r) ++ LF
      ++ header "Content-Type" (headers r) ++ LF
      ++ header "Date" (headers r) ++ LF ++ "/" ++ bucket s ++ object in
  "OSS " ++ accessKeyId s ++ ":" ++ spec_signature (accessKeySecret s) stringToSign.

(** An empty store behind a link that drops the first [outage] PUTs. *)
Definition verifying_remote (s : AliyunOssSettings) (outage : nat)
           (tr : trace) (r : RequestUrlParam) : outcome RequestUrlResponse :=
  if String.eqb (method r) "PUT" && (count "PUT" tr <? outage)%nat then Rejected network_error
  else if negb (String.eqb (header "Authorization" (headers r)) (expected_authorization s r))
       then Rejected (http_error 403)
  else if String.eqb (method r) "HEAD" then Rejected (http_error 404)
  else Resolved {| status := 200 |}.

(** A remote that answers by verb alone. *)
Definition scripted_remote (head : outcome RequestUrlResponse)
           (puts : list (outcome RequestUrlResponse))
           (tr : trace) (r : RequestUrlParam) : outcome RequestUrlResponse :=
  if String.eqb (method r) "HEAD" then head
  else nth (count "PUT" tr) puts (Resolved {| status := 200 |}).

Definition halving_compressor (tr : trace) (f : ImageFile) (o : CompressionOptions)
  : outcome (list byte) :=
  Resolved (firstn (Nat.div2 (List.length (file_bits f))) (file_bits f)).

Definition env_verifying (outage : nat) : environment :=
  {| clock := sleeping_clock;
     remote := verifying_remote settings outage;
     compressor := halving_compressor |}.

Definition env_scripted (head : outcome RequestUrlResponse)
           (puts : list (outcome RequestUrlResponse)) : environment :=
  {| clock := sleeping_clock;
     remote := scripted_remote head puts;
     compressor := halving_compressor |}.

Definition payload : list byte := Js.encode "PNG-bytes".

(** A transfer of [payload] to a fixed object, against a scripted link. *)
Definition demo_endpoint : string := endpointOf settings "obsidian/abc.png".

Definition demo_authorization : string := "OSS LTAI4Demo:r0kg9n23r6gJdx36CfhHub9IDL4=".

Definition transfer (puts : list (outcome RequestUrlResponse)) : M unit :=
  putOperation (env_scripted (Rejected (http_error 404)) puts)
               demo_endpoint demo_authorization "image/png" payload.

Definition put_at (date : string) : event :=
  Request (putRequest demo_endpoint demo_authorization date "image/png" payload).

Definition date_0s : string := "Tue, 01 Jan 2019 00:00:00 GMT".
Definition date_1s : string := "Tue, 01 Jan 2019 00:00:01 GMT".
Definition date_3s : string := "Tue, 01 Jan 2019 00:00:03 GMT".
Definition date_7s : string := "Tue, 01 Jan 2019 00:00:07 GMT".

(** The transfers of a trace with the date and the authorization each was
    sent with. *)
Definition sent_puts (tr : trace) : list (string * string) :=
  map (fun r => (header "Date" (headers r), header "Authorization" (headers r)))
      (filter (fun r => String.eqb (method r) "PUT") (requests_of tr)).

(** The authorization of a PUT of [payload] as ["shot.png"], signed for
    the date [date]. *)
Definition shot_authorization (date : string) : string :=
  authorization_value "OSS" (accessKeyId settings)
    (spec_signature (accessKeySecret settings)
       (canonical_string "PUT" "" "image/png" date
          (resourceOf settings (ossPathOf settings payload "shot.png")))).

End Scenario.

(** ** Vocabulary of the further properties *)

(** The external calls of a run, by kind: the probe, the compression, a
    transfer, a wait of so many milliseconds. *)
Inductive call : Type :=
| CallProbe
| CallCompress
| CallPut
| CallWait (ms : Z).

Definition call_of (ev : event) : call :=
  match ev with
  | Request r => if String.eqb (method r) "HEAD" then CallProbe else CallPut
  | Sleep ms => CallWait ms
  | Compress _ _ => CallCompress
  end.

(** The call sequences a retried transfer can leave when it starts at
    [retryCount] with [fuel] recursive calls left. *)
Fixpoint transfer_patterns (fuel retryCount : nat) : list (list call) :=
  [CallPut]
    :: match fuel with
       | O => []
       | S fuel' =>
           if (retryCount <? maxRetries)%nat
           then map (fun p => CallPut :: CallWait (2 ^ Z.of_nat retryCount * 1000) :: p)
                    (transfer_patterns fuel' (retryCount + 1))
           else []
       end.

(** The settings with another public domain. *)
Definition withCustomDomain (s : AliyunOssSettings) (domain : string) : AliyunOssSettings :=
  {| accessKeyId := accessKeyId s;
     accessKeySecret := accessKeySecret s;
     bucket := bucket s;
     region := region s;
     customDomain := domain;
     path := path s;
     enableCompression := enableCompression s;
     maxSizeMB := maxSizeMB s;
     maxWidthOrHeight := maxWidthOrHeight s;
     interceptPasteAndDrop := interceptPasteAndDrop s |}.

(** The [File] and the options object that [uploadWithCompression] hands
    to [imageCompression]. *)
Definition compressionFile (content : list byte) (name : string) : ImageFile :=
  {| file_bits := content;
     file_name := name;
     file_type := blobType ("image/" ++ fileExtOf name) |}.

Definition compressionOptionsOf (s : AliyunOssSettings) (options : option UploadOptions)
  : CompressionOptions :=
  {| opt_maxSizeMB := maxSizeMB s;
     opt_maxWidthOrHeight := maxWidthOrHeight s;
     opt_useWebWorker := true;
     opt_onProgress := onProgressOf options |}.

(** The authorization of a PUT signed when the trace was [tr]. *)
Definition putAuthorization (s : AliyunOssSettings) (env : environment)
           (key contentType : string) (tr : trace) : string :=
  authorization_value "OSS" (accessKeyId s)
    (spec_signature (accessKeySecret s)
       (canonical_string "PUT" "" contentType
          (JsDate.toUTCString (clock env tr)) (resourceOf s key))).

(** Signing at the trace [tr1] and transferring [final] with retries, as
    [uploadWithCompression] does after the compression. *)
Definition transferFrom (s : AliyunOssSettings) (env : environment)
           (key contentType : string) (final : list byte) (tr1 : trace)
  : outcome string * trace :=
  if Js.truthy (accessKeySecret s) then
    match retry_from maxRetries
            (putOperation env (endpointOf s key)
               (putAuthorization s env key contentType tr1) contentType final) 0 tr1 with
    | (Resolved _, tr2) => (Resolved (publicUrl s key), tr2)
    | (Rejected error, tr2) => (Rejected error, tr2)
    end
  else (Rejected zeroLengthKeyError, tr1).

(** Further environments. *)

Module Cases.

Definition compressor_error : thrown :=
  ErrorObject "Error" "The file given is not an image".

(** An empty verifying store behind a compressor that always fails. *)
Definition env_failing_compressor : environment :=
  {| clock := Scenario.sleeping_clock;
     remote := Scenario.verifying_remote Scenario.settings 0;
     compressor := fun _ _ _ => Rejected compressor_error |}.

Definition settings_with_cdn : AliyunOssSettings :=
  withCustomDomain Scenario.settings "https://cdn.example.com".

(** Complete settings but for the access key id. *)
Definition settings_without_id : AliyunOssSettings :=
  {| accessKeyId := "";
     accessKeySecret := "secret";
     bucket := "mybucket";
     region := "oss-cn-hangzhou";
     customDomain := "";
     path := "obsidian/";
     enableCompression := true;
     maxSizeMB := (3, 10%positive);
     maxWidthOrHeight := (1280, 1%positive);
     interceptPasteAndDrop := true |}.

End Cases.

(** ** The plugin around the service

    The host is reduced to what the handlers read and write: the active
    Markdown view (its text as a sequence of code units, its cursor, and
    the embeds the metadata cache lists for its file), and a log of what
    the handlers show or write (notices, console, clipboard).  Editor
    positions are offsets, so that [offsetToPos] is the identity; nothing
    else edits the view while a handler runs.  The text shown by a notice
    while the compressor reports progress is not part of the log. *)

Module Plugin.

Record EmbedCache : Type := mkEmbed {
  link : string;
  startOffset : nat;
  endOffset : nat
}.

Record MarkdownView : Type := mkView {
  value : list ascii;
  cursor : nat;
  (** [activeView.file], and for a file [getFileCache(file)?.embeds] *)
  viewFile : option (option (list EmbedCache))
}.

Inductive ui_event : Type :=
| NoticeShown (message : string) (duration : option Z)
| NoticeHidden (message : string)
| ConsoleError (label : string) (error : thrown)
| ClipboardWrite (text : string).

Record Workspace : Type := mkWorkspace {
  activeView : option MarkdownView;
  (** what [navigator.clipboard.writeText] rejects with, if it does *)
  clipboardDenied : option thrown;
  ui : list ui_event
}.

(** A [TFile] with what [vault.readBinary] answers for it, and a [File]
    from the clipboard or a drop with its bytes. *)
Record TFile : Type := mkTFile {
  tfile_name : string;
  tfile_extension : string;
  tfile_binary : outcome (list byte)
}.

Record File : Type := mkBlob {
  blob_name : string;
  blob_bits : list byte
}.

Record DataTransferItem : Type := mkItem {
  item_type : string;
  (** [item.getAsFile()] *)
  item_file : option File
}.

(** [file.extension.match(/png|jpg|jpeg|gif|bmp|webp/i)] as a boolean:
    some alternative occurs in the extension, in any letter case. *)
Definition fileMenuMatch (extension : string) : bool :=
  existsb (fun alt => Js.includes alt (Js.toLowerCaseASCII extension))
          ["png"; "jpg"; "jpeg"; "gif"; "bmp"; "webp"].

(** [[^/.]+$] from the start of [s]: [s] is not empty and has neither
    ['/'] nor ['.']. *)
Fixpoint extensionTail (s : string) : bool :=
  match s with
  | EmptyString => false
  | String c rest =>
      negb (Ascii.eqb c "/") && negb (Ascii.eqb c ".")
      && match rest with
         | EmptyString => true
         | _ => extensionTail rest
         end
  end.

(** [fileName.replace(/\.[^/.]+$/, "")]: the leftmost match is cut. *)
Fixpoint baseFileNameOf (fileName : string) : string :=
  match fileName with
  | EmptyString => EmptyString
  | String c rest =>
      if Ascii.eqb c "." && extensionTail rest then EmptyString
      else String c (baseFileNameOf rest)
  end.

(** [`![${baseFileName}](${imageUrl})`]. *)
Definition markdownLink (baseFileName imageUrl : string) : string :=
  "![" ++ baseFileName ++ "](" ++ imageUrl ++ ")".

(** [editor.replaceRange(replacement, from, to)] on the text. *)
Definition replaceRange (replacement : string) (from to : nat) (doc : list ascii)
  : list ascii :=
  (firstn from doc ++ list_ascii_of_string replacement ++ skipn to doc)%list.

Definition setValue (view : MarkdownView) (doc : list ascii) : MarkdownView :=
  {| value := doc; cursor := cursor view; viewFile := viewFile view |}.

Definition setView (ws : Workspace) (view : MarkdownView) : Workspace :=
  {| activeView := Some view; clipboardDenied := clipboardDenied ws; ui := ui ws |}.

Definition log (ws : Workspace) (ev : ui_event) : Workspace :=
  {| activeView := activeView ws;
     clipboardDenied := clipboardDenied ws;
     ui := (ui ws ++ [ev])%list |}.

(** The loop of [updateMarkdown] over [cache.embeds], from the last embed
    to the first: the text so far and the flag [replaced]. *)
Definition replaceEmbeds (fileName replacement : string) (embeds : list EmbedCache)
           (doc : list ascii) : list ascii * bool :=
  fold_left
    (fun acc embed =>
       if String.eqb (link embed) fileName
       then (replaceRange replacement (startOffset embed) (endOffset embed) (fst acc), true)
       else acc)
    (rev embeds) (doc, false).

Definition updateMarkdown (fileName imageUrl : string) (ws : Workspace)
  : outcome unit * Workspace :=
  match activeView ws with
  | None =>
      match clipboardDenied ws with
      | Some error => (Rejected error, ws)
      | None => (Resolved tt, log ws (ClipboardWrite imageUrl))
      end
  | Some view =>
      match viewFile view with
      | None => (Resolved tt, ws)
      | Some cache =>
          let baseFileName := baseFileNameOf fileName in
          let '(doc, replaced) :=
            match cache with
            | Some embeds =>
                replaceEmbeds fileName (markdownLink baseFileName imageUrl) embeds (value view)
            | None => (value view, false)
            end in
          if replaced then (Resolved tt, setView ws (setValue view doc))
          else
            (Resolved tt,
             setView ws
               (setValue view
                  (replaceRange (markdownLink baseFileName imageUrl ++ LF)
                     (cursor view) (cursor view) doc)))
      end
  end.

(** [`上传失败: ${error instanceof Error ? error.message : '未知错误'}`]. *)
Definition failureNotice (error : thrown) : string :=
  "上传失败: " ++ (if instanceofError error then message_of error else "未知错误").

Section Handlers.
Variable settings : AliyunOssSettings.
Variable env : environment.

(** The [catch] block shared by the two handlers. *)
Definition reportFailure (error : thrown) (ws : Workspace) : Workspace :=
  log (log ws (ConsoleError "上传失败:" error)) (NoticeShown (failureNotice error) None).

(** The options the handlers pass: the progress callback bound to the
    notice they opened (its index in the log), and no [skipExistCheck]. *)
Definition handlerOptions (ws : Workspace) : option UploadOptions :=
  Some {| onProgress := Some (List.length (ui ws)); skipExistCheck := None |}.

Definition uploadImage (file : option TFile) (ws : Workspace) (tr : trace)
  : outcome unit * Workspace * trace :=
  let ws1 := log ws (NoticeShown "准备上传..." (Some 0)) in
  match file with
  | None => (Resolved tt, reportFailure (newError "无效的文件") ws1, tr)
  | Some f =>
      match tfile_binary f with
      | Rejected error => (Resolved tt, reportFailure error ws1, tr)
      | Resolved arrayBuffer =>
          match uploadWithCompression settings env arrayBuffer (tfile_name f)
                  (handlerOptions ws) tr with
          | (Rejected error, tr') => (Resolved tt, reportFailure error ws1, tr')
          | (Resolved imageUrl, tr') =>
              match updateMarkdown (tfile_name f) imageUrl ws1 with
              | (Rejected error, ws2) => (Resolved tt, reportFailure error ws2, tr')
              | (Resolved _, ws2) =>
                  (Resolved tt,
                   log (log ws2 (NoticeHidden "准备上传..."))
                       (NoticeShown "上传成功！" None),
                   tr')
              end
          end
      end
  end.

Definition handleImageUpload (blob : File) (ws : Workspace) (tr : trace)
  : outcome unit * Workspace * trace :=
  let ws1 := log ws (NoticeShown "准备上传..." (Some 0)) in
  match uploadWithCompression settings env (blob_bits blob) (blob_name blob)
          (handlerOptions ws) tr with
  | (Rejected error, tr') => (Resolved tt, reportFailure error ws1, tr')
  | (Resolved imageUrl, tr') =>
      let ws2 :=
        match activeView ws1 with
        | Some view =>
            let baseFileName := baseFileNameOf (blob_name blob) in
            setView ws1
              (setValue view
                 (replaceRange (markdownLink baseFileName imageUrl ++ LF)
                    (cursor view) (cursor view) (value view)))
        | None => ws1
        end in
      (Resolved tt,
       log (log ws2 (NoticeHidden "准备上传...")) (NoticeShown "上传成功！" None),
       tr')
  end.

(** The loop of the paste and drop handlers over the items: whether
    [preventDefault] was called, and the state after. *)
Fixpoint interceptItems (items : list DataTransferItem) (ws : Workspace) (tr : trace)
  : bool * Workspace * trace :=
  match items with
  | [] => (false, ws, tr)
  | item :: rest =>
      if String.prefix "image/" (item_type item) then
        match item_file item with
        | Some blob =>
            let '(_, ws', tr') := handleImageUpload blob ws tr in (true, ws', tr')
        | None => (true, ws, tr)
        end
      else interceptItems rest ws tr
  end.

(** The [editor-paste] and [editor-drop] handlers; [items] is
    [evt.clipboardData?.items] or [evt.dataTransfer?.items]. *)
Definition onEditorPasteOrDrop (items : option (list DataTransferItem))
           (ws : Workspace) (tr : trace) : bool * Workspace * trace :=
  if negb (interceptPasteAndDrop settings) then (false, ws, tr)
  else match items with
       | None => (false, ws, tr)
       | Some l => interceptItems l ws tr
       end.

End Handlers.

(** The text [updateMarkdown] aims at, read from left to right from the
    offset [pos]: the text between the embeds as it is, and each embed
    whose link is the file name replaced. *)
Fixpoint replacedFrom (pos : nat) (fileName replacement : string)
         (embeds : list EmbedCache) (doc : list ascii) : list ascii :=
  match embeds with
  | [] => skipn pos doc
  | embed :: rest =>
      (firstn (startOffset embed - pos) (skipn pos doc)
       ++ (if String.eqb (link embed) fileName
           then list_ascii_of_string replacement
           else firstn (endOffset embed - startOffset embed) (skipn (startOffset embed) doc))
       ++ replacedFrom (endOffset embed) fileName replacement rest doc)%list
  end.

(** The embeds lie in the text from [pos] on, in order and without
    overlap. *)
Fixpoint embedsOrdered (pos : nat) (embeds : list EmbedCache) (len : nat) : Prop :=
  match embeds with
  | [] => (pos <= len)%nat
  | embed :: rest =>
      (pos <= startOffset embed)%nat
      /\ (startOffset embed <= endOffset embed)%nat
      /\ embedsOrdered (endOffset embed) rest len
  end.

End Plugin.

(** A note that embeds two images, one of them twice. *)

Module Notes.

Definition text : list ascii :=
  list_ascii_of_string "See ![[a.png]] and ![[b.png]] and ![[a.png]].".

Definition embeds : list Plugin.EmbedCache :=
  [ {| Plugin.link := "a.png"; Plugin.startOffset := 4; Plugin.endOffset := 14 |};
    {| Plugin.link := "b.png"; Plugin.startOffset := 19; Plugin.endOffset := 29 |};
    {| Plugin.link := "a.png"; Plugin.startOffset := 34; Plugin.endOffset := 44 |} ].

Definition view : Plugin.MarkdownView :=
  {| Plugin.value := text; Plugin.cursor := 3; Plugin.viewFile := Some (Some embeds) |}.

Definition workspace : Plugin.Workspace :=
  {| Plugin.activeView := Some view; Plugin.clipboardDenied := None; Plugin.ui := [] |}.

Definition no_view : Plugin.Workspace :=
  {| Plugin.activeView := None; Plugin.clipboardDenied := None; Plugin.ui := [] |}.

Definition shot : Plugin.File :=
  {| Plugin.blob_name := "shot.png"; Plugin.blob_bits := Scenario.payload |}.

Definition a_png : Plugin.TFile :=
  {| Plugin.tfile_name := "a.png";
     Plugin.tfile_extension := "png";
     Plugin.tfile_binary := Resolved Scenario.payload |}.

Definition text_item : Plugin.DataTransferItem :=
  {| Plugin.item_type := "text/plain"; Plugin.item_file := None |}.

Definition image_item : Plugin.DataTransferItem :=
  {| Plugin.item_type := "image/png"; Plugin.item_file := Some shot |}.

End Notes.

(** The events [evs] logged after the trace [tr] are dated by the clock:
    the [Date] header of each request is the reading of the clock on the
    trace that precedes the request. *)
Fixpoint datedFrom (env : environment) (tr : trace) (evs : list event) : Prop :=
  match evs with
  | [] => True
  | ev :: rest =>
      match ev with
      | Request r => header "Date" (headers r) = JsDate.toUTCString (clock env tr)
      | _ => True
      end
      /\ datedFrom env (tr ++ [ev])%list rest
  end.

(** Unfolding of the monad's operations. *)
Ltac run_js :=
  cbv beta iota delta
    [bind ret throw try_catch nowUTCString requestUrl sleep imageCompression].

(** * Properties *)

(** ** Test vectors for the primitives *)

Example split_ex1 : Js.split "." "a.b.PNG" = ["a"; "b"; "PNG"].
Proof. reflexivity. Qed.

Example split_ex2 : Js.split "." "" = [""].
Proof. reflexivity. Qed.

Example split_ex3 : Js.split "." "shot." = ["shot"; ""].
Proof. reflexivity. Qed.

Example utf8_ex : String.length "缺少 Bucket" = 13%nat.
Proof. reflexivity. Qed.

Example showZ_ex : Js.showZ 403 = "403".
Proof. reflexivity. Qed.

Example sha256_abc :
  Enc.join (map Enc.hex2 (Crypto.sha256 (Js.encode "abc")))
  = "ba7816bf8f01cfea414140de5dae2223b00361a396177a9cb410ff61f20015ad".
Proof. vm_compute. reflexivity. Qed.

Example sha1_abc :
  Enc.join (map Enc.hex2 (Crypto.sha1 (Js.encode "abc")))
  = "a9993e364706816aba3e25717850c26c9cd0d89d".
Proof. vm_compute. reflexivity. Qed.

Example sha256_two_blocks :
  Enc.join (map Enc.hex2 (Crypto.sha256
    (Js.encode "abcdbcdecdefdefgefghfghighijhijkijkljklmklmnlmnomnopnopq")))
  = "248d6a61d20638b8e5c026930c3e6039a33ce45964ff2167f6ecedd419db06c1".
Proof. vm_compute. reflexivity. Qed.

(** RFC 2202, test case 2. *)
Example hmac_sha1_rfc2202 :
  Enc.join (map Enc.hex2
    (Crypto.hmac_sha1 (Js.encode "Jefe") (Js.encode "what do ya want for nothing?")))
  = "effcdf6ae5eb2fa2d27416d5f184df9c259a7c79".
Proof. vm_compute. reflexivity. Qed.

Example btoa_ex :
  (Enc.btoa "a", Enc.btoa "ab", Enc.btoa "abc", Enc.btoa "abcd")
  = ("YQ==", "YWI=", "YWJj", "YWJjZA==").
Proof. vm_compute. reflexivity. Qed.

Example toUTCString_2019 :
  JsDate.toUTCString 1546300800000 = "Tue, 01 Jan 2019 00:00:00 GMT".
Proof. vm_compute. reflexivity. Qed.

Example toUTCString_leap :
  JsDate.toUTCString 1709251199999 = "Thu, 29 Feb 2024 23:59:59 GMT".
Proof. vm_compute. reflexivity. Qed.

Example toUTCString_before_epoch :
  JsDate.toUTCString (-1) = "Wed, 31 Dec 1969 23:59:59 GMT".
Proof. vm_compute. reflexivity. Qed.


(** ** Strings, [split] and the extension of a file name *)

Lemma append_assoc (a b c : string) : (a ++ b) ++ c = a ++ (b ++ c).
Proof. induction a as [|x a IH]; simpl; [reflexivity | now rewrite IH]. Qed.

Lemma append_empty_r (a : string) : a ++ "" = a.
Proof. induction a as [|x a IH]; simpl; [reflexivity | now rewrite IH]. Qed.

Lemma length_append (a b : string) :
  String.length (a ++ b) = (String.length a + String.length b)%nat.
Proof. induction a as [|x a IH]; simpl; [reflexivity | now rewrite IH]. Qed.

Lemma append_inv_head (a b c : string) : a ++ b = a ++ c -> b = c.
Proof. induction a as [|x a IH]; simpl; intros H; [exact H | injection H; auto]. Qed.

Lemma has_char_cons (c d : ascii) (s : string) :
  has_char c (String d s) = Ascii.eqb d c || has_char c s.
Proof.
  unfold has_char; simpl.
  destruct (ascii_dec c d) as [->|ne].
  - rewrite Ascii.eqb_refl. now destruct s.
  - destruct (Ascii.eqb_spec d c) as [->|_]; [now elim ne | reflexivity].
Qed.

Lemma has_char_empty (c : ascii) : has_char c "" = false.
Proof. reflexivity. Qed.

Lemma pop_snoc (xs : list string) (x : string) : Js.pop (xs ++ [x])%list = Some x.
Proof.
  induction xs as [|y xs IH]; [reflexivity|].
  simpl. destruct (xs ++ [x])%list eqn:E; [now destruct xs | exact IH].
Qed.

(** Shape of [split]: a string without the separator is its own single
    segment; otherwise the last segment is what follows the last
    separator. *)
Lemma split_shape (sep : ascii) (s : string) :
  (has_char sep s = false /\ Js.split sep s = [s])
  \/ (exists stem ext segs,
         s = stem ++ String sep ext /\ has_char sep ext = false
         /\ Js.split sep s = (segs ++ [ext])%list /\ segs <> []).
Proof.
  induction s as [|c rest IH].
  - left. split; reflexivity.
  - simpl Js.split. rewrite has_char_cons.
    destruct (Ascii.eqb_spec c sep) as [->|ne].
    + right. destruct IH as [[Hno Hs]|(stem & ext & segs & Hs & Hno & Hsp & _)].
      * exists "", rest, [""]. rewrite Hs. repeat split; auto. discriminate.
      * exists (String sep stem), ext, ("" :: segs). rewrite Hsp, Hs.
        repeat split; auto. discriminate.
    + destruct IH as [[Hno Hs]|(stem & ext & segs & Hs & Hno & Hsp & Hne)].
      * left. rewrite Hs. split; auto.
      * right. rewrite Hsp. destruct segs as [|seg segs]; [now elim Hne|].
        exists (String c stem), ext, (String c seg :: segs).
        rewrite Hs. repeat split; auto. discriminate.
Qed.

Lemma fileExtOf_no_dot (name : string) :
  has_char "." name = false -> fileExtOf name = name.
Proof.
  intros H. unfold fileExtOf.
  destruct (split_shape "." name) as [[_ Hs]|(stem & ext & segs & Hs & _ & _ & _)].
  - rewrite Hs. simpl. unfold Js.or. now destruct name.
  - exfalso. subst name. clear -H. induction stem as [|c stem IH].
    + simpl in H. rewrite has_char_cons, Ascii.eqb_refl in H. discriminate.
    + simpl in H. rewrite has_char_cons in H.
      apply orb_false_iff in H. now apply IH.
Qed.

(** The extension is the part of the name after its last ['.'], letter
    for letter; a name without ['.'] is its own extension. *)
Lemma fileExtOf_spec (name : string) :
  has_char "." (fileExtOf name) = false
  /\ ((has_char "." name = false /\ fileExtOf name = name)
      \/ exists stem, name = stem ++ "." ++ fileExtOf name).
Proof.
  destruct (split_shape "." name) as [[Hno Hs]|(stem & ext & segs & Hs & Hno & Hsp & _)].
  - rewrite (fileExtOf_no_dot name Hno). auto.
  - assert (E : fileExtOf name = ext).
    { unfold fileExtOf. rewrite Hsp, pop_snoc. simpl. unfold Js.or. now destruct ext. }
    rewrite E. split; [exact Hno|]. right. exists stem. exact Hs.
Qed.

Example fileExtOf_ex :
  (fileExtOf "shot.png", fileExtOf "a.b.JPG", fileExtOf "README", fileExtOf "x.", fileExtOf "")
  = ("png", "JPG", "README", "", "").
Proof. reflexivity. Qed.

(** ** Digest sizes and encodings *)

Lemma sha256_length (data : list byte) : List.length (Crypto.sha256 data) = 32%nat.
Proof.
  unfold Crypto.sha256.
  generalize (fold_left Crypto.compress256
                (Crypto.blocks (map Crypto.Z_of_byte data)) Crypto.init256).
  intros s. rewrite length_map. reflexivity.
Qed.

Lemma sha1_length (data : list byte) : List.length (Crypto.sha1 data) = 20%nat.
Proof.
  unfold Crypto.sha1.
  generalize (fold_left Crypto.compress1
                (Crypto.blocks (map Crypto.Z_of_byte data)) Crypto.init1).
  intros s. rewrite length_map. reflexivity.
Qed.

(** The HMAC tag has the width of the underlying SHA-1 digest: 160 bits. *)
Lemma hmac_sha1_length (key msg : list byte) :
  List.length (Crypto.hmac_sha1 key msg) = 20%nat.
Proof. unfold Crypto.hmac_sha1, Crypto.hmac. apply sha1_length. Qed.

Lemma string_forall_append p a b :
  string_forall p (a ++ b) = string_forall p a && string_forall p b.
Proof. induction a as [|c a IH]; simpl; [reflexivity | now rewrite IH, andb_assoc]. Qed.

Lemma hex2_shape (b : byte) :
  String.length (Enc.hex2 b) = 2%nat /\ string_forall is_lower_hex (Enc.hex2 b) = true.
Proof. destruct b; split; reflexivity. Qed.

Lemma hex_join_shape (bs : list byte) :
  String.length (Enc.join (map Enc.hex2 bs)) = (2 * List.length bs)%nat
  /\ string_forall is_lower_hex (Enc.join (map Enc.hex2 bs)) = true.
Proof.
  induction bs as [|b bs [IHl IHf]]; [split; reflexivity|].
  destruct (hex2_shape b) as [Hl Hf].
  cbn [map Enc.join fold_right List.length].
  change (fold_right append "" (map Enc.hex2 bs)) with (Enc.join (map Enc.hex2 bs)).
  rewrite length_append, string_forall_append, Hl, Hf, IHl, IHf.
  split; [lia | reflexivity].
Qed.

(** [calculateHash] yields 64 lower-case hexadecimal digits. *)
Lemma calculateHash_shape (data : list byte) :
  String.length (calculateHash data) = 64%nat
  /\ string_forall is_lower_hex (calculateHash data) = true.
Proof.
  unfold calculateHash.
  destruct (hex_join_shape (Crypto.sha256 data)) as [Hl Hf].
  rewrite sha256_length in Hl. split; assumption.
Qed.

Lemma btoa_bytes_20 (bs : list Z) :
  List.length bs = 20%nat -> String.length (Enc.btoa_bytes bs) = 28%nat.
Proof.
  intros H.
  do 20 (destruct bs as [|? bs]; [discriminate H|]).
  destruct bs; [reflexivity | discriminate H].
Qed.

(** A signature is the base64 text of a 20-byte tag: 28 characters. *)
Lemma spec_signature_length (secret stringToSign : string) :
  String.length (spec_signature secret stringToSign) = 28%nat.
Proof.
  unfold spec_signature, Enc.btoa, Js.fromCharCodes.
  rewrite list_byte_of_string_of_list_byte.
  apply btoa_bytes_20. rewrite length_map. apply (hmac_sha1_length _ _).
Qed.

Arguments calculateSignature : simpl never.
Arguments calculateHash : simpl never.

(** ** Running the monad *)

Lemma bind_resolved {A B} (m : M A) (k : A -> M B) tr a tr' :
  m tr = (Resolved a, tr') -> bind m k tr = k a tr'.
Proof. intros H. unfold bind. now rewrite H. Qed.

Lemma bind_rejected {A B} (m : M A) (k : A -> M B) tr e tr' :
  m tr = (Rejected e, tr') -> bind m k tr = (Rejected e, tr').
Proof. intros H. unfold bind. now rewrite H. Qed.

(** ** Signing *)

Lemma truthy_iff (s : string) : Js.truthy s = true <-> s <> "".
Proof. destruct s; simpl; split; intros H; try discriminate; auto; now elim H. Qed.

Lemma truthy_false_iff (s : string) : Js.truthy s = false <-> s = "".
Proof. destruct s; simpl; split; intros H; try discriminate; auto. Qed.

(** The key import fails exactly on the empty secret. *)
Lemma importKey_run (secret : string) (tr : trace) :
  importKey (Js.encode secret) tr
  = if Js.truthy secret then (Resolved (Js.encode secret), tr)
    else (Rejected zeroLengthKeyError, tr).
Proof. now destruct secret. Qed.

Lemma calculateSignature_run (stringToSign secret : string) (tr : trace) :
  calculateSignature stringToSign secret tr
  = if Js.truthy secret then (Resolved (spec_signature secret stringToSign), tr)
    else (Rejected zeroLengthKeyError, tr).
Proof.
  unfold calculateSignature, bind. rewrite importKey_run.
  now destruct (Js.truthy secret).
Qed.

(** ** The retry loop *)

Lemma retry_from_step {T} (fuel : nat) (op : M T) (rc : nat) (tr : trace) :
  retry_from fuel op rc tr =
  match op tr with
  | (Resolved a, tr') => (Resolved a, tr')
  | (Rejected e, tr') =>
      match fuel with
      | S fuel' =>
          if (rc <? maxRetries)%nat
          then retry_from fuel' op (rc + 1) (tr' ++ [Sleep (2 ^ Z.of_nat rc * 1000)])%list
          else (Rejected e, tr')
      | O => (Rejected e, tr')
      end
  end.
Proof.
  destruct fuel; simpl; run_js; destruct (op tr) as [[a|e] tr']; try reflexivity.
  now destruct (rc <? maxRetries)%nat.
Qed.

(** The defining equation of the source: one attempt, and on failure a
    delay of [2^retryCount * 1000] ms and a recursive call while
    [retryCount < maxRetries], else the caught error is thrown again. *)
Lemma retryOperation_eq {T} (op : M T) (rc : nat) (tr : trace) :
  retryOperation op rc tr =
  try_catch op (fun error =>
    if (rc <? maxRetries)%nat
    then bind (sleep (2 ^ Z.of_nat rc * 1000)) (fun _ => retryOperation op (rc + 1))
    else throw error) tr.
Proof.
  unfold retryOperation. rewrite retry_from_step. run_js.
  destruct (op tr) as [[a|e] tr']; [reflexivity|].
  destruct (Nat.ltb_spec rc maxRetries) as [Hlt|Hge].
  - replace (maxRetries - rc)%nat with (S (maxRetries - (rc + 1))) by lia. reflexivity.
  - replace (maxRetries - rc)%nat with 0%nat by lia. reflexivity.
Qed.

(** A rejection of the loop is the rejection of one invocation of the
    operation, the one that produced the final trace. *)
Lemma retry_from_rejected {T} (fuel : nat) (op : M T) :
  forall rc tr e tr',
    retry_from fuel op rc tr = (Rejected e, tr') ->
    exists tr_last, op tr_last = (Rejected e, tr').
Proof.
  induction fuel as [|fuel IH]; intros rc tr e tr'; rewrite retry_from_step;
    destruct (op tr) as [[a|e0] tr0] eqn:E; intros H; try discriminate.
  - exists tr. now rewrite E.
  - destruct (rc <? maxRetries)%nat.
    + eapply IH; eauto.
    + exists tr. now rewrite E.
Qed.

(** C3. Retry and backoff.  For every operation: when it fails on the
    first two attempts and succeeds on the third, the loop makes exactly
    these three attempts, waits 1 and then 2 time units between them and
    returns the value of the third; when it fails four times in a row, the
    loop makes exactly four attempts separated by waits of 1, 2 and 4 time
    units and ends in a failure.  [a1] to [a4] are the events of the
    successive attempts. *)
Theorem retry_backoff_schedule {T} (op : M T) (tr0 : trace) :
  (forall e1 e2 v a1 a2 a3,
      let w1 := [Sleep (1 * timeUnit)] in
      let w2 := [Sleep (2 * timeUnit)] in
      op tr0 = (Rejected e1, tr0 ++ a1) ->
      op (tr0 ++ a1 ++ w1) = (Rejected e2, tr0 ++ a1 ++ w1 ++ a2) ->
      op (tr0 ++ a1 ++ w1 ++ a2 ++ w2) = (Resolved v, tr0 ++ a1 ++ w1 ++ a2 ++ w2 ++ a3) ->
      retryOperation op 0 tr0 = (Resolved v, tr0 ++ a1 ++ w1 ++ a2 ++ w2 ++ a3))%list
  /\ (forall e1 e2 e3 e4 a1 a2 a3 a4,
      let w1 := [Sleep (1 * timeUnit)] in
      let w2 := [Sleep (2 * timeUnit)] in
      let w4 := [Sleep (4 * timeUnit)] in
      op tr0 = (Rejected e1, tr0 ++ a1) ->
      op (tr0 ++ a1 ++ w1) = (Rejected e2, tr0 ++ a1 ++ w1 ++ a2) ->
      op (tr0 ++ a1 ++ w1 ++ a2 ++ w2) = (Rejected e3, tr0 ++ a1 ++ w1 ++ a2 ++ w2 ++ a3) ->
      op (tr0 ++ a1 ++ w1 ++ a2 ++ w2 ++ a3 ++ w4)
        = (Rejected e4, tr0 ++ a1 ++ w1 ++ a2 ++ w2 ++ a3 ++ w4 ++ a4) ->
      exists e,
        retryOperation op 0 tr0
        = (Rejected e, tr0 ++ a1 ++ w1 ++ a2 ++ w2 ++ a3 ++ w4 ++ a4))%list.
Proof.
  split.
  - intros e1 e2 v a1 a2 a3 w1 w2 H1 H2 H3.
    unfold retryOperation. change (maxRetries - 0)%nat with 3%nat.
    rewrite retry_from_step, H1. cbn [Nat.ltb Nat.leb maxRetries Nat.add].
    change (2 ^ Z.of_nat 0 * 1000) with (1 * timeUnit).
    rewrite <- !app_assoc. fold w1.
    rewrite retry_from_step, H2. cbn [Nat.ltb Nat.leb maxRetries Nat.add].
    change (2 ^ Z.of_nat 1 * 1000) with (2 * timeUnit).
    rewrite <- !app_assoc. fold w2.
    rewrite retry_from_step, H3. reflexivity.
  - intros e1 e2 e3 e4 a1 a2 a3 a4 w1 w2 w4 H1 H2 H3 H4. exists e4.
    unfold retryOperation. change (maxRetries - 0)%nat with 3%nat.
    rewrite retry_from_step, H1. cbn [Nat.ltb Nat.leb maxRetries Nat.add].
    change (2 ^ Z.of_nat 0 * 1000) with (1 * timeUnit).
    rewrite <- !app_assoc. fold w1.
    rewrite retry_from_step, H2. cbn [Nat.ltb Nat.leb maxRetries Nat.add].
    change (2 ^ Z.of_nat 1 * 1000) with (2 * timeUnit).
    rewrite <- !app_assoc. fold w2.
    rewrite retry_from_step, H3. cbn [Nat.ltb Nat.leb maxRetries Nat.add].
    change (2 ^ Z.of_nat 2 * 1000) with (4 * timeUnit).
    rewrite <- !app_assoc. fold w4.
    rewrite retry_from_step, H4. reflexivity.
Qed.

Lemma retry_backoff_schedule_witness :
  retryOperation
    (Scenario.transfer [Rejected Scenario.network_error;
                        Resolved {| status := 500 |};
                        Resolved {| status := 200 |}]) 0 []
  = (Resolved tt,
     [Scenario.put_at Scenario.date_0s; Sleep 1000;
      Scenario.put_at Scenario.date_1s; Sleep 2000;
      Scenario.put_at Scenario.date_3s])
  /\ exists e,
      retryOperation
        (Scenario.transfer (repeat (Rejected (Scenario.http_error 503)) 4)) 0 []
      = (Rejected e,
         [Scenario.put_at Scenario.date_0s; Sleep 1000;
          Scenario.put_at Scenario.date_1s; Sleep 2000;
          Scenario.put_at Scenario.date_3s; Sleep 4000;
          Scenario.put_at Scenario.date_7s]).
Proof.
  split.
  - apply (proj1 (retry_backoff_schedule
                    (Scenario.transfer [Rejected Scenario.network_error;
                                        Resolved {| status := 500 |};
                                        Resolved {| status := 200 |}]) [])
             Scenario.network_error (newError "上传失败: HTTP 500") tt
             [Scenario.put_at Scenario.date_0s]
             [Scenario.put_at Scenario.date_1s]
             [Scenario.put_at Scenario.date_3s]);
      vm_compute; reflexivity.
  - apply (proj2 (retry_backoff_schedule
                    (Scenario.transfer (repeat (Rejected (Scenario.http_error 503)) 4)) [])
             (Scenario.http_error 503) (Scenario.http_error 503)
             (Scenario.http_error 503) (Scenario.http_error 503)
             [Scenario.put_at Scenario.date_0s]
             [Scenario.put_at Scenario.date_1s]
             [Scenario.put_at Scenario.date_3s]
             [Scenario.put_at Scenario.date_7s]);
      vm_compute; reflexivity.
Defined.

(** C7, as the code has it.  When the loop gives up, the value it throws
    is the very value thrown by the last invocation of the operation (the
    one that produced the final trace): the caught error is thrown again
    as it is, without a wrapper. *)
Theorem exhausted_retries_rethrow_last {T} (op : M T) (rc : nat) (tr tr' : trace)
        (e : thrown) :
  retryOperation op rc tr = (Rejected e, tr') ->
  exists tr_last, op tr_last = (Rejected e, tr').
Proof. unfold retryOperation. apply retry_from_rejected. Qed.

Lemma exhausted_retries_rethrow_last_witness :
  exists tr_last,
    Scenario.transfer (repeat (Rejected (Scenario.http_error 503)) 4) tr_last
    = (Rejected (Scenario.http_error 503),
       [Scenario.put_at Scenario.date_0s; Sleep 1000;
        Scenario.put_at Scenario.date_1s; Sleep 2000;
        Scenario.put_at Scenario.date_3s; Sleep 4000;
        Scenario.put_at Scenario.date_7s]).
Proof.
  apply (exhausted_retries_rethrow_last
           (Scenario.transfer (repeat (Rejected (Scenario.http_error 503)) 4)) 0 []).
  vm_compute. reflexivity.
Defined.

(** C7 as stated fails.  Four transfers in a row are rejected by the
    link with "Request failed, status 503"; the loop then throws the value
    thrown by the fourth attempt itself, an [Error] of name ["Error"],
    which nothing tells apart from that cause. *)
Lemma exhausted_retries_not_wrapped :
  ~ surfaced_error_is_wrapper
      (Scenario.transfer (repeat (Rejected (Scenario.http_error 503)) 4)) [].
Proof.
  intros H.
  apply (H (ErrorObject "Error" "Request failed, status 503")
           [Scenario.put_at Scenario.date_0s; Sleep 1000;
            Scenario.put_at Scenario.date_1s; Sleep 2000;
            Scenario.put_at Scenario.date_3s; Sleep 4000;
            Scenario.put_at Scenario.date_7s]
           ltac:(vm_compute; reflexivity)
           [Scenario.put_at Scenario.date_0s; Sleep 1000;
            Scenario.put_at Scenario.date_1s; Sleep 2000;
            Scenario.put_at Scenario.date_3s; Sleep 4000]
           (ErrorObject "Error" "Request failed, status 503")
           ltac:(vm_compute; reflexivity)).
  reflexivity.
Qed.

(** ** The existence probe *)

Lemma checkFileExists_run (s : AliyunOssSettings) (env : environment)
      (key : string) (tr : trace) :
  checkFileExists s env key tr =
  if Js.truthy (accessKeySecret s) then
    (match remote env tr (probeRequest s key (JsDate.toUTCString (clock env tr))) with
     | Resolved response => Resolved (status response =? 200)
     | Rejected error =>
         if instanceofError error && Js.includes "404" (message_of error)
         then Resolved false
         else Rejected error
     end,
     (tr ++ [Request (probeRequest s key (JsDate.toUTCString (clock env tr)))])%list)
  else (Rejected zeroLengthKeyError, tr).
Proof.
  unfold checkFileExists, try_catch. unfold bind at 1. unfold nowUTCString at 1.
  unfold bind at 1. rewrite calculateSignature_run.
  destruct (Js.truthy (accessKeySecret s)); [|reflexivity].
  run_js.
  change (mkRequest _ "HEAD" _ None)
    with (probeRequest s key (JsDate.toUTCString (clock env tr))).
  destruct (remote env tr _) as [response|error]; [reflexivity|].
  now destruct (instanceofError error && Js.includes "404" (message_of error)).
Qed.

(** ** The transfer and the pipeline *)

Lemma generateSignature_run (s : AliyunOssSettings) (env : environment)
      (key contentType : string) (tr : trace) :
  generateSignature s env key contentType tr =
  if Js.truthy (accessKeySecret s) then
    (Resolved
       (authorization_value "OSS" (accessKeyId s)
          (spec_signature (accessKeySecret s)
             (canonical_string "PUT" "" contentType
                (JsDate.toUTCString (clock env tr)) (resourceOf s key))),
        endpointOf s key),
     tr)
  else (Rejected zeroLengthKeyError, tr).
Proof.
  unfold generateSignature. unfold bind at 1. unfold nowUTCString at 1.
  unfold bind at 1. rewrite calculateSignature_run.
  now destruct (Js.truthy (accessKeySecret s)).
Qed.

Lemma putOperation_run (env : environment) (endpoint authorization contentType : string)
      (payload : list byte) (tr : trace) :
  putOperation env endpoint authorization contentType payload tr =
  (match remote env tr (putRequest endpoint authorization
                          (JsDate.toUTCString (clock env tr)) contentType payload) with
   | Resolved response =>
       if negb (status response =? 200)
       then Rejected (newError ("上传失败: HTTP " ++ Js.showZ (status response)))
       else Resolved tt
   | Rejected error => Rejected error
   end,
   (tr ++ [Request (putRequest endpoint authorization
                      (JsDate.toUTCString (clock env tr)) contentType payload)])%list).
Proof.
  unfold putOperation. run_js.
  change (mkRequest endpoint "PUT" _ (Some payload))
    with (putRequest endpoint authorization
            (JsDate.toUTCString (clock env tr)) contentType payload).
  destruct (remote env tr _) as [response|error]; [|reflexivity].
  now destruct (negb (status response =? 200)).
Qed.

Section Pipeline.
Variable s : AliyunOssSettings.
Variable env : environment.
Variables (key contentType authorization : string) (payload : list byte).

Let ev_ok := upload_event s key contentType authorization payload.

Lemma retry_put_events (fuel : nat) :
  forall rc tr,
  exists evs,
    snd (retry_from fuel
           (putOperation env (endpointOf s key) authorization contentType payload) rc tr)
    = (tr ++ evs)%list
    /\ evs <> [] /\ Forall ev_ok evs.
Proof.
  induction fuel as [|fuel IH]; intros rc tr;
    rewrite retry_from_step, putOperation_run;
    set (req := putRequest _ _ _ _ _);
    assert (Hreq : ev_ok (Request req)) by apply ue_put;
    assert (Hone : exists evs, (tr ++ [Request req] = tr ++ evs)%list
                               /\ evs <> [] /\ Forall ev_ok evs)
      by (exists [Request req]; repeat split; [discriminate | now constructor]).
  - destruct (remote env tr req) as [response|error]; [|exact Hone].
    destruct (negb (status response =? 200)); exact Hone.
  - assert (Hmore : forall d, exists evs,
               snd (retry_from fuel
                      (putOperation env (endpointOf s key) authorization contentType payload)
                      (rc + 1) ((tr ++ [Request req]) ++ [Sleep d]))%list
               = (tr ++ evs)%list /\ evs <> [] /\ Forall ev_ok evs).
    { intros d. destruct (IH (rc + 1)%nat ((tr ++ [Request req]) ++ [Sleep d])%list)
        as (evs & E & _ & F).
      exists (Request req :: Sleep d :: evs). rewrite E, <- !app_assoc.
      repeat split; [discriminate|]. repeat constructor; auto. }
    destruct (remote env tr req) as [response|error].
    + destruct (negb (status response =? 200)); [|exact Hone].
      destruct (rc <? maxRetries)%nat; [apply Hmore | exact Hone].
    + destruct (rc <? maxRetries)%nat; [apply Hmore | exact Hone].
Qed.

End Pipeline.

(** Signing and transferring [final] from the trace [tr1]. *)
Lemma sign_and_put_shape (s : AliyunOssSettings) (env : environment)
      (key contentType : string) (final : list byte) (tr1 : trace) :
  exists authorization evs res,
    bind (generateSignature s env key contentType) (fun sig =>
      let '(authorization, endpoint) := sig in
      bind (retryOperation (putOperation env endpoint authorization contentType final) 0)
           (fun _ => ret (publicUrl s key))) tr1
    = (res, (tr1 ++ evs)%list)
    /\ (evs = [] -> accessKeySecret s = "" /\ res = Rejected zeroLengthKeyError)
    /\ Forall (upload_event s key contentType authorization final) evs
    /\ (forall u, res = Resolved u -> u = publicUrl s key).
Proof.
  exists (authorization_value "OSS" (accessKeyId s)
            (spec_signature (accessKeySecret s)
               (canonical_string "PUT" "" contentType
                  (JsDate.toUTCString (clock env tr1)) (resourceOf s key)))).
  unfold bind at 1. rewrite generateSignature_run.
  destruct (Js.truthy (accessKeySecret s)) eqn:T.
  - cbv beta iota zeta. unfold retryOperation, bind, ret.
    match goal with
    | |- context [retry_from ?f (putOperation env _ ?a _ _) _ _] =>
        destruct (retry_put_events s env key contentType a final f 0%nat tr1)
          as (evs & E & NE & F)
    end.
    exists evs.
    destruct (retry_from _ _ _ _) as [[v|e] tr2]; simpl in E; subst tr2;
      eexists; (split; [reflexivity|]); (split; [intros H0; now elim NE|]);
      (split; [exact F|]); intros u H; [now inversion H | discriminate H].
  - exists [], (Rejected zeroLengthKeyError).
    split; [now rewrite app_nil_r|]. split.
    + intros _. split; [now apply truthy_false_iff | reflexivity].
    + split; [constructor | discriminate].
Qed.

Lemma transformAndPut_shape (s : AliyunOssSettings) (env : environment)
      (content : list byte) (name : string) (options : option UploadOptions) (tr : trace) :
  exists authorization payload evs res,
    transformAndPut s env content name options (fileExtOf name) (ossPathOf s content name) tr
    = (res, (tr ++ evs)%list)
    /\ (evs = [] -> accessKeySecret s = "" /\ res = Rejected zeroLengthKeyError)
    /\ Forall (upload_event s (ossPathOf s content name) ("image/" ++ fileExtOf name)
                 authorization payload) evs
    /\ (forall u, res = Resolved u -> u = publicUrl s (ossPathOf s content name)).
Proof.
  unfold transformAndPut. unfold bind at 1.
  destruct (enableCompression s && imageExtTest (fileExtOf name)).
  - unfold imageCompression.
    match goal with
    | |- context [compressor env tr ?f ?o] =>
        set (file := f); set (opts := o); destruct (compressor env tr file opts) as [final|e]
    end.
    + destruct (sign_and_put_shape s env (ossPathOf s content name)
                  ("image/" ++ fileExtOf name) final (tr ++ [Compress file opts])%list)
        as (a & evs & res & E & NE & F & U).
      exists a, final, (Compress file opts :: evs), res.
      rewrite E, <- app_assoc.
      split; [reflexivity|]. split; [discriminate|]. split; [|exact U].
      constructor; [apply ue_compress | exact F].
    + exists "", [], [Compress file opts], (Rejected e).
      split; [reflexivity|]. split; [discriminate|]. split; [|discriminate].
      constructor; [apply ue_compress | constructor].
  - unfold ret at 1.
    destruct (sign_and_put_shape s env (ossPathOf s content name)
                ("image/" ++ fileExtOf name) content tr) as (a & evs & res & E & NE & F & U).
    exists a, content, evs, res. auto.
Qed.

(** The requests of a run all address the endpoint of the key derived
    from the raw bytes; the only value it can return is the public URL of
    that key; and it logs no event only when the key import fails. *)
Lemma uploadWithCompression_shape (s : AliyunOssSettings) (env : environment)
      (content : list byte) (name : string) (options : option UploadOptions) (tr : trace) :
  exists authorization payload evs res,
    uploadWithCompression s env content name options tr = (res, (tr ++ evs)%list)
    /\ (evs = [] -> accessKeySecret s = "" /\ res = Rejected zeroLengthKeyError)
    /\ Forall (upload_event s (ossPathOf s content name) ("image/" ++ fileExtOf name)
                 authorization payload) evs
    /\ (forall u, res = Resolved u -> u = publicUrl s (ossPathOf s content name)).
Proof.
  unfold uploadWithCompression.
  destruct (negb (skipExistCheckOf options)); [|apply transformAndPut_shape].
  unfold bind at 1. rewrite checkFileExists_run.
  destruct (Js.truthy (accessKeySecret s)) eqn:T.
  2: { exists "", [], [], (Rejected zeroLengthKeyError).
       split; [now rewrite app_nil_r|]. split.
       - intros _. split; [now apply truthy_false_iff | reflexivity].
       - split; [constructor | discriminate]. }
  set (probe := probeRequest _ _ _).
  assert (Hp : forall a p, upload_event s (ossPathOf s content name)
                             ("image/" ++ fileExtOf name) a p (Request probe))
    by (intros; apply ue_probe).
  assert (Hstop : forall (o : outcome string),
             (forall u, o = Resolved u -> u = publicUrl s (ossPathOf s content name)) ->
             exists authorization payload evs res,
               (o, (tr ++ [Request probe])%list) = (res, (tr ++ evs)%list)
               /\ (evs = [] -> accessKeySecret s = "" /\ res = Rejected zeroLengthKeyError)
               /\ Forall (upload_event s (ossPathOf s content name)
                            ("image/" ++ fileExtOf name) authorization payload) evs
               /\ (forall u, res = Resolved u ->
                             u = publicUrl s (ossPathOf s content name))).
  { intros o Ho. exists "", [], [Request probe], o.
    split; [reflexivity|]. split; [discriminate|]. split; [|exact Ho].
    constructor; auto. }
  assert (Hgo : exists authorization payload evs res,
             transformAndPut s env content name options (fileExtOf name)
               (ossPathOf s content name) (tr ++ [Request probe])%list
             = (res, (tr ++ evs)%list)
             /\ (evs = [] -> accessKeySecret s = "" /\ res = Rejected zeroLengthKeyError)
             /\ Forall (upload_event s (ossPathOf s content name)
                          ("image/" ++ fileExtOf name) authorization payload) evs
             /\ (forall u, res = Resolved u ->
                           u = publicUrl s (ossPathOf s content name))).
  { destruct (transformAndPut_shape s env content name options (tr ++ [Request probe])%list)
      as (a & p & evs & res & E & NE & F & U).
    exists a, p, (Request probe :: evs), res. rewrite E, <- app_assoc.
    split; [reflexivity|]. split; [discriminate|]. split; [|exact U].
    constructor; auto. }
  destruct (remote env tr probe) as [response|error].
  - destruct (status response =? 200).
    + apply Hstop. intros u H. now inversion H.
    + exact Hgo.
  - destruct (instanceofError error && Js.includes "404" (message_of error)).
    + exact Hgo.
    + apply Hstop. intros u H. discriminate H.
Qed.

Lemma upload_event_request s key contentType authorization payload r :
  upload_event s key contentType authorization payload (Request r) ->
  url r = endpointOf s key
  /\ (method r = "PUT" ->
      r = putRequest (endpointOf s key) authorization
            (header "Date" (headers r)) contentType payload).
Proof.
  intros H. inversion H; subst.
  - split; [reflexivity | discriminate].
  - split; [reflexivity | intros _; reflexivity].
Qed.

(** ** Claims *)

(** C1. The storage key is computed from the raw payload bytes and the
    extension of the file name, before and independently of any
    compression: replacing the compression settings (enableCompression,
    maxSizeMB, maxWidthOrHeight) leaves the key unchanged, every request of
    an upload under the new settings still addresses the endpoint of that
    key, and two uploads of the same input that both return, return the
    same URL. *)
Theorem key_ignores_compression (s : AliyunOssSettings) (content : list byte)
        (name : string) (enable : bool) (size dim : number) :
  let s' := withCompression s enable size dim in
  ossPathOf s' content name = ossPathOf s content name
  /\ ossPathOf s content name
     = path s ++ Enc.join (map Enc.hex2 (Crypto.sha256 content)) ++ "." ++ fileExtOf name
  /\ (forall env options tr res tr',
         uploadWithCompression s' env content name options tr = (res, tr') ->
         forall r, In r (requests_of tr') -> In r (requests_of tr)
                   \/ url r = endpointOf s (ossPathOf s content name))
  /\ (forall env env' options options' tr tr' u u' t t',
         uploadWithCompression s env content name options tr = (Resolved u, t) ->
         uploadWithCompression s' env' content name options' tr' = (Resolved u', t') ->
         u' = u).
Proof.
  intros s'. split; [reflexivity|]. split; [reflexivity|]. split.
  - intros env options tr res tr' H r Hr.
    destruct (uploadWithCompression_shape s' env content name options tr)
      as (a & p & evs & res0 & E & _ & F & _).
    rewrite E in H. inversion H; subst res0 tr'. clear H.
    unfold requests_of in Hr. rewrite flat_map_app in Hr.
    apply in_app_or in Hr. destruct Hr as [Hr|Hr]; [left; exact Hr | right].
    apply in_flat_map in Hr. destruct Hr as (ev & Hin & Hev).
    rewrite Forall_forall in F. specialize (F ev Hin).
    destruct ev as [r0| |]; simpl in Hev; try contradiction.
    destruct Hev as [->|[]].
    apply upload_event_request in F. exact (proj1 F).
  - intros env env' options options' tr tr' u u' t t' H H'.
    destruct (uploadWithCompression_shape s env content name options tr)
      as (a & p & evs & res & E & _ & _ & U).
    destruct (uploadWithCompression_shape s' env' content name options' tr')
      as (a' & p' & evs' & res' & E' & _ & _ & U').
    rewrite E in H. rewrite E' in H'. inversion H; inversion H'; subst.
    rewrite (U u eq_refl), (U' u' eq_refl). reflexivity.
Qed.

Lemma key_ignores_compression_witness :
  exists u u',
    fst (uploadWithCompression Scenario.settings (Scenario.env_verifying 0)
           Scenario.payload "shot.PNG" None []) = Resolved u
    /\ fst (uploadWithCompression
              (withCompression Scenario.settings false (1, 1%positive) (640, 1%positive))
              (Scenario.env_verifying 0) Scenario.payload "shot.PNG" None []) = Resolved u'
    /\ u' = u.
Proof.
  eexists. eexists.
  split; [vm_compute; reflexivity|]. split; [vm_compute; reflexivity|].
  apply (proj2 (proj2 (proj2
           (key_ignores_compression Scenario.settings Scenario.payload "shot.PNG"
              false (1, 1%positive) (640, 1%positive))))
           (Scenario.env_verifying 0) (Scenario.env_verifying 0) None None [] [] _ _
           (snd (uploadWithCompression Scenario.settings (Scenario.env_verifying 0)
                   Scenario.payload "shot.PNG" None []))
           (snd (uploadWithCompression
                   (withCompression Scenario.settings false (1, 1%positive) (640, 1%positive))
                   (Scenario.env_verifying 0) Scenario.payload "shot.PNG" None [])));
    vm_compute; reflexivity.
Defined.

(** C5. Whenever the existence check is not skipped and reports the
    object present, the upload returns the public URL of the key at once:
    its trace is the trace of the check, that is, the single HEAD probe
    without a body; no compression and no PUT takes place. *)
Theorem dedup_short_circuit (s : AliyunOssSettings) (env : environment)
        (content : list byte) (name : string) (options : option UploadOptions)
        (tr : trace) :
  skipExistCheckOf options = false ->
  fst (checkFileExists s env (ossPathOf s content name) tr) = Resolved true ->
  let key := ossPathOf s content name in
  let probe := probeRequest s key (JsDate.toUTCString (clock env tr)) in
  uploadWithCompression s env content name options tr
  = (Resolved (publicUrl s key), snd (checkFileExists s env key tr))
  /\ snd (checkFileExists s env key tr) = (tr ++ [Request probe])%list
  /\ method probe = "HEAD" /\ body probe = None.
Proof.
  intros Hskip Hex key probe. subst key probe.
  unfold uploadWithCompression. rewrite Hskip. cbn [negb]. unfold bind.
  destruct (checkFileExists s env (ossPathOf s content name) tr) as [res tr'] eqn:E.
  simpl in Hex. subst res. cbn [snd].
  split; [reflexivity|].
  rewrite checkFileExists_run in E.
  destruct (Js.truthy (accessKeySecret s)); [|discriminate E].
  inversion E. auto.
Qed.

Lemma dedup_short_circuit_witness :
  uploadWithCompression Scenario.settings
    (Scenario.env_scripted (Resolved {| status := 200 |}) [])
    Scenario.payload "shot.png" None []
  = (Resolved
       (publicUrl Scenario.settings (ossPathOf Scenario.settings Scenario.payload "shot.png")),
     [Request (probeRequest Scenario.settings
                 (ossPathOf Scenario.settings Scenario.payload "shot.png")
                 Scenario.date_0s)]).
Proof.
  destruct (dedup_short_circuit Scenario.settings
              (Scenario.env_scripted (Resolved {| status := 200 |}) [])
              Scenario.payload "shot.png" None [])
    as (H & Htr & _).
  - reflexivity.
  - vm_compute. reflexivity.
  - rewrite H, Htr. reflexivity.
Defined.



(** C9, as the code has it.  The storage key is the path prefix, the 64
    lower-case hexadecimal digits of the SHA-256 digest of the payload, a
    dot, and the extension; the extension is the part of the file name
    after its last ['.'], letter for letter as the name has it (the whole
    name when it has no ['.']). *)
Theorem storage_key_format (s : AliyunOssSettings) (content : list byte) (name : string) :
  ossPathOf s content name = path s ++ calculateHash content ++ "." ++ fileExtOf name
  /\ calculateHash content = Enc.join (map Enc.hex2 (Crypto.sha256 content))
  /\ String.length (calculateHash content) = 64%nat
  /\ string_forall is_lower_hex (calculateHash content) = true
  /\ has_char "." (fileExtOf name) = false
  /\ ((has_char "." name = false /\ fileExtOf name = name)
      \/ exists stem, name = stem ++ "." ++ fileExtOf name).
Proof.
  split; [reflexivity|]. split; [reflexivity|].
  destruct (calculateHash_shape content) as [Hl Hf].
  destruct (fileExtOf_spec name) as [Hno Hsuf].
  auto.
Qed.

(** C9 as stated fails on a name whose suffix has capital letters: for
    the empty payload named ["IMG.PNG"] under the default settings the key
    ends in [".PNG"], not in the lower-case [".png"] of the claim. *)
Lemma storage_key_keeps_case :
  ossPathOf DEFAULT_SETTINGS [] "IMG.PNG"
  = "obsidian/e3b0c44298fc1c149afbf4c8996fb92427ae41e4649b934ca495991b7852b855.PNG"
  /\ ossPathOf DEFAULT_SETTINGS [] "IMG.PNG" <> spec_storage_key DEFAULT_SETTINGS [] "IMG.PNG".
Proof.
  split; [vm_compute; reflexivity|].
  apply String.eqb_neq. vm_compute. reflexivity.
Qed.

(** The signature vector of the specification. *)
Example signature_golden_vector :
  calculateSignature
    (canonical_string "PUT" "" "image/png" "Tue, 01 Jan 2019 00:00:00 GMT"
       "/mybucket/obsidian/abc.png")
    "secret" []
  = (Resolved "r0kg9n23r6gJdx36CfhHub9IDL4=", []).
Proof. vm_compute. reflexivity. Qed.

(** C4. With an access key secret to sign with, the string signed for an
    upload is PUT, an empty content-MD5 line, the content type, the date
    of the clock and [/bucket/key], one per line; the signature is the
    base64 text (28 characters) of the HMAC-SHA1 tag (160 bits) of that
    string under the access key secret; the Authorization value is
    ["OSS"], a space, the access key id, a colon and the signature.  With
    an empty secret the key import fails and no signature is made. *)
Theorem put_signature_format (s : AliyunOssSettings) (env : environment)
        (key contentType : string) (tr : trace) :
  let date := JsDate.toUTCString (clock env tr) in
  let stringToSign :=
    canonical_string "PUT" "" contentType date ("/" ++ bucket s ++ "/" ++ key) in
  let tag :=
    Crypto.hmac Crypto.sha1 (Js.encode (accessKeySecret s)) (Js.encode stringToSign) in
  let signature := Enc.btoa (Js.fromCharCodes tag) in
  (accessKeySecret s <> "" ->
   generateSignature s env key contentType tr
   = (Resolved (authorization_value "OSS" (accessKeyId s) signature, endpointOf s key), tr)
   /\ calculateSignature stringToSign (accessKeySecret s) tr = (Resolved signature, tr))
  /\ (accessKeySecret s = "" ->
      generateSignature s env key contentType tr = (Rejected zeroLengthKeyError, tr))
  /\ 8 * Z.of_nat (List.length tag) = 160
  /\ String.length signature = 28%nat.
Proof.
  intros date stringToSign tag signature.
  rewrite generateSignature_run, calculateSignature_run.
  split; [|split; [|split]].
  - intros H. apply truthy_iff in H. rewrite H. split; reflexivity.
  - intros H. apply truthy_false_iff in H. rewrite H. reflexivity.
  - unfold tag. fold Crypto.hmac_sha1. now rewrite hmac_sha1_length.
  - apply (spec_signature_length (accessKeySecret s) stringToSign).
Qed.

Lemma put_signature_format_witness :
  generateSignature Scenario.settings (Scenario.env_verifying 0)
    "obsidian/abc.png" "image/png" []
  = (Resolved ("OSS LTAI4Demo:r0kg9n23r6gJdx36CfhHub9IDL4=",
               "https://mybucket.oss-cn-hangzhou.aliyuncs.com/obsidian/abc.png"), [])
  /\ generateSignature DEFAULT_SETTINGS (Scenario.env_verifying 0)
       "obsidian/abc.png" "image/png" []
     = (Rejected zeroLengthKeyError, []).
Proof.
  split.
  - destruct (proj1 (put_signature_format Scenario.settings (Scenario.env_verifying 0)
                       "obsidian/abc.png" "image/png" [])) as [H _];
      [discriminate|].
    rewrite H. vm_compute. reflexivity.
  - apply (proj1 (proj2 (put_signature_format DEFAULT_SETTINGS (Scenario.env_verifying 0)
                           "obsidian/abc.png" "image/png" []))).
    reflexivity.
Defined.

(** C6, as the code has it.  The probe is a HEAD request whose signed
    string is HEAD, three line breaks (empty content-MD5 and content-type
    lines), the date and [/bucket/key]; it is sent when there is an access
    key secret to sign with.  The check then answers [true] when the
    request resolves with status 200, [false] when it resolves with any
    other status or is rejected by an [Error] whose message contains
    ["404"], and rejects with the very value of any other rejection.  With
    an empty secret the key import fails, nothing is sent and the check
    rejects with that failure. *)
Theorem probe_classification (s : AliyunOssSettings) (env : environment)
        (key : string) (tr : trace) :
  let date := JsDate.toUTCString (clock env tr) in
  let probe := probeRequest s key date in
  (accessKeySecret s <> "" ->
   checkFileExists s env key tr
   = (match remote env tr probe with
      | Resolved response => Resolved (status response =? 200)
      | Rejected error =>
          if instanceofError error && Js.includes "404" (message_of error)
          then Resolved false
          else Rejected error
      end,
      (tr ++ [Request probe])%list))
  /\ (accessKeySecret s = "" ->
      checkFileExists s env key tr = (Rejected zeroLengthKeyError, tr))
  /\ method probe = "HEAD"
  /\ header "Authorization" (headers probe)
     = "OSS " ++ accessKeyId s ++ ":"
         ++ spec_signature (accessKeySecret s)
              ("HEAD" ++ LF ++ LF ++ LF ++ date ++ LF ++ "/" ++ bucket s ++ "/" ++ key)
  /\ "HEAD" ++ LF ++ LF ++ LF ++ date ++ LF ++ "/" ++ bucket s ++ "/" ++ key
     = canonical_string "HEAD" "" "" date ("/" ++ bucket s ++ "/" ++ key)
  /\ header "Date" (headers probe) = date.
Proof.
  intros date probe. rewrite checkFileExists_run.
  split; [|split].
  - intros H. apply truthy_iff in H. rewrite H. reflexivity.
  - intros H. apply truthy_false_iff in H. rewrite H. reflexivity.
  - repeat split; reflexivity.
Qed.

Lemma probe_classification_witness :
  checkFileExists Scenario.settings
    (Scenario.env_scripted (Rejected (Scenario.http_error 404)) []) "obsidian/abc.png" []
  = (Resolved false,
     [Request (probeRequest Scenario.settings "obsidian/abc.png" Scenario.date_0s)])
  /\ checkFileExists DEFAULT_SETTINGS
       (Scenario.env_scripted (Rejected (Scenario.http_error 404)) []) "obsidian/abc.png" []
     = (Rejected zeroLengthKeyError, []).
Proof.
  split.
  - rewrite (proj1 (probe_classification Scenario.settings
                      (Scenario.env_scripted (Rejected (Scenario.http_error 404)) [])
                      "obsidian/abc.png" [])) by discriminate.
    reflexivity.
  - apply (proj1 (proj2 (probe_classification DEFAULT_SETTINGS
                           (Scenario.env_scripted (Rejected (Scenario.http_error 404)) [])
                           "obsidian/abc.png" []))).
    reflexivity.
Defined.

(** C6 as stated fails.  When the store answers the probe with status
    301, which is neither a success nor the not-found signal, the check
    answers [false] instead of rejecting, and the upload goes on. *)
Lemma probe_redirect_reads_as_absent :
  fst (checkFileExists Scenario.settings
         (Scenario.env_scripted (Resolved {| status := 301 |}) []) "obsidian/abc.png" [])
  = Resolved false
  /\ ~ probe_claim Scenario.settings
         (Scenario.env_scripted (Resolved {| status := 301 |}) []) "obsidian/abc.png" [].
Proof.
  assert (E : fst (checkFileExists Scenario.settings
                     (Scenario.env_scripted (Resolved {| status := 301 |}) [])
                     "obsidian/abc.png" []) = Resolved false)
    by (vm_compute; reflexivity).
  split; [exact E|].
  unfold probe_claim. cbv zeta. rewrite E.
  change (remote _ _ _) with (@Resolved RequestUrlResponse {| status := 301 |}).
  intros [_ H]. destruct H as [error H].
  - simpl. lia.
  - simpl. discriminate.
  - discriminate H.
Qed.

(** The entry point [uploadFile] validates first: with one of the four
    required settings empty it rejects with the configuration error and
    leaves the trace as it was. *)
Lemma uploadFile_rejects_incomplete_settings (s : AliyunOssSettings) (env : environment)
      (content : list byte) (name : string) (cb : option progress_sink) (tr : trace) :
  accessKeyId s = "" \/ accessKeySecret s = "" \/ bucket s = "" \/ region s = "" ->
  exists message,
    uploadFile s env content name cb tr = (Rejected (newError message), tr)
    /\ In message ["缺少 Access Key ID"; "缺少 Access Key Secret"; "缺少 Bucket"; "缺少 Region"].
Proof.
  intros H. unfold uploadFile, validateSettings, bind.
  destruct (accessKeyId s) eqn:E1; cbn [Js.truthy negb].
  { eexists. split; [reflexivity | simpl; auto]. }
  destruct (accessKeySecret s) eqn:E2; cbn [Js.truthy negb].
  { eexists. split; [reflexivity | simpl; auto]. }
  destruct (bucket s) eqn:E3; cbn [Js.truthy negb].
  { eexists. split; [reflexivity | simpl; auto]. }
  destruct (region s) eqn:E4; cbn [Js.truthy negb].
  { eexists. split; [reflexivity | simpl; auto 6]. }
  exfalso. destruct H as [H|[H|[H|H]]]; discriminate H.
Qed.

(** With complete settings [uploadFile] is [uploadWithCompression] with
    the existence check on. *)
Lemma uploadFile_complete (s : AliyunOssSettings) (env : environment)
      (content : list byte) (name : string) (cb : option progress_sink) (tr : trace) :
  accessKeyId s <> "" -> accessKeySecret s <> "" -> bucket s <> "" -> region s <> "" ->
  uploadFile s env content name cb tr
  = uploadWithCompression s env content name
      (Some {| onProgress := cb; skipExistCheck := Some false |}) tr.
Proof.
  intros H1 H2 H3 H4. unfold uploadFile, validateSettings, bind.
  destruct (accessKeyId s); [now elim H1|].
  destruct (accessKeySecret s); [now elim H2|].
  destruct (bucket s); [now elim H3|].
  destruct (region s); [now elim H4|].
  reflexivity.
Qed.

(** C2, evaluated where it fails.  [uploadWithCompression], the function
    the plugin calls, does not validate.  Whenever the access key secret
    is set and the check is not skipped, its first action is to send the
    HEAD probe, whatever the access key id, the bucket and the region are:
    with an empty access key id the probe goes out under the
    authorization ["OSS :<signature>"]. *)
Theorem upload_probes_with_incomplete_settings (s : AliyunOssSettings) (env : environment)
        (content : list byte) (name : string) (options : option UploadOptions)
        (tr : trace) :
  accessKeySecret s <> "" ->
  skipExistCheckOf options = false ->
  exists res rest,
    uploadWithCompression s env content name options tr
    = (res,
       (tr ++ Request (probeRequest s (ossPathOf s content name)
                         (JsDate.toUTCString (clock env tr))) :: rest)%list).
Proof.
  intros Hsec Hskip. apply truthy_iff in Hsec.
  unfold uploadWithCompression. rewrite Hskip. cbn [negb].
  unfold bind at 1. rewrite checkFileExists_run, Hsec.
  set (probe := probeRequest _ _ _).
  destruct (transformAndPut_shape s env content name options (tr ++ [Request probe])%list)
    as (_ & _ & evs & res & E & _).
  rewrite <- app_assoc in E. cbn [app] in E.
  destruct (remote env tr probe) as [response|error].
  - destruct (status response =? 200).
    + eexists. exists []. reflexivity.
    + exists res, evs. exact E.
  - destruct (instanceofError error && Js.includes "404" (message_of error)).
    + exists res, evs. exact E.
    + eexists. exists []. reflexivity.
Qed.

Lemma upload_probes_with_incomplete_settings_witness :
  accessKeyId Cases.settings_without_id = ""
  /\ exists res rest,
      uploadWithCompression Cases.settings_without_id (Scenario.env_verifying 0)
        Scenario.payload "shot.png" None []
      = (res,
         ([] ++ Request (probeRequest Cases.settings_without_id
                           (ossPathOf Cases.settings_without_id Scenario.payload "shot.png")
                           Scenario.date_0s) :: rest)%list).
Proof.
  split; [reflexivity|].
  apply (upload_probes_with_incomplete_settings Cases.settings_without_id
           (Scenario.env_verifying 0) Scenario.payload "shot.png" None []).
  - discriminate.
  - reflexivity.
Defined.

(** All transfers of one upload carry one and the same authorization. *)
Lemma upload_puts_share_authorization (s : AliyunOssSettings) (env : environment)
      (content : list byte) (name : string) (options : option UploadOptions) (tr : trace) :
  exists authorization evs res,
    uploadWithCompression s env content name options tr = (res, (tr ++ evs)%list)
    /\ forall r, In (Request r) evs -> method r = "PUT" ->
                 header "Authorization" (headers r) = authorization.
Proof.
  destruct (uploadWithCompression_shape s env content name options tr)
    as (a & p & evs & res & E & _ & F & _).
  exists a, evs, res. split; [exact E|].
  intros r Hin Hput. rewrite Forall_forall in F.
  apply F, upload_event_request in Hin. destruct Hin as [_ Hr].
  rewrite (Hr Hput). reflexivity.
Qed.

(** C8, evaluated where it fails.  The store is empty and verifies
    signatures; the link drops the first PUT.  The upload signs once, at
    00:00:00, and sends four PUTs dated 00:00:00, 00:00:01, 00:00:03 and
    00:00:07 that all carry the authorization signed for 00:00:00; the
    store rejects the three retries with status 403 and the upload fails,
    although the authorization of a request signed at 00:00:01 differs
    from the one that was sent. *)
Theorem retry_reuses_first_signature :
  let run :=
    uploadWithCompression Scenario.settings (Scenario.env_verifying 1)
      Scenario.payload "shot.png" None [] in
  fst run = Rejected (Scenario.http_error 403)
  /\ Scenario.sent_puts (snd run)
     = [(Scenario.date_0s, Scenario.shot_authorization Scenario.date_0s);
        (Scenario.date_1s, Scenario.shot_authorization Scenario.date_0s);
        (Scenario.date_3s, Scenario.shot_authorization Scenario.date_0s);
        (Scenario.date_7s, Scenario.shot_authorization Scenario.date_0s)]
  /\ Scenario.shot_authorization Scenario.date_1s
     <> Scenario.shot_authorization Scenario.date_0s.
Proof.
  cbv zeta. split; [vm_compute; reflexivity|]. split; [vm_compute; reflexivity|].
  apply String.eqb_neq. vm_compute. reflexivity.
Qed.

(** * Further properties of the service *)

(** ** Run equations *)

Lemma transformAndPut_run (s : AliyunOssSettings) (env : environment)
      (content : list byte) (name : string) (options : option UploadOptions) (tr : trace) :
  transformAndPut s env content name options (fileExtOf name) (ossPathOf s content name) tr
  = let key := ossPathOf s content name in
    let contentType := "image/" ++ fileExtOf name in
    if enableCompression s && imageExtTest (fileExtOf name) then
      let file := compressionFile content name in
      let opts := compressionOptionsOf s options in
      match compressor env tr file opts with
      | Resolved final =>
          transferFrom s env key contentType final (tr ++ [Compress file opts])%list
      | Rejected error => (Rejected error, (tr ++ [Compress file opts])%list)
      end
    else transferFrom s env key contentType content tr.
Proof.
  assert (T : forall final tr1,
             bind (generateSignature s env (ossPathOf s content name)
                     ("image/" ++ fileExtOf name)) (fun sig =>
               let '(authorization, endpoint) := sig in
               bind (retryOperation
                       (putOperation env endpoint authorization
                          ("image/" ++ fileExtOf name) final) 0)
                    (fun _ => ret (publicUrl s (ossPathOf s content name)))) tr1
             = transferFrom s env (ossPathOf s content name)
                 ("image/" ++ fileExtOf name) final tr1).
  { intros final tr1. unfold bind at 1, transferFrom. rewrite generateSignature_run.
    destruct (Js.truthy (accessKeySecret s)); [|reflexivity].
    cbv beta iota. unfold bind, ret, retryOperation. reflexivity. }
  cbv zeta. unfold transformAndPut. unfold bind at 1.
  destruct (enableCompression s && imageExtTest (fileExtOf name)).
  - unfold imageCompression.
    change (mkFile content name _) with (compressionFile content name).
    change (mkCompressionOptions _ _ true _) with (compressionOptionsOf s options).
    destruct (compressor env tr _ _) as [final|error]; [|reflexivity].
    apply T.
  - unfold ret at 1. apply T.
Qed.

Lemma uploadWithCompression_run (s : AliyunOssSettings) (env : environment)
      (content : list byte) (name : string) (options : option UploadOptions) (tr : trace) :
  uploadWithCompression s env content name options tr
  = let key := ossPathOf s content name in
    let probe := probeRequest s key (JsDate.toUTCString (clock env tr)) in
    let go tr1 := transformAndPut s env content name options (fileExtOf name) key tr1 in
    if skipExistCheckOf options then go tr
    else if Js.truthy (accessKeySecret s) then
      match remote env tr probe with
      | Resolved response =>
          if status response =? 200
          then (Resolved (publicUrl s key), (tr ++ [Request probe])%list)
          else go (tr ++ [Request probe])%list
      | Rejected error =>
          if instanceofError error && Js.includes "404" (message_of error)
          then go (tr ++ [Request probe])%list
          else (Rejected error, (tr ++ [Request probe])%list)
      end
    else (Rejected zeroLengthKeyError, tr).
Proof.
  cbv zeta. unfold uploadWithCompression.
  destruct (skipExistCheckOf options); cbn [negb]; [reflexivity|].
  unfold bind at 1. rewrite checkFileExists_run.
  destruct (Js.truthy (accessKeySecret s)); [|reflexivity].
  destruct (remote env tr _) as [response|error].
  - now destruct (status response =? 200).
  - now destruct (instanceofError error && Js.includes "404" (message_of error)).
Qed.

(** ** The retry loop at its bounds *)

Lemma retry_from_resolved {T} (fuel : nat) (op : M T) :
  forall rc tr v tr',
    retry_from fuel op rc tr = (Resolved v, tr') ->
    exists tr_last, op tr_last = (Resolved v, tr').
Proof.
  induction fuel as [|fuel IH]; intros rc tr v tr'; rewrite retry_from_step;
    destruct (op tr) as [[a|e0] tr0] eqn:E; intros H; try discriminate.
  - exists tr. now rewrite E.
  - exists tr. now rewrite E.
  - destruct (rc <? maxRetries)%nat; [eapply IH; eauto | discriminate].
Qed.

(** X1. Called with a retry count that has already reached the bound,
    the loop is a single attempt: it returns what the operation returns,
    success or failure, and never waits. *)
Theorem retry_at_bound_is_one_attempt {T} (op : M T) (rc : nat) (tr : trace) :
  (maxRetries <= rc)%nat ->
  retryOperation op rc tr = op tr.
Proof.
  intros H. unfold retryOperation.
  replace (maxRetries - rc)%nat with 0%nat by lia.
  rewrite retry_from_step. now destruct (op tr) as [[a|e] tr'].
Qed.

Lemma retry_at_bound_is_one_attempt_witness :
  retryOperation (Scenario.transfer [Rejected Scenario.network_error]) 3 []
  = Scenario.transfer [Rejected Scenario.network_error] [].
Proof.
  apply (retry_at_bound_is_one_attempt
           (Scenario.transfer [Rejected Scenario.network_error]) 3 []).
  unfold maxRetries. lia.
Defined.

(** X2. The loop invents no result: a value it returns is the value
    returned by one invocation of the operation, the one that produced the
    final trace; and an operation that succeeds at once is passed through
    without any wait. *)
Theorem retry_success_is_an_attempt {T} (op : M T) (rc : nat) (tr tr' : trace) (v : T) :
  (retryOperation op rc tr = (Resolved v, tr') ->
   exists tr_last, op tr_last = (Resolved v, tr'))
  /\ (op tr = (Resolved v, tr') -> retryOperation op rc tr = (Resolved v, tr')).
Proof.
  split.
  - unfold retryOperation. apply retry_from_resolved.
  - intros H. unfold retryOperation. rewrite retry_from_step, H. reflexivity.
Qed.

Lemma retry_success_is_an_attempt_witness :
  exists tr_last,
    Scenario.transfer [Rejected Scenario.network_error; Resolved {| status := 200 |}] tr_last
    = (Resolved tt,
       [Scenario.put_at Scenario.date_0s; Sleep 1000; Scenario.put_at Scenario.date_1s]).
Proof.
  apply (proj1 (retry_success_is_an_attempt
                  (Scenario.transfer [Rejected Scenario.network_error;
                                      Resolved {| status := 200 |}])
                  0 []
                  [Scenario.put_at Scenario.date_0s; Sleep 1000;
                   Scenario.put_at Scenario.date_1s] tt)).
  vm_compute. reflexivity.
Defined.

(** The calls of a retried transfer follow one of the patterns, and its
    requests are the one PUT under the one authorization. *)
Lemma retry_put_pattern (env : environment) (endpoint authorization contentType : string)
      (final : list byte) (fuel : nat) :
  forall rc tr,
  exists evs,
    snd (retry_from fuel (putOperation env endpoint authorization contentType final) rc tr)
    = (tr ++ evs)%list
    /\ In (map call_of evs) (transfer_patterns fuel rc)
    /\ (forall r, In (Request r) evs ->
                  exists date, r = putRequest endpoint authorization date contentType final).
Proof.
  induction fuel as [|fuel IH]; intros rc tr;
    rewrite retry_from_step, putOperation_run;
    set (req := putRequest _ _ _ _ _);
    assert (Hone : exists evs,
               (tr ++ [Request req] = tr ++ evs)%list
               /\ In (map call_of evs) (transfer_patterns 0 rc)
               /\ (forall r, In (Request r) evs ->
                             exists date,
                               r = putRequest endpoint authorization date contentType final)).
  1, 3: exists [Request req]; split; [reflexivity|]; split; [left; reflexivity|];
        intros r [Hr|[]]; inversion Hr; eexists; reflexivity.
  - destruct (remote env tr req) as [response|error]; [|exact Hone].
    destruct (negb (status response =? 200)); exact Hone.
  - assert (Hone' : exists evs,
               (tr ++ [Request req] = tr ++ evs)%list
               /\ In (map call_of evs) (transfer_patterns (S fuel) rc)
               /\ (forall r, In (Request r) evs ->
                             exists date,
                               r = putRequest endpoint authorization date contentType final)).
    { destruct Hone as (evs & E & P & R). exists evs. split; [exact E|]. split; [|exact R].
      destruct P as [P|[]]. left. exact P. }
    assert (Hmore : (rc <? maxRetries)%nat = true ->
               exists evs,
                 snd (retry_from fuel
                        (putOperation env endpoint authorization contentType final)
                        (rc + 1)
                        ((tr ++ [Request req]) ++ [Sleep (2 ^ Z.of_nat rc * 1000)])%list)
                 = (tr ++ evs)%list
                 /\ In (map call_of evs) (transfer_patterns (S fuel) rc)
                 /\ (forall r, In (Request r) evs ->
                               exists date,
                                 r = putRequest endpoint authorization date contentType final)).
    { intros Hlt.
      destruct (IH (rc + 1)%nat
                  ((tr ++ [Request req]) ++ [Sleep (2 ^ Z.of_nat rc * 1000)])%list)
        as (evs & E & P & R).
      exists (Request req :: Sleep (2 ^ Z.of_nat rc * 1000) :: evs).
      rewrite E, <- !app_assoc. split; [reflexivity|]. split.
      - cbn [transfer_patterns]. rewrite Hlt. right.
        apply in_map_iff. exists (map call_of evs). split; [reflexivity | exact P].
      - intros r [Hr|[Hr|Hr]]; [inversion Hr; eexists; reflexivity | discriminate Hr | auto]. }
    destruct (remote env tr req) as [response|error].
    + destruct (negb (status response =? 200)); [|exact Hone'].
      destruct (rc <? maxRetries)%nat eqn:Hlt; [apply Hmore; reflexivity | exact Hone'].
    + destruct (rc <? maxRetries)%nat eqn:Hlt; [apply Hmore; reflexivity | exact Hone'].
Qed.

(** ** The pipeline, call by call *)

Lemma transfer_patterns_top :
  transfer_patterns maxRetries 0
  = [[CallPut];
     [CallPut; CallWait 1000; CallPut];
     [CallPut; CallWait 1000; CallPut; CallWait 2000; CallPut];
     [CallPut; CallWait 1000; CallPut; CallWait 2000; CallPut; CallWait 4000; CallPut]].
Proof. reflexivity. Qed.

Lemma putOperation_resolved (env : environment) (endpoint authorization contentType : string)
      (final : list byte) (tr0 tr' : trace) (v : unit) :
  putOperation env endpoint authorization contentType final tr0 = (Resolved v, tr') ->
  exists date response,
    tr' = (tr0 ++ [Request (putRequest endpoint authorization date contentType final)])%list
    /\ remote env tr0 (putRequest endpoint authorization date contentType final)
       = Resolved response
    /\ status response = 200.
Proof.
  rewrite putOperation_run. intros H.
  exists (JsDate.toUTCString (clock env tr0)).
  destruct (remote env tr0 _) as [response|error] eqn:E; [|inversion H].
  exists response. destruct (status response =? 200) eqn:S; cbn [negb] in H; inversion H.
  repeat split. now apply Z.eqb_eq.
Qed.

Lemma transfer_pattern_nonempty (fuel rc : nat) (p : list call) :
  In p (transfer_patterns fuel rc) -> p <> [].
Proof.
  destruct fuel as [|fuel]; cbn [transfer_patterns]; intros [H|H]; subst; try discriminate;
    try contradiction.
  destruct (rc <? maxRetries)%nat; [|contradiction].
  apply in_map_iff in H. destruct H as (q & <- & _). discriminate.
Qed.

(** The transfer phase started at [tr1] with the payload [final]. *)
Lemma transfer_phase (s : AliyunOssSettings) (env : environment) (key contentType : string)
      (final : list byte) (tr1 : trace) :
  exists evs res,
    transferFrom s env key contentType final tr1 = (res, (tr1 ++ evs)%list)
    /\ In (map call_of evs) ([] :: transfer_patterns maxRetries 0)
    /\ (forall r, In (Request r) evs ->
                  exists date,
                    r = putRequest (endpointOf s key)
                          (putAuthorization s env key contentType tr1) date contentType final)
    /\ (forall u, res = Resolved u ->
          u = publicUrl s key
          /\ exists tr0 r response,
               (tr1 ++ evs)%list = (tr0 ++ [Request r])%list
               /\ remote env tr0 r = Resolved response /\ status response = 200)
    /\ (accessKeySecret s <> "" -> evs <> [])
    /\ (accessKeySecret s = "" -> evs = [] /\ res = Rejected zeroLengthKeyError).
Proof.
  unfold transferFrom. destruct (Js.truthy (accessKeySecret s)) eqn:T.
  - assert (Hne : accessKeySecret s <> "") by now apply truthy_iff.
    destruct (retry_put_pattern env (endpointOf s key)
                (putAuthorization s env key contentType tr1) contentType final
                maxRetries 0%nat tr1) as (evs & E & P & R).
    pose proof (transfer_pattern_nonempty _ _ _ P) as NE.
    destruct (retry_from _ _ _ _) as [[v|error] tr2] eqn:Run; cbn [snd] in E; subst tr2.
    + exists evs, (Resolved (publicUrl s key)).
      split; [reflexivity|]. split; [now right|]. split; [exact R|]. split; [|split].
      * intros u Hu. inversion Hu. split; [reflexivity|].
        apply retry_from_resolved in Run. destruct Run as (tr_last & Hlast).
        apply putOperation_resolved in Hlast.
        destruct Hlast as (date & response & Htr & Hans & Hst).
        eexists. eexists. exists response.
        split; [exact Htr|]. split; [exact Hans | exact Hst].
      * intros _ He. rewrite He in NE. now elim NE.
      * intros He. now elim Hne.
    + exists evs, (Rejected error).
      split; [reflexivity|]. split; [now right|]. split; [exact R|]. split; [|split].
      * discriminate.
      * intros _ He. rewrite He in NE. now elim NE.
      * intros He. now elim Hne.
  - assert (He : accessKeySecret s = "") by now apply truthy_false_iff.
    exists [], (Rejected zeroLengthKeyError).
    split; [now rewrite app_nil_r|]. split; [now left|]. split; [intros r []|].
    split; [discriminate|]. split; [intros H; now elim H | auto].
Qed.

(** The calls of one upload: the probe unless skipped or unsigned, at
    most one compression, and a transfer pattern. *)
Lemma uploadWithCompression_calls (s : AliyunOssSettings) (env : environment)
      (content : list byte) (name : string) (options : option UploadOptions) (tr : trace) :
  exists evs res h c t,
    uploadWithCompression s env content name options tr = (res, (tr ++ evs)%list)
    /\ map call_of evs = (h ++ c ++ t)%list
    /\ h = (if skipExistCheckOf options then []
            else if Js.truthy (accessKeySecret s) then [CallProbe] else [])
    /\ (c = [] \/ c = [CallCompress])
    /\ In t ([] :: transfer_patterns maxRetries 0)
    /\ (accessKeySecret s = "" -> t = [] /\ exists error, res = Rejected error).
Proof.
  assert (Hgo : forall tr1, exists evs res c t,
             transformAndPut s env content name options (fileExtOf name)
               (ossPathOf s content name) tr1 = (res, (tr1 ++ evs)%list)
             /\ map call_of evs = (c ++ t)%list
             /\ (c = [] \/ c = [CallCompress])
             /\ In t ([] :: transfer_patterns maxRetries 0)
             /\ (accessKeySecret s = "" -> t = [] /\ exists error, res = Rejected error)).
  { intros tr1. rewrite transformAndPut_run. cbv zeta.
    destruct (enableCompression s && imageExtTest (fileExtOf name)).
    - destruct (compressor env tr1 _ _) as [final|error].
      + destruct (transfer_phase s env (ossPathOf s content name)
                    ("image/" ++ fileExtOf name) final
                    (tr1 ++ [Compress (compressionFile content name)
                               (compressionOptionsOf s options)])%list)
          as (evs & res & E & P & _ & _ & _ & K).
        rewrite E, <- app_assoc.
        exists (Compress (compressionFile content name) (compressionOptionsOf s options) :: evs),
               res, [CallCompress], (map call_of evs).
        split; [reflexivity|]. split; [reflexivity|]. split; [now right|].
        split; [exact P|].
        intros He. destruct (K He) as [-> ->]. split; [reflexivity | eauto].
      + exists [Compress (compressionFile content name) (compressionOptionsOf s options)],
               (Rejected error), [CallCompress], [].
        split; [reflexivity|]. split; [reflexivity|]. split; [now right|].
        split; [now left | eauto].
    - destruct (transfer_phase s env (ossPathOf s content name)
                  ("image/" ++ fileExtOf name) content tr1)
        as (evs & res & E & P & _ & _ & _ & K).
      rewrite E. exists evs, res, [], (map call_of evs).
      split; [reflexivity|]. split; [reflexivity|]. split; [now left|].
      split; [exact P|].
      intros He. destruct (K He) as [-> ->]. split; [reflexivity | eauto]. }
  rewrite uploadWithCompression_run. cbv zeta.
  destruct (skipExistCheckOf options).
  - destruct (Hgo tr) as (evs & res & c & t & E & K & C & T & Z).
    exists evs, res, [], c, t. auto 6.
  - destruct (Js.truthy (accessKeySecret s)) eqn:Tr.
    2: { exists [], (Rejected zeroLengthKeyError), [], [], [].
         split; [now rewrite app_nil_r|]. split; [reflexivity|]. split; [reflexivity|].
         split; [now left|]. split; [now left | eauto]. }
    assert (Hne : accessKeySecret s <> "") by now apply truthy_iff.
    set (probe := probeRequest _ _ _).
    assert (Hk : call_of (Request probe) = CallProbe) by reflexivity.
    assert (Hstop : forall o : outcome string, exists evs res h c t,
               (o, (tr ++ [Request probe])%list) = (res, (tr ++ evs)%list)
               /\ map call_of evs = (h ++ c ++ t)%list
               /\ h = [CallProbe] /\ (c = [] \/ c = [CallCompress])
               /\ In t ([] :: transfer_patterns maxRetries 0)
               /\ (accessKeySecret s = "" -> t = [] /\ exists error, res = Rejected error)).
    { intros o. exists [Request probe], o, [CallProbe], [], [].
      split; [reflexivity|]. split; [reflexivity|]. split; [reflexivity|].
      split; [now left|]. split; [now left|]. intros He. now elim Hne. }
    assert (Hfall : exists evs res h c t,
               transformAndPut s env content name options (fileExtOf name)
                 (ossPathOf s content name) (tr ++ [Request probe])%list
               = (res, (tr ++ evs)%list)
               /\ map call_of evs = (h ++ c ++ t)%list
               /\ h = [CallProbe] /\ (c = [] \/ c = [CallCompress])
               /\ In t ([] :: transfer_patterns maxRetries 0)
               /\ (accessKeySecret s = "" -> t = [] /\ exists error, res = Rejected error)).
    { destruct (Hgo (tr ++ [Request probe])%list) as (evs & res & c & t & E & K & C & T & Z).
      exists (Request probe :: evs), res, [CallProbe], c, t.
      rewrite E, <- app_assoc. split; [reflexivity|]. split.
      - cbn [map app]. rewrite K, Hk. reflexivity.
      - auto. }
    destruct (remote env tr probe) as [response|error].
    + destruct (status response =? 200); [apply Hstop | exact Hfall].
    + destruct (instanceofError error && Js.includes "404" (message_of error));
        [exact Hfall | apply Hstop].
Qed.

(** X3. The external calls of one upload, in order: the HEAD probe,
    unless the check is skipped or the access key secret is empty; then at
    most one compression; then at most four PUTs separated by waits of
    1000, 2000 and 4000 ms.  With an empty access key secret no request is
    sent at all and the upload is rejected. *)
Theorem upload_call_pattern (s : AliyunOssSettings) (env : environment)
        (content : list byte) (name : string) (options : option UploadOptions) (tr : trace) :
  exists evs res h c t,
    uploadWithCompression s env content name options tr = (res, (tr ++ evs)%list)
    /\ map call_of evs = (h ++ c ++ t)%list
    /\ h = (if skipExistCheckOf options then []
            else if Js.truthy (accessKeySecret s) then [CallProbe] else [])
    /\ (c = [] \/ c = [CallCompress])
    /\ In t [[];
             [CallPut];
             [CallPut; CallWait 1000; CallPut];
             [CallPut; CallWait 1000; CallPut; CallWait 2000; CallPut];
             [CallPut; CallWait 1000; CallPut; CallWait 2000; CallPut;
              CallWait 4000; CallPut]]
    /\ (accessKeySecret s = "" ->
        h = [] /\ t = [] /\ exists error, res = Rejected error).
Proof.
  destruct (uploadWithCompression_calls s env content name options tr)
    as (evs & res & h & c & t & E & K & Hh & Hc & Ht & Hz).
  rewrite transfer_patterns_top in Ht.
  exists evs, res, h, c, t.
  split; [exact E|]. split; [exact K|]. split; [exact Hh|]. split; [exact Hc|].
  split; [exact Ht|].
  intros He. destruct (Hz He) as [Hte Hres]. split; [|split; [exact Hte | exact Hres]].
  rewrite Hh, He. now destruct (skipExistCheckOf options).
Qed.

Lemma upload_call_pattern_witness :
  exists evs res c,
    uploadWithCompression DEFAULT_SETTINGS (Scenario.env_verifying 0)
      Scenario.payload "shot.png" None []
    = (res, ([] ++ evs)%list)
    /\ map call_of evs = c
    /\ (c = [] \/ c = [CallCompress])
    /\ exists error, res = Rejected error.
Proof.
  destruct (upload_call_pattern DEFAULT_SETTINGS (Scenario.env_verifying 0)
              Scenario.payload "shot.png" None [])
    as (evs & res & h & c & t & E & K & _ & Hc & _ & Hz).
  destruct (Hz eq_refl) as (Hh & Ht & Hr). subst h t.
  rewrite app_nil_r in K. exists evs, res, c. auto.
Defined.

(** X4. An upload that returns has seen status 200: the last event of
    its trace is a request (the probe or a PUT) that the remote answered
    with status 200. *)
Theorem upload_success_means_200 (s : AliyunOssSettings) (env : environment)
        (content : list byte) (name : string) (options : option UploadOptions)
        (tr tr' : trace) (u : string) :
  uploadWithCompression s env content name options tr = (Resolved u, tr') ->
  exists tr0 r response,
    tr' = (tr0 ++ [Request r])%list
    /\ remote env tr0 r = Resolved response
    /\ status response = 200.
Proof.
  assert (Hgo : forall tr1,
             transformAndPut s env content name options (fileExtOf name)
               (ossPathOf s content name) tr1 = (Resolved u, tr') ->
             exists tr0 r response,
               tr' = (tr0 ++ [Request r])%list
               /\ remote env tr0 r = Resolved response /\ status response = 200).
  { intros tr1. rewrite transformAndPut_run. cbv zeta.
    destruct (enableCompression s && imageExtTest (fileExtOf name)).
    - destruct (compressor env tr1 _ _) as [final|error]; [|discriminate].
      destruct (transfer_phase s env (ossPathOf s content name)
                  ("image/" ++ fileExtOf name) final
                  (tr1 ++ [Compress (compressionFile content name)
                             (compressionOptionsOf s options)])%list)
        as (evs & res & E & _ & _ & U & _).
      rewrite E. intros H. inversion H. subst res.
      destruct (U u eq_refl) as (_ & tr0 & r & response & Htr & Hans & Hst).
      exists tr0, r, response. auto.
    - destruct (transfer_phase s env (ossPathOf s content name)
                  ("image/" ++ fileExtOf name) content tr1)
        as (evs & res & E & _ & _ & U & _).
      rewrite E. intros H. inversion H. subst res.
      destruct (U u eq_refl) as (_ & tr0 & r & response & Htr & Hans & Hst).
      exists tr0, r, response. auto. }
  rewrite uploadWithCompression_run. cbv zeta.
  destruct (skipExistCheckOf options); [apply Hgo|].
  destruct (Js.truthy (accessKeySecret s)); [|discriminate].
  destruct (remote env tr _) as [response|error] eqn:Ans.
  - destruct (status response =? 200) eqn:St; [|apply Hgo].
    intros H. inversion H. eexists. eexists. exists response.
    split; [reflexivity|]. split; [exact Ans | now apply Z.eqb_eq].
  - destruct (instanceofError error && Js.includes "404" (message_of error));
      [apply Hgo | discriminate].
Qed.

Lemma upload_success_means_200_witness :
  exists tr0 r response,
    snd (uploadWithCompression Scenario.settings (Scenario.env_verifying 0)
           Scenario.payload "shot.png" None [])
    = (tr0 ++ [Request r])%list
    /\ remote (Scenario.env_verifying 0) tr0 r = Resolved response
    /\ status response = 200.
Proof.
  apply (upload_success_means_200 Scenario.settings (Scenario.env_verifying 0)
           Scenario.payload "shot.png" None []
           (snd (uploadWithCompression Scenario.settings (Scenario.env_verifying 0)
                   Scenario.payload "shot.png" None []))
           (publicUrl Scenario.settings
              (ossPathOf Scenario.settings Scenario.payload "shot.png"))).
  vm_compute. reflexivity.
Defined.

(** X5. With an access key secret to sign with, a probe rejected by
    anything but the not-found error ends the upload on the spot: the
    upload rejects with the very value the probe was rejected with, after
    the probe alone, with no compression, no PUT and no retry. *)
Theorem probe_failure_aborts_upload (s : AliyunOssSettings) (env : environment)
        (content : list byte) (name : string) (options : option UploadOptions)
        (tr : trace) (error : thrown) :
  let key := ossPathOf s content name in
  let probe := probeRequest s key (JsDate.toUTCString (clock env tr)) in
  accessKeySecret s <> "" ->
  skipExistCheckOf options = false ->
  remote env tr probe = Rejected error ->
  instanceofError error && Js.includes "404" (message_of error) = false ->
  uploadWithCompression s env content name options tr
  = (Rejected error, (tr ++ [Request probe])%list).
Proof.
  intros key probe Hsec Hskip Hans Hnot. apply truthy_iff in Hsec.
  rewrite uploadWithCompression_run. cbv zeta.
  rewrite Hskip, Hsec. fold key. fold probe. rewrite Hans, Hnot. reflexivity.
Qed.

Lemma probe_failure_aborts_upload_witness :
  uploadWithCompression Scenario.settings
    (Scenario.env_scripted (Rejected (Scenario.http_error 403)) [])
    Scenario.payload "shot.png" None []
  = (Rejected (Scenario.http_error 403),
     [Request (probeRequest Scenario.settings
                 (ossPathOf Scenario.settings Scenario.payload "shot.png")
                 Scenario.date_0s)]).
Proof.
  apply (probe_failure_aborts_upload Scenario.settings
           (Scenario.env_scripted (Rejected (Scenario.http_error 403)) [])
           Scenario.payload "shot.png" None [] (Scenario.http_error 403));
    [discriminate | reflexivity | reflexivity | reflexivity].
Defined.

(** X6. When the existence check answers [false], the upload goes on
    exactly as an upload with the check skipped would from the trace the
    probe left: same result, same events. *)
Theorem absent_object_transfers (s : AliyunOssSettings) (env : environment)
        (content : list byte) (name : string) (options : option UploadOptions)
        (tr : trace) :
  skipExistCheckOf options = false ->
  fst (checkFileExists s env (ossPathOf s content name) tr) = Resolved false ->
  uploadWithCompression s env content name options tr
  = uploadWithCompression s env content name
      (Some {| onProgress := onProgressOf options; skipExistCheck := Some true |})
      (snd (checkFileExists s env (ossPathOf s content name) tr)).
Proof.
  intros Hskip Hex.
  rewrite (uploadWithCompression_run s env content name options tr).
  rewrite (uploadWithCompression_run s env content name (Some _)).
  cbv zeta. rewrite Hskip. cbn [skipExistCheckOf skipExistCheck].
  rewrite checkFileExists_run in Hex |- *.
  destruct (Js.truthy (accessKeySecret s)); [|discriminate Hex].
  cbn [fst snd] in Hex |- *.
  assert (Hsame : forall tr1,
             transformAndPut s env content name options (fileExtOf name)
               (ossPathOf s content name) tr1
             = transformAndPut s env content name
                 (Some {| onProgress := onProgressOf options; skipExistCheck := Some true |})
                 (fileExtOf name) (ossPathOf s content name) tr1)
    by reflexivity.
  destruct (remote env tr _) as [response|error].
  - destruct (status response =? 200); [discriminate Hex | apply Hsame].
  - destruct (instanceofError error && Js.includes "404" (message_of error));
      [apply Hsame | discriminate Hex].
Qed.

Lemma absent_object_transfers_witness :
  uploadWithCompression Scenario.settings (Scenario.env_verifying 0)
    Scenario.payload "shot.png" None []
  = uploadWithCompression Scenario.settings (Scenario.env_verifying 0)
      Scenario.payload "shot.png"
      (Some {| onProgress := None; skipExistCheck := Some true |})
      (snd (checkFileExists Scenario.settings (Scenario.env_verifying 0)
              (ossPathOf Scenario.settings Scenario.payload "shot.png") [])).
Proof.
  apply (absent_object_transfers Scenario.settings (Scenario.env_verifying 0)
           Scenario.payload "shot.png" None []).
  - reflexivity.
  - vm_compute. reflexivity.
Defined.

Lemma transfer_events_no_compress (evs : list event) :
  In (map call_of evs) ([] :: transfer_patterns maxRetries 0) ->
  forall f o, ~ In (Compress f o) evs.
Proof.
  intros P f o Hc.
  assert (Kc : In CallCompress (map call_of evs))
    by (apply in_map_iff; eexists; split; [|exact Hc]; reflexivity).
  rewrite transfer_patterns_top in P.
  destruct P as [P|[P|[P|[P|[P|[]]]]]]; rewrite <- P in Kc; simpl in Kc;
    repeat (destruct Kc as [Kc|Kc]; [discriminate Kc|]); exact Kc.
Qed.

(** What the phase after the check sends: PUTs of one payload under one
    authorization, and at most the compression of the raw content. *)
Lemma transformAndPut_requests (s : AliyunOssSettings) (env : environment)
      (content : list byte) (name : string) (options : option UploadOptions) (tr1 : trace) :
  exists evs res payload tr_sign,
    transformAndPut s env content name options (fileExtOf name)
      (ossPathOf s content name) tr1 = (res, (tr1 ++ evs)%list)
    /\ (forall r, In (Request r) evs ->
          exists date,
            r = putRequest (endpointOf s (ossPathOf s content name))
                  (putAuthorization s env (ossPathOf s content name)
                     ("image/" ++ fileExtOf name) tr_sign)
                  date ("image/" ++ fileExtOf name) payload)
    /\ (forall f o, In (Compress f o) evs ->
          enableCompression s && imageExtTest (fileExtOf name) = true
          /\ f = compressionFile content name /\ o = compressionOptionsOf s options)
    /\ (enableCompression s && imageExtTest (fileExtOf name) = false -> payload = content)
    /\ (forall final,
          enableCompression s && imageExtTest (fileExtOf name) = true ->
          compressor env tr1 (compressionFile content name) (compressionOptionsOf s options)
          = Resolved final ->
          payload = final).
Proof.
  rewrite transformAndPut_run. cbv zeta.
  destruct (enableCompression s && imageExtTest (fileExtOf name)) eqn:G.
  - destruct (compressor env tr1 _ _) as [final|error] eqn:C.
    + destruct (transfer_phase s env (ossPathOf s content name)
                  ("image/" ++ fileExtOf name) final
                  (tr1 ++ [Compress (compressionFile content name)
                             (compressionOptionsOf s options)])%list)
        as (evs & res & E & P & R & _).
      exists (Compress (compressionFile content name) (compressionOptionsOf s options) :: evs),
             res, final,
             (tr1 ++ [Compress (compressionFile content name)
                        (compressionOptionsOf s options)])%list.
      split; [rewrite E; now rewrite <- app_assoc|]. split; [|split; [|split]].
      * intros r [Hr|Hr]; [discriminate Hr | exact (R r Hr)].
      * intros f o [Hc|Hc]; [inversion Hc; auto|].
        exfalso. exact (transfer_events_no_compress evs P f o Hc).
      * discriminate.
      * intros final' _ Hf. now inversion Hf.
    + exists [Compress (compressionFile content name) (compressionOptionsOf s options)],
             (Rejected error), content, tr1.
      split; [reflexivity|]. split; [|split; [|split]].
      * intros r [Hr|[]]. discriminate Hr.
      * intros f o [Hc|[]]. inversion Hc. auto.
      * discriminate.
      * intros final _ Hf. discriminate Hf.
  - destruct (transfer_phase s env (ossPathOf s content name)
                ("image/" ++ fileExtOf name) content tr1) as (evs & res & E & P & R & _).
    exists evs, res, content, tr1.
    split; [exact E|]. split; [exact R|]. split; [|split].
    + intros f o Hc. exfalso. exact (transfer_events_no_compress evs P f o Hc).
    + reflexivity.
    + discriminate.
Qed.

(** The trace at which the phase after the check starts. *)
Lemma upload_after_check (s : AliyunOssSettings) (env : environment)
      (content : list byte) (name : string) (options : option UploadOptions) (tr : trace) :
  skipExistCheckOf options = true
  \/ fst (checkFileExists s env (ossPathOf s content name) tr) = Resolved false ->
  uploadWithCompression s env content name options tr
  = transformAndPut s env content name options (fileExtOf name) (ossPathOf s content name)
      (if skipExistCheckOf options then tr
       else (tr ++ [Request (probeRequest s (ossPathOf s content name)
                               (JsDate.toUTCString (clock env tr)))])%list).
Proof.
  intros H. rewrite uploadWithCompression_run. cbv zeta.
  destruct (skipExistCheckOf options); [reflexivity|].
  destruct H as [H|H]; [discriminate H|].
  rewrite checkFileExists_run in H.
  destruct (Js.truthy (accessKeySecret s)); [|discriminate H].
  cbn [fst] in H.
  destruct (remote env tr _) as [response|error].
  - destruct (status response =? 200); [discriminate H | reflexivity].
  - destruct (instanceofError error && Js.includes "404" (message_of error));
      [reflexivity | discriminate H].
Qed.

(** X7. With [skipExistCheck] set, the upload never probes: every
    request it sends is a PUT to the endpoint of the key. *)
Theorem skip_never_probes (s : AliyunOssSettings) (env : environment)
        (content : list byte) (name : string) (options : option UploadOptions) (tr : trace) :
  skipExistCheckOf options = true ->
  exists evs res,
    uploadWithCompression s env content name options tr = (res, (tr ++ evs)%list)
    /\ forall r, In (Request r) evs ->
                 method r = "PUT" /\ url r = endpointOf s (ossPathOf s content name).
Proof.
  intros Hskip. rewrite upload_after_check by (left; exact Hskip). rewrite Hskip.
  destruct (transformAndPut_requests s env content name options tr)
    as (evs & res & payload & tr_sign & E & R & _).
  exists evs, res. split; [exact E|].
  intros r Hr. destruct (R r Hr) as (date & ->). split; reflexivity.
Qed.

Lemma skip_never_probes_witness :
  exists evs res,
    uploadWithCompression Scenario.settings (Scenario.env_verifying 0)
      Scenario.payload "shot.png"
      (Some {| onProgress := None; skipExistCheck := Some true |}) []
    = (res, ([] ++ evs)%list)
    /\ forall r, In (Request r) evs ->
                 method r = "PUT"
                 /\ url r = endpointOf Scenario.settings
                              (ossPathOf Scenario.settings Scenario.payload "shot.png").
Proof.
  apply (skip_never_probes Scenario.settings (Scenario.env_verifying 0)
           Scenario.payload "shot.png"
           (Some {| onProgress := None; skipExistCheck := Some true |}) []).
  reflexivity.
Defined.

(** X8. When compression is switched off, or the extension is not one
    of png, jpg, jpeg, gif, webp, bmp in any letter case, the compressor
    is never called and every PUT carries the raw content as its body. *)
Theorem uncompressed_upload_sends_raw (s : AliyunOssSettings) (env : environment)
        (content : list byte) (name : string) (options : option UploadOptions) (tr : trace) :
  enableCompression s = false \/ imageExtTest (fileExtOf name) = false ->
  exists evs res,
    uploadWithCompression s env content name options tr = (res, (tr ++ evs)%list)
    /\ (forall f o, ~ In (Compress f o) evs)
    /\ (forall r, In (Request r) evs -> method r = "PUT" -> body r = Some content).
Proof.
  intros Hoff.
  assert (G : enableCompression s && imageExtTest (fileExtOf name) = false)
    by (destruct Hoff as [-> | ->]; [reflexivity | apply andb_false_r]).
  assert (Hgo : forall tr1, exists evs res,
             transformAndPut s env content name options (fileExtOf name)
               (ossPathOf s content name) tr1 = (res, (tr1 ++ evs)%list)
             /\ (forall f o, ~ In (Compress f o) evs)
             /\ (forall r, In (Request r) evs -> body r = Some content)).
  { intros tr1.
    destruct (transformAndPut_requests s env content name options tr1)
      as (evs & res & payload & tr_sign & E & R & C & Praw & _).
    exists evs, res. split; [exact E|]. split.
    - intros f o Hc. destruct (C f o Hc) as (Hg & _). rewrite G in Hg. discriminate Hg.
    - intros r Hr. destruct (R r Hr) as (date & ->). rewrite (Praw G). reflexivity. }
  rewrite uploadWithCompression_run. cbv zeta.
  destruct (skipExistCheckOf options).
  - destruct (Hgo tr) as (evs & res & E & C & B). exists evs, res. auto.
  - destruct (Js.truthy (accessKeySecret s)).
    2: { exists [], (Rejected zeroLengthKeyError).
         split; [now rewrite app_nil_r|]. split; [intros f o [] | intros r []]. }
    set (probe := probeRequest _ _ _).
    assert (Hstop : forall o : outcome string, exists evs res,
               (o, (tr ++ [Request probe])%list) = (res, (tr ++ evs)%list)
               /\ (forall f o, ~ In (Compress f o) evs)
               /\ (forall r, In (Request r) evs -> method r = "PUT" -> body r = Some content)).
    { intros o. exists [Request probe], o. split; [reflexivity|]. split.
      - intros f c [H|[]]. discriminate H.
      - intros r [H|[]] Hput. inversion H. subst r. discriminate Hput. }
    assert (Hfall : exists evs res,
               transformAndPut s env content name options (fileExtOf name)
                 (ossPathOf s content name) (tr ++ [Request probe])%list
               = (res, (tr ++ evs)%list)
               /\ (forall f o, ~ In (Compress f o) evs)
               /\ (forall r, In (Request r) evs -> method r = "PUT" -> body r = Some content)).
    { destruct (Hgo (tr ++ [Request probe])%list) as (evs & res & E & C & B).
      exists (Request probe :: evs), res. rewrite E, <- app_assoc.
      split; [reflexivity|]. split.
      - intros f c [H|H]; [discriminate H | exact (C f c H)].
      - intros r [H|H] Hput; [inversion H; subst r; discriminate Hput | exact (B r H)]. }
    destruct (remote env tr probe) as [response|error].
    + destruct (status response =? 200); [apply Hstop | exact Hfall].
    + destruct (instanceofError error && Js.includes "404" (message_of error));
        [exact Hfall | apply Hstop].
Qed.

Lemma uncompressed_upload_sends_raw_witness :
  exists evs res,
    uploadWithCompression Scenario.settings (Scenario.env_verifying 0)
      Scenario.payload "notes.svg" None [] = (res, ([] ++ evs)%list)
    /\ (forall f o, ~ In (Compress f o) evs)
    /\ (forall r, In (Request r) evs -> method r = "PUT" -> body r = Some Scenario.payload).
Proof.
  apply (uncompressed_upload_sends_raw Scenario.settings (Scenario.env_verifying 0)
           Scenario.payload "notes.svg" None []).
  right. reflexivity.
Defined.

Lemma blobTypeValid_lower (t : string) :
  blobTypeValid (Js.toLowerCaseASCII t) = blobTypeValid t.
Proof.
  induction t as [|c t IH]; [reflexivity|].
  cbn [Js.toLowerCaseASCII blobTypeValid]. rewrite IH. f_equal.
  destruct c as [[|] [|] [|] [|] [|] [|] [|] [|]]; reflexivity.
Qed.

(** For an extension the compression test accepts, the type of the file
    handed to the compressor is ["image/"] and the extension in lower
    case. *)
Lemma blobType_image (ext : string) :
  imageExtTest ext = true ->
  blobType ("image/" ++ ext) = "image/" ++ Js.toLowerCaseASCII ext.
Proof.
  intros H. unfold blobType.
  assert (V : blobTypeValid ext = true).
  { rewrite <- blobTypeValid_lower.
    unfold imageExtTest in H. cbn [existsb] in H. rewrite !orb_true_iff in H.
    destruct H as [H|[H|[H|[H|[H|[H|H]]]]]]; try discriminate H;
      apply String.eqb_eq in H; rewrite H; reflexivity. }
  cbn [append blobTypeValid]. rewrite V. reflexivity.
Qed.

(** X9. A compressor that fails ends the upload: the upload rejects
    with the compressor's error right after the compression call, made on
    the raw content under the original file name with the type ["image/"]
    and the extension in lower case, and no PUT is sent with the raw
    content in its place. *)
Theorem compression_failure_aborts (s : AliyunOssSettings) (env : environment)
        (content : list byte) (name : string) (options : option UploadOptions)
        (tr : trace) (error : thrown) :
  let key := ossPathOf s content name in
  let tr1 :=
    if skipExistCheckOf options then tr
    else (tr ++ [Request (probeRequest s key (JsDate.toUTCString (clock env tr)))])%list in
  let file :=
    {| file_bits := content;
       file_name := name;
       file_type := "image/" ++ Js.toLowerCaseASCII (fileExtOf name) |} in
  let opts := compressionOptionsOf s options in
  skipExistCheckOf options = true \/ fst (checkFileExists s env key tr) = Resolved false ->
  enableCompression s = true ->
  imageExtTest (fileExtOf name) = true ->
  compressor env tr1 file opts = Rejected error ->
  uploadWithCompression s env content name options tr
  = (Rejected error, (tr1 ++ [Compress file opts])%list).
Proof.
  intros key tr1 file opts Hcheck Hen Himg Hc.
  rewrite upload_after_check by exact Hcheck. fold key. fold tr1.
  unfold key. rewrite transformAndPut_run. cbv zeta.
  rewrite Hen, Himg. cbn [andb].
  assert (Hfile : compressionFile content name = file)
    by (unfold compressionFile, file; now rewrite (blobType_image _ Himg)).
  rewrite Hfile. fold opts. rewrite Hc. reflexivity.
Qed.

Lemma compression_failure_aborts_witness :
  uploadWithCompression Scenario.settings Cases.env_failing_compressor
    Scenario.payload "shot.PNG" None []
  = (Rejected Cases.compressor_error,
     [Request (probeRequest Scenario.settings
                 (ossPathOf Scenario.settings Scenario.payload "shot.PNG")
                 Scenario.date_0s);
      Compress {| file_bits := Scenario.payload;
                  file_name := "shot.PNG";
                  file_type := "image/png" |}
               (compressionOptionsOf Scenario.settings None)]).
Proof.
  apply (compression_failure_aborts Scenario.settings Cases.env_failing_compressor
           Scenario.payload "shot.PNG" None [] Cases.compressor_error).
  - right. vm_compute. reflexivity.
  - reflexivity.
  - reflexivity.
  - reflexivity.
Defined.

(** X10. When compression applies and the compressor succeeds, it is
    called once, on the raw content under the original file name, with the
    type ["image/"] and the extension in lower case and with the limits of
    the settings, and every PUT carries the compressor's output as its
    body. *)
Theorem compressed_payload_is_sent (s : AliyunOssSettings) (env : environment)
        (content : list byte) (name : string) (options : option UploadOptions)
        (tr : trace) (final : list byte) :
  let key := ossPathOf s content name in
  let tr1 :=
    if skipExistCheckOf options then tr
    else (tr ++ [Request (probeRequest s key (JsDate.toUTCString (clock env tr)))])%list in
  let file :=
    {| file_bits := content;
       file_name := name;
       file_type := "image/" ++ Js.toLowerCaseASCII (fileExtOf name) |} in
  let opts :=
    {| opt_maxSizeMB := maxSizeMB s;
       opt_maxWidthOrHeight := maxWidthOrHeight s;
       opt_useWebWorker := true;
       opt_onProgress := onProgressOf options |} in
  skipExistCheckOf options = true \/ fst (checkFileExists s env key tr) = Resolved false ->
  enableCompression s = true ->
  imageExtTest (fileExtOf name) = true ->
  compressor env tr1 file opts = Resolved final ->
  exists evs res,
    uploadWithCompression s env content name options tr
    = (res, (tr1 ++ Compress file opts :: evs)%list)
    /\ (forall f o, ~ In (Compress f o) evs)
    /\ (forall r, In (Request r) evs -> method r = "PUT" /\ body r = Some final).
Proof.
  intros key tr1 file opts Hcheck Hen Himg Hc.
  rewrite upload_after_check by exact Hcheck. fold key. fold tr1.
  unfold key. rewrite transformAndPut_run. cbv zeta.
  rewrite Hen, Himg. cbn [andb].
  assert (Hfile : compressionFile content name = file)
    by (unfold compressionFile, file; now rewrite (blobType_image _ Himg)).
  rewrite Hfile.
  change (compressionOptionsOf s options) with opts.
  rewrite Hc.
  destruct (transfer_phase s env (ossPathOf s content name) ("image/" ++ fileExtOf name)
              final (tr1 ++ [Compress file opts])%list) as (evs & res & E & P & R & _).
  exists evs, res. rewrite E, <- app_assoc. split; [reflexivity|]. split.
  - exact (transfer_events_no_compress evs P).
  - intros r Hr. destruct (R r Hr) as (date & ->). split; reflexivity.
Qed.

Lemma compressed_payload_is_sent_witness :
  exists evs res,
    uploadWithCompression Scenario.settings (Scenario.env_verifying 0)
      Scenario.payload "shot.PNG" None []
    = (res,
       ([Request (probeRequest Scenario.settings
                    (ossPathOf Scenario.settings Scenario.payload "shot.PNG")
                    Scenario.date_0s)]
        ++ Compress {| file_bits := Scenario.payload;
                       file_name := "shot.PNG";
                       file_type := "image/png" |}
                    (compressionOptionsOf Scenario.settings None) :: evs)%list)
    /\ (forall f o, ~ In (Compress f o) evs)
    /\ (forall r, In (Request r) evs ->
                  method r = "PUT" /\ body r = Some (firstn 4 Scenario.payload)).
Proof.
  apply (compressed_payload_is_sent Scenario.settings (Scenario.env_verifying 0)
           Scenario.payload "shot.PNG" None [] (firstn 4 Scenario.payload)).
  - right. vm_compute. reflexivity.
  - reflexivity.
  - reflexivity.
  - reflexivity.
Defined.

(** X11. The custom domain appears in the returned URL and nowhere
    else: with another custom domain the upload makes the same calls with
    the same requests, fails with the same error when it fails, and when
    it returns, returns the domain (the default host if the domain is
    empty), a slash and the key. *)
Theorem custom_domain_only_in_result (s : AliyunOssSettings) (env : environment)
        (content : list byte) (name : string) (options : option UploadOptions)
        (tr : trace) (domain : string) :
  let run := uploadWithCompression s env content name options tr in
  let run' := uploadWithCompression (withCustomDomain s domain) env content name options tr in
  snd run' = snd run
  /\ (forall error, fst run = Rejected error -> fst run' = Rejected error)
  /\ (forall u, fst run = Resolved u ->
        fst run'
        = Resolved ((if Js.truthy domain then domain
                     else "https://" ++ bucket s ++ "." ++ region s ++ ".aliyuncs.com")
                    ++ "/" ++ ossPathOf s content name)).
Proof.
  cbv zeta.
  assert (Hgo : forall tr1,
             let r := transformAndPut s env content name options (fileExtOf name)
                        (ossPathOf s content name) tr1 in
             let r' := transformAndPut (withCustomDomain s domain) env content name options
                         (fileExtOf name) (ossPathOf s content name) tr1 in
             snd r' = snd r
             /\ (forall error, fst r = Rejected error -> fst r' = Rejected error)
             /\ (forall u, fst r = Resolved u ->
                   fst r' = Resolved (publicUrl (withCustomDomain s domain)
                                        (ossPathOf s content name)))).
  { intros tr1. cbv zeta.
    unfold transformAndPut, bind, ret.
    change (generateSignature (withCustomDomain s domain)) with (generateSignature s).
    cbn [enableCompression maxSizeMB maxWidthOrHeight withCustomDomain].
    destruct (enableCompression s && imageExtTest (fileExtOf name)).
    - destruct (imageCompression env _ _ tr1) as [[final|error] tr2].
      + rewrite generateSignature_run.
        destruct (Js.truthy (accessKeySecret s)).
        * destruct (retryOperation _ _ _) as [[v|e] tr3]; cbn [fst snd];
            (split; [reflexivity|]; split; [intros ? H; inversion H; reflexivity|]);
            intros u H; inversion H; reflexivity.
        * cbn [fst snd]. split; [reflexivity|]. split; [auto | discriminate].
      + cbn [fst snd]. split; [reflexivity|]. split; [auto | discriminate].
    - rewrite generateSignature_run.
      destruct (Js.truthy (accessKeySecret s)).
      + destruct (retryOperation _ _ _) as [[v|e] tr3]; cbn [fst snd];
          (split; [reflexivity|]; split; [intros ? H; inversion H; reflexivity|]);
          intros u H; inversion H; reflexivity.
      + cbn [fst snd]. split; [reflexivity|]. split; [auto | discriminate]. }
  rewrite (uploadWithCompression_run s).
  rewrite (uploadWithCompression_run (withCustomDomain s domain)). cbv zeta.
  change (ossPathOf (withCustomDomain s domain) content name)
    with (ossPathOf s content name).
  change (probeRequest (withCustomDomain s domain)) with (probeRequest s).
  change (accessKeySecret (withCustomDomain s domain)) with (accessKeySecret s).
  change ((if Js.truthy domain then domain
           else "https://" ++ bucket s ++ "." ++ region s ++ ".aliyuncs.com")
          ++ "/" ++ ossPathOf s content name)
    with (publicUrl (withCustomDomain s domain) (ossPathOf s content name)).
  destruct (skipExistCheckOf options); [apply Hgo|].
  destruct (Js.truthy (accessKeySecret s)).
  2: { cbn [fst snd]. split; [reflexivity|]. split; [auto | discriminate]. }
  destruct (remote env tr _) as [response|error].
  - destruct (status response =? 200); [|apply Hgo].
    cbn [fst snd]. split; [reflexivity|]. split; [discriminate | reflexivity].
  - destruct (instanceofError error && Js.includes "404" (message_of error)); [apply Hgo|].
    cbn [fst snd]. split; [reflexivity|]. split; [auto | discriminate].
Qed.

Lemma custom_domain_only_in_result_witness :
  fst (uploadWithCompression Cases.settings_with_cdn (Scenario.env_verifying 0)
         Scenario.payload "shot.png" None [])
  = Resolved ("https://cdn.example.com" ++ "/"
              ++ ossPathOf Scenario.settings Scenario.payload "shot.png").
Proof.
  apply (proj2 (proj2 (custom_domain_only_in_result Scenario.settings
                         (Scenario.env_verifying 0) Scenario.payload "shot.png" None []
                         "https://cdn.example.com"))
           (publicUrl Scenario.settings
              (ossPathOf Scenario.settings Scenario.payload "shot.png"))).
  vm_compute. reflexivity.
Defined.

(** ** [uploadFile] and the extension *)

(** X12. [uploadFile] validates before anything else.  It rejects with
    the message of the first setting that is empty, in the order access
    key id, access key secret, bucket, region, and leaves the trace as it
    was; with the four settings present it is the upload with the
    existence check on. *)
Theorem uploadFile_reports_first_missing (s : AliyunOssSettings) (env : environment)
        (content : list byte) (name : string) (cb : option progress_sink) (tr : trace) :
  let run := uploadFile s env content name cb tr in
  (accessKeyId s = "" -> run = (Rejected (newError "缺少 Access Key ID"), tr))
  /\ (accessKeyId s <> "" -> accessKeySecret s = "" ->
      run = (Rejected (newError "缺少 Access Key Secret"), tr))
  /\ (accessKeyId s <> "" -> accessKeySecret s <> "" -> bucket s = "" ->
      run = (Rejected (newError "缺少 Bucket"), tr))
  /\ (accessKeyId s <> "" -> accessKeySecret s <> "" -> bucket s <> "" -> region s = "" ->
      run = (Rejected (newError "缺少 Region"), tr))
  /\ (accessKeyId s <> "" -> accessKeySecret s <> "" -> bucket s <> "" -> region s <> "" ->
      run = uploadWithCompression s env content name
              (Some {| onProgress := cb; skipExistCheck := Some false |}) tr).
Proof.
  cbv zeta. unfold uploadFile, validateSettings, bind.
  destruct (accessKeyId s) as [|a0 a]; cbn [Js.truthy negb].
  { repeat split; intros; try reflexivity; congruence. }
  destruct (accessKeySecret s) as [|b0 b]; cbn [Js.truthy negb].
  { repeat split; intros; try reflexivity; try congruence; discriminate. }
  destruct (bucket s) as [|c0 c]; cbn [Js.truthy negb].
  { repeat split; intros; try reflexivity; try congruence; discriminate. }
  destruct (region s) as [|d0 d]; cbn [Js.truthy negb].
  { repeat split; intros; try reflexivity; try congruence; discriminate. }
  repeat split; intros; try reflexivity; discriminate.
Qed.

Lemma uploadFile_reports_first_missing_witness :
  uploadFile DEFAULT_SETTINGS (Scenario.env_verifying 0) Scenario.payload "shot.png" None []
  = (Rejected (newError "缺少 Access Key ID"), [])
  /\ uploadFile Scenario.settings (Scenario.env_verifying 0) Scenario.payload "shot.png" None []
     = uploadWithCompression Scenario.settings (Scenario.env_verifying 0)
         Scenario.payload "shot.png"
         (Some {| onProgress := None; skipExistCheck := Some false |}) [].
Proof.
  split.
  - apply (proj1 (uploadFile_reports_first_missing DEFAULT_SETTINGS
                    (Scenario.env_verifying 0) Scenario.payload "shot.png" None [])).
    reflexivity.
  - apply (proj2 (proj2 (proj2 (proj2
             (uploadFile_reports_first_missing Scenario.settings
                (Scenario.env_verifying 0) Scenario.payload "shot.png" None [])))));
      discriminate.
Defined.

Lemma split_no_sep (sep : ascii) (s : string) :
  has_char sep s = false -> Js.split sep s = [s].
Proof.
  induction s as [|c rest IH]; [reflexivity|].
  rewrite has_char_cons. intros H. apply orb_false_iff in H. destruct H as [Hc Hr].
  simpl. rewrite Hc, (IH Hr). reflexivity.
Qed.

Lemma split_dotted (sep : ascii) (stem ext : string) :
  has_char sep ext = false ->
  exists segs, Js.split sep (stem ++ String sep ext) = (segs ++ [ext])%list /\ segs <> [].
Proof.
  intros H. induction stem as [|c stem (segs & E & NE)].
  - exists [""]. simpl. rewrite Ascii.eqb_refl, (split_no_sep sep ext H).
    split; [reflexivity | discriminate].
  - simpl. rewrite E. destruct (Ascii.eqb c sep).
    + exists ("" :: segs). split; [reflexivity | discriminate].
    + destruct segs as [|seg segs]; [now elim NE|].
      exists (String c seg :: segs). split; [reflexivity | discriminate].
Qed.

(** X13. The extension of [stem.ext] is [ext] for any stem, dots in the
    stem included, as long as [ext] has no dot; hence the storage key does
    not depend on the stem of the file name: equal content under equal
    extensions gets the same key. *)
Theorem extension_of_dotted_name (stem ext : string) :
  has_char "." ext = false ->
  fileExtOf (stem ++ "." ++ ext) = ext
  /\ forall (s : AliyunOssSettings) (content : list byte) (stem' : string),
       ossPathOf s content (stem' ++ "." ++ ext) = ossPathOf s content (stem ++ "." ++ ext).
Proof.
  intros H.
  assert (E : forall st, fileExtOf (st ++ "." ++ ext) = ext).
  { intros st. unfold fileExtOf.
    destruct (split_dotted "." st ext H) as (segs & E & _).
    change (st ++ "." ++ ext) with (st ++ String "." ext).
    rewrite E, pop_snoc. simpl. unfold Js.or. now destruct ext. }
  split; [apply E|].
  intros s content stem'. unfold ossPathOf. now rewrite !E.
Qed.

Lemma extension_of_dotted_name_witness :
  fileExtOf ("holiday.2019.final" ++ "." ++ "JPG") = "JPG"
  /\ forall (s : AliyunOssSettings) (content : list byte) (stem' : string),
       ossPathOf s content (stem' ++ "." ++ "JPG")
       = ossPathOf s content ("holiday.2019.final" ++ "." ++ "JPG").
Proof.
  apply (extension_of_dotted_name "holiday.2019.final" "JPG"). reflexivity.
Defined.

(** * The plugin's handlers *)

(** ** Extensions and base names *)

Lemma includes_self (s : string) : Js.includes s s = true.
Proof.
  assert (P : String.prefix s s = true).
  { induction s as [|c s IH]; [reflexivity|]. simpl.
    destruct (ascii_dec c c) as [_|ne]; [exact IH | now elim ne]. }
  destruct s; simpl in *; now rewrite ?P.
Qed.

(** X14. Every extension the compression test accepts is also offered
    the upload entry of the file menu. *)
Theorem compressible_extension_is_in_menu (extension : string) :
  imageExtTest extension = true -> Plugin.fileMenuMatch extension = true.
Proof.
  unfold imageExtTest, Plugin.fileMenuMatch. cbn [existsb]. intros H.
  rewrite !orb_true_iff in H.
  destruct H as [H|[H|[H|[H|[H|[H|H]]]]]]; try discriminate H;
    apply String.eqb_eq in H; rewrite H; reflexivity.
Qed.

Lemma compressible_extension_is_in_menu_witness : Plugin.fileMenuMatch "JpEg" = true.
Proof. apply (compressible_extension_is_in_menu "JpEg"). reflexivity. Defined.

Lemma extensionTail_spec (s : string) :
  Plugin.extensionTail s = true
  <-> s <> "" /\ has_char "/" s = false /\ has_char "." s = false.
Proof.
  induction s as [|c rest IH].
  - split; [discriminate | intros [H _]; now elim H].
  - cbn [Plugin.extensionTail]. rewrite !has_char_cons.
    destruct rest as [|d rest'].
    + rewrite andb_true_r, !has_char_empty, !orb_false_r.
      destruct (Ascii.eqb c "/"), (Ascii.eqb c "."); cbn; split;
        try discriminate; try (intros (_ & A & B); discriminate);
        intros _; repeat split; discriminate.
    + rewrite andb_true_iff, IH.
      destruct (Ascii.eqb c "/"), (Ascii.eqb c "."); cbn; split;
        try (intros [A _]; discriminate A); try (intros (_ & A & B); discriminate).
      * intros [_ (_ & A & B)]. repeat split; [discriminate | exact A | exact B].
      * intros (_ & A & B). split; [reflexivity|]. repeat split; [discriminate | exact A | exact B].
Qed.

Lemma has_char_append (c : ascii) (a b : string) :
  has_char c (a ++ b) = has_char c a || has_char c b.
Proof.
  induction a as [|x a IH]; [reflexivity|].
  simpl append. rewrite !has_char_cons, IH. apply orb_assoc.
Qed.

Lemma baseFileNameOf_no_dot (s : string) :
  has_char "." s = false -> Plugin.baseFileNameOf s = s.
Proof.
  induction s as [|c rest IH]; [reflexivity|].
  rewrite has_char_cons. intros H. apply orb_false_iff in H. destruct H as [Hc Hr].
  cbn [Plugin.baseFileNameOf]. rewrite Hc, (IH Hr). reflexivity.
Qed.

Lemma baseFileNameOf_dotted (stem ext : string) :
  has_char "." ext = false ->
  Plugin.baseFileNameOf (stem ++ String "." ext)
  = if Plugin.extensionTail ext then stem else stem ++ String "." ext.
Proof.
  intros H. induction stem as [|c stem IH].
  - cbn [append Plugin.baseFileNameOf]. rewrite Ascii.eqb_refl. cbn [andb].
    destruct (Plugin.extensionTail ext); [reflexivity|].
    now rewrite (baseFileNameOf_no_dot ext H).
  - cbn [append Plugin.baseFileNameOf].
    assert (T : Plugin.extensionTail (stem ++ String "." ext) = false).
    { destruct (Plugin.extensionTail (stem ++ String "." ext)) eqn:E; [|reflexivity].
      apply extensionTail_spec in E. destruct E as (_ & _ & E).
      rewrite has_char_append, has_char_cons, Ascii.eqb_refl, orb_true_r in E.
      discriminate E. }
    rewrite T, andb_false_r, IH.
    now destruct (Plugin.extensionTail ext).
Qed.

(** X15. The base name used in the link and the extension used in the
    key are the two halves of the file name: when the name has a dot and
    the part after its last dot is not empty and has no ['/'], the name is
    the base name, a dot and the extension; in every other case the base
    name is the whole file name. *)
Theorem base_name_and_extension (name : string) :
  (has_char "." name = true -> fileExtOf name <> "" ->
   has_char "/" (fileExtOf name) = false ->
   name = Plugin.baseFileNameOf name ++ "." ++ fileExtOf name)
  /\ (has_char "." name = false \/ fileExtOf name = ""
      \/ has_char "/" (fileExtOf name) = true ->
      Plugin.baseFileNameOf name = name).
Proof.
  destruct (fileExtOf_spec name) as [Hno [[Hd He]|(stem & Hs)]].
  - split.
    + intros H. rewrite Hd in H. discriminate H.
    + intros _. now apply baseFileNameOf_no_dot.
  - assert (B : Plugin.baseFileNameOf name
                = if Plugin.extensionTail (fileExtOf name) then stem else name).
    { rewrite Hs at 1 3. apply (baseFileNameOf_dotted stem (fileExtOf name) Hno). }
    split.
    + intros _ Hne Hsl.
      assert (T : Plugin.extensionTail (fileExtOf name) = true)
        by (apply extensionTail_spec; auto).
      rewrite B, T. exact Hs.
    + intros [H|[H|H]].
      * rewrite Hs, has_char_append in H. cbn [append] in H.
        rewrite has_char_cons, Ascii.eqb_refl, orb_true_r in H. discriminate H.
      * rewrite B. destruct (Plugin.extensionTail (fileExtOf name)) eqn:T; [|reflexivity].
        apply extensionTail_spec in T. now destruct T as (T & _).
      * rewrite B. destruct (Plugin.extensionTail (fileExtOf name)) eqn:T; [|reflexivity].
        apply extensionTail_spec in T. destruct T as (_ & T & _). congruence.
Qed.

Lemma base_name_and_extension_witness :
  "Pasted image 2024.05.01.png"
  = Plugin.baseFileNameOf "Pasted image 2024.05.01.png" ++ "."
      ++ fileExtOf "Pasted image 2024.05.01.png"
  /\ Plugin.baseFileNameOf "archive." = "archive.".
Proof.
  split.
  - apply (proj1 (base_name_and_extension "Pasted image 2024.05.01.png"));
      [reflexivity | discriminate | reflexivity].
  - apply (proj2 (base_name_and_extension "archive.")). right. left. reflexivity.
Defined.

(** ** Rewriting the note *)

Lemma firstn_split {A} (a b : nat) (l : list A) :
  (a <= b)%nat -> firstn b l = (firstn a l ++ firstn (b - a) (skipn a l))%list.
Proof.
  revert b l. induction a as [|a IH]; intros b l H.
  - now rewrite Nat.sub_0_r.
  - destruct b as [|b]; [lia|].
    destruct l as [|x l]; [cbn [firstn skipn app]; now rewrite firstn_nil|].
    cbn [firstn skipn app Nat.sub]. rewrite (IH b l) by lia. reflexivity.
Qed.

Lemma embedsOrdered_bound (embeds : list Plugin.EmbedCache) :
  forall pos len, Plugin.embedsOrdered pos embeds len -> (pos <= len)%nat.
Proof.
  induction embeds as [|e rest IH]; intros pos len H; cbn in H; [exact H|].
  destruct H as (H1 & H2 & H3). specialize (IH _ _ H3). lia.
Qed.

Lemma replaceEmbeds_cons (fileName replacement : string) (e : Plugin.EmbedCache)
      (rest : list Plugin.EmbedCache) (doc : list ascii) :
  Plugin.replaceEmbeds fileName replacement (e :: rest) doc
  = if String.eqb (Plugin.link e) fileName
    then (Plugin.replaceRange replacement (Plugin.startOffset e) (Plugin.endOffset e)
            (fst (Plugin.replaceEmbeds fileName replacement rest doc)), true)
    else Plugin.replaceEmbeds fileName replacement rest doc.
Proof.
  unfold Plugin.replaceEmbeds. cbn [rev]. rewrite fold_left_app. reflexivity.
Qed.

(** The loop from the last embed to the first yields the left-to-right
    replacement when the embeds are ordered. *)
Lemma replaceEmbeds_ordered (fileName replacement : string)
      (embeds : list Plugin.EmbedCache) (doc : list ascii) :
  forall pos,
    Plugin.embedsOrdered pos embeds (List.length doc) ->
    Plugin.replaceEmbeds fileName replacement embeds doc
    = ((firstn pos doc ++ Plugin.replacedFrom pos fileName replacement embeds doc)%list,
       existsb (fun e => String.eqb (Plugin.link e) fileName) embeds).
Proof.
  induction embeds as [|e rest IH]; intros pos H.
  - cbn. now rewrite firstn_skipn.
  - cbn in H. destruct H as (H1 & H2 & H3).
    pose proof (embedsOrdered_bound rest _ _ H3) as Hlen.
    rewrite replaceEmbeds_cons, (IH _ H3).
    cbn [Plugin.replacedFrom existsb fst].
    destruct (String.eqb (Plugin.link e) fileName); cbn [orb].
    + f_equal. unfold Plugin.replaceRange.
      rewrite firstn_app, firstn_firstn, length_firstn.
      replace (Nat.min (Plugin.startOffset e) (Plugin.endOffset e))
        with (Plugin.startOffset e) by lia.
      replace (Plugin.startOffset e - Nat.min (Plugin.endOffset e) (List.length doc))%nat
        with 0%nat by lia.
      cbn [firstn]. rewrite app_nil_r.
      rewrite skipn_app, length_firstn.
      replace (Plugin.endOffset e - Nat.min (Plugin.endOffset e) (List.length doc))%nat
        with 0%nat by lia.
      rewrite (skipn_all2 (firstn (Plugin.endOffset e) doc))
        by (rewrite length_firstn; lia).
      cbn [skipn app].
      rewrite (firstn_split pos (Plugin.startOffset e) doc H1), <- !app_assoc.
      reflexivity.
    + f_equal.
      rewrite (firstn_split pos (Plugin.endOffset e) doc) by lia.
      rewrite (firstn_split (Plugin.startOffset e - pos) (Plugin.endOffset e - pos)
                 (skipn pos doc)) by lia.
      rewrite skipn_skipn.
      replace (Plugin.startOffset e - pos + pos)%nat with (Plugin.startOffset e) by lia.
      replace (Plugin.endOffset e - pos - (Plugin.startOffset e - pos))%nat
        with (Plugin.endOffset e - Plugin.startOffset e)%nat by lia.
      rewrite <- !app_assoc. reflexivity.
Qed.

Lemma replaceEmbeds_no_match (fileName replacement : string)
      (embeds : list Plugin.EmbedCache) (doc : list ascii) :
  existsb (fun e => String.eqb (Plugin.link e) fileName) embeds = false ->
  Plugin.replaceEmbeds fileName replacement embeds doc = (doc, false).
Proof.
  induction embeds as [|e rest IH]; intros H; [reflexivity|].
  cbn [existsb] in H. apply orb_false_iff in H. destruct H as [He Hr].
  rewrite replaceEmbeds_cons, He. exact (IH Hr).
Qed.

Lemma updateMarkdown_ordered (fileName imageUrl : string)
      (ws : Plugin.Workspace) (view : Plugin.MarkdownView)
      (embeds : list Plugin.EmbedCache) :
  Plugin.activeView ws = Some view ->
  Plugin.viewFile view = Some (Some embeds) ->
  Plugin.embedsOrdered 0 embeds (List.length (Plugin.value view)) ->
  existsb (fun e => String.eqb (Plugin.link e) fileName) embeds = true ->
  Plugin.updateMarkdown fileName imageUrl ws
  = (Resolved tt,
     Plugin.setView ws
       (Plugin.setValue view
          (Plugin.replacedFrom 0 fileName
             (Plugin.markdownLink (Plugin.baseFileNameOf fileName) imageUrl)
             embeds (Plugin.value view)))).
Proof.
  intros Hv Hf Hord Hm. unfold Plugin.updateMarkdown. rewrite Hv, Hf.
  rewrite (replaceEmbeds_ordered _ _ _ _ 0%nat Hord), Hm. reflexivity.
Qed.

(** X16. Replacing from the last embed to the first does what the
    comment in the source promises.  When the embeds listed for the note
    are in order, do not overlap and lie within the text, and at least one
    of them links the file, the text after [updateMarkdown] is the old
    text read from left to right with every embed of the file replaced by
    the Markdown link; the text between the embeds and the embeds of other
    files are as before, and nothing is inserted at the cursor. *)
Theorem updateMarkdown_replaces_embeds (fileName imageUrl : string)
        (ws : Plugin.Workspace) (view : Plugin.MarkdownView)
        (embeds : list Plugin.EmbedCache) :
  Plugin.activeView ws = Some view ->
  Plugin.viewFile view = Some (Some embeds) ->
  Plugin.embedsOrdered 0 embeds (List.length (Plugin.value view)) ->
  existsb (fun e => String.eqb (Plugin.link e) fileName) embeds = true ->
  Plugin.updateMarkdown fileName imageUrl ws
  = (Resolved tt,
     Plugin.setView ws
       (Plugin.setValue view
          (Plugin.replacedFrom 0 fileName
             (Plugin.markdownLink (Plugin.baseFileNameOf fileName) imageUrl)
             embeds (Plugin.value view)))).
Proof.
  intros Hv Hf Hord Hm. unfold Plugin.updateMarkdown. rewrite Hv, Hf.
  rewrite (replaceEmbeds_ordered _ _ _ _ 0%nat Hord), Hm. reflexivity.
Qed.

Lemma updateMarkdown_replaces_embeds_witness :
  Plugin.updateMarkdown "a.png" "https://cdn.example.com/k.png" Notes.workspace
  = (Resolved tt,
     Plugin.setView Notes.workspace
       (Plugin.setValue Notes.view
          (list_ascii_of_string
             "See ![a](https://cdn.example.com/k.png) and ![[b.png]] and ![a](https://cdn.example.com/k.png)."))).
Proof.
  rewrite (updateMarkdown_replaces_embeds "a.png" "https://cdn.example.com/k.png"
             Notes.workspace Notes.view Notes.embeds).
  - reflexivity.
  - reflexivity.
  - reflexivity.
  - cbn. lia.
  - reflexivity.
Defined.

(** X17. What [updateMarkdown] does when no embed of the note links the
    file.  Without an active Markdown view the URL is written to the
    clipboard and nothing else happens (and a refused clipboard makes the
    call fail); with a view that has no file nothing at all happens and
    the URL is dropped; otherwise the link followed by a line break is
    inserted at the cursor and the rest of the text is kept. *)
Theorem updateMarkdown_fallbacks (fileName imageUrl : string) (ws : Plugin.Workspace) :
  (Plugin.activeView ws = None ->
   Plugin.updateMarkdown fileName imageUrl ws
   = match Plugin.clipboardDenied ws with
     | Some error => (Rejected error, ws)
     | None => (Resolved tt, Plugin.log ws (Plugin.ClipboardWrite imageUrl))
     end)
  /\ (forall view,
        Plugin.activeView ws = Some view -> Plugin.viewFile view = None ->
        Plugin.updateMarkdown fileName imageUrl ws = (Resolved tt, ws))
  /\ (forall view cache,
        Plugin.activeView ws = Some view -> Plugin.viewFile view = Some cache ->
        match cache with
        | Some embeds =>
            existsb (fun e => String.eqb (Plugin.link e) fileName) embeds = false
        | None => True
        end ->
        Plugin.updateMarkdown fileName imageUrl ws
        = (Resolved tt,
           Plugin.setView ws
             (Plugin.setValue view
                (firstn (Plugin.cursor view) (Plugin.value view)
                 ++ list_ascii_of_string
                      ("![" ++ Plugin.baseFileNameOf fileName ++ "](" ++ imageUrl ++ ")" ++ LF)
                 ++ skipn (Plugin.cursor view) (Plugin.value view))%list))).
Proof.
  split; [|split].
  - intros Hv. unfold Plugin.updateMarkdown. now rewrite Hv.
  - intros view Hv Hf. unfold Plugin.updateMarkdown. now rewrite Hv, Hf.
  - intros view cache Hv Hf Hm. unfold Plugin.updateMarkdown. rewrite Hv, Hf.
    assert (L : Plugin.markdownLink (Plugin.baseFileNameOf fileName) imageUrl ++ LF
                = "![" ++ Plugin.baseFileNameOf fileName ++ "](" ++ imageUrl ++ ")" ++ LF).
    { unfold Plugin.markdownLink. now rewrite !append_assoc. }
    destruct cache as [embeds|].
    + rewrite (replaceEmbeds_no_match _ _ _ _ Hm), L. reflexivity.
    + rewrite L. reflexivity.
Qed.

Lemma updateMarkdown_fallbacks_witness :
  Plugin.updateMarkdown "shot.png" "https://cdn.example.com/k.png" Notes.no_view
  = (Resolved tt,
     Plugin.log Notes.no_view (Plugin.ClipboardWrite "https://cdn.example.com/k.png"))
  /\ Plugin.updateMarkdown "c.png" "https://cdn.example.com/k.png" Notes.workspace
     = (Resolved tt,
        Plugin.setView Notes.workspace
          (Plugin.setValue Notes.view
             (list_ascii_of_string
                ("See![c](https://cdn.example.com/k.png)" ++ LF
                 ++ " ![[a.png]] and ![[b.png]] and ![[a.png]].")))).
Proof.
  split.
  - apply (proj1 (updateMarkdown_fallbacks "shot.png" "https://cdn.example.com/k.png"
                    Notes.no_view)).
    reflexivity.
  - rewrite (proj2 (proj2 (updateMarkdown_fallbacks "c.png" "https://cdn.example.com/k.png"
                             Notes.workspace))
               Notes.view (Some Notes.embeds));
      reflexivity.
Defined.

(** ** Paste, drop and the menu entry *)

Lemma interceptItems_skip (settings : AliyunOssSettings) (env : environment)
      (pre rest : list Plugin.DataTransferItem) (ws : Plugin.Workspace) (tr : trace) :
  forallb (fun it => negb (String.prefix "image/" (Plugin.item_type it))) pre = true ->
  Plugin.interceptItems settings env (pre ++ rest) ws tr
  = Plugin.interceptItems settings env rest ws tr.
Proof.
  induction pre as [|it pre IH]; intros H; [reflexivity|].
  cbn [forallb] in H. apply andb_true_iff in H. destruct H as [Hit Hpre].
  cbn [app Plugin.interceptItems].
  destruct (String.prefix "image/" (Plugin.item_type it)); [discriminate Hit|].
  exact (IH Hpre).
Qed.

(** X18. The paste and drop handlers act on the first item whose type
    starts with ["image/"] and on nothing else.  Switched off, or without
    such an item, they leave the event and the state alone.  Otherwise
    they prevent the default and upload the file of that first item once;
    the items after it are not looked at, and when that first item has no
    file nothing is uploaded at all. *)
Theorem paste_uploads_first_image_only (settings : AliyunOssSettings) (env : environment)
        (ws : Plugin.Workspace) (tr : trace) :
  (forall items,
      interceptPasteAndDrop settings = false ->
      Plugin.onEditorPasteOrDrop settings env items ws tr = (false, ws, tr))
  /\ (forall items,
        forallb (fun it => negb (String.prefix "image/" (Plugin.item_type it))) items = true ->
        Plugin.onEditorPasteOrDrop settings env (Some items) ws tr = (false, ws, tr))
  /\ (forall pre item post,
        interceptPasteAndDrop settings = true ->
        forallb (fun it => negb (String.prefix "image/" (Plugin.item_type it))) pre = true ->
        String.prefix "image/" (Plugin.item_type item) = true ->
        Plugin.onEditorPasteOrDrop settings env (Some (pre ++ item :: post)%list) ws tr
        = match Plugin.item_file item with
          | Some blob =>
              (true,
               snd (fst (Plugin.handleImageUpload settings env blob ws tr)),
               snd (Plugin.handleImageUpload settings env blob ws tr))
          | None => (true, ws, tr)
          end).
Proof.
  split; [|split].
  - intros items H. unfold Plugin.onEditorPasteOrDrop. now rewrite H.
  - intros items H. unfold Plugin.onEditorPasteOrDrop.
    destruct (negb (interceptPasteAndDrop settings)); [reflexivity|].
    rewrite <- (app_nil_r items), (interceptItems_skip settings env items [] ws tr H).
    reflexivity.
  - intros pre item post Hon Hpre Himg. unfold Plugin.onEditorPasteOrDrop.
    rewrite Hon. cbn [negb].
    rewrite (interceptItems_skip settings env pre (item :: post) ws tr Hpre).
    cbn [Plugin.interceptItems]. rewrite Himg.
    destruct (Plugin.item_file item) as [blob|]; [|reflexivity].
    now destruct (Plugin.handleImageUpload settings env blob ws tr) as [[r ws'] tr'].
Qed.

Lemma paste_uploads_first_image_only_witness :
  Plugin.onEditorPasteOrDrop Scenario.settings (Scenario.env_verifying 0)
    (Some ([Notes.text_item] ++ Notes.image_item :: [Notes.image_item; Notes.text_item])%list)
    Notes.workspace []
  = (true,
     snd (fst (Plugin.handleImageUpload Scenario.settings (Scenario.env_verifying 0)
                 Notes.shot Notes.workspace [])),
     snd (Plugin.handleImageUpload Scenario.settings (Scenario.env_verifying 0)
            Notes.shot Notes.workspace [])).
Proof.
  apply (proj2 (proj2 (paste_uploads_first_image_only Scenario.settings
                         (Scenario.env_verifying 0) Notes.workspace []))
           [Notes.text_item] Notes.image_item [Notes.image_item; Notes.text_item]);
    reflexivity.
Defined.

(** X19. A pasted or dropped image.  The handler never skips the
    existence check: with an access key secret to sign with, the probe is
    the first call; with an empty one nothing is sent and the upload is
    rejected by the key import.  When the upload fails, the text
    of the note is untouched and the log gains the progress notice, the
    console entry and the notice of the failure with the message of the
    error; the progress notice is not hidden.  When the upload returns,
    the Markdown link to the public URL of the key of the bytes, followed
    by a line break, is inserted at the cursor of the active view, if
    there is one, and the progress notice is hidden before the notice of
    success. *)
Theorem pasted_image_is_linked (settings : AliyunOssSettings) (env : environment)
        (blob : Plugin.File) (ws : Plugin.Workspace) (tr : trace) :
  let key := ossPathOf settings (Plugin.blob_bits blob) (Plugin.blob_name blob) in
  let inserted :=
    list_ascii_of_string
      ("![" ++ Plugin.baseFileNameOf (Plugin.blob_name blob) ++ "]("
        ++ publicUrl settings key ++ ")" ++ LF) in
  let progress := Plugin.NoticeShown "准备上传..." (Some 0) in
  let upload :=
    uploadWithCompression settings env (Plugin.blob_bits blob) (Plugin.blob_name blob)
      (Plugin.handlerOptions ws) tr in
  let ws' := snd (fst (Plugin.handleImageUpload settings env blob ws tr)) in
  snd (Plugin.handleImageUpload settings env blob ws tr) = snd upload
  /\ (accessKeySecret settings <> "" ->
      exists evs rest,
        snd upload = (tr ++ evs)%list /\ map call_of evs = CallProbe :: rest)
  /\ (accessKeySecret settings = "" -> upload = (Rejected zeroLengthKeyError, tr))
  /\ match fst upload with
     | Rejected error =>
         Plugin.activeView ws' = Plugin.activeView ws
         /\ Plugin.ui ws'
            = (Plugin.ui ws
               ++ [progress;
                   Plugin.ConsoleError "上传失败:" error;
                   Plugin.NoticeShown (Plugin.failureNotice error) None])%list
     | Resolved _ =>
         Plugin.activeView ws'
         = option_map
             (fun view =>
                Plugin.setValue view
                  (firstn (Plugin.cursor view) (Plugin.value view)
                   ++ inserted ++ skipn (Plugin.cursor view) (Plugin.value view))%list)
             (Plugin.activeView ws)
         /\ Plugin.ui ws'
            = (Plugin.ui ws
               ++ [progress;
                   Plugin.NoticeHidden "准备上传...";
                   Plugin.NoticeShown "上传成功！" None])%list
     end.
Proof.
  cbv zeta. unfold Plugin.handleImageUpload.
  destruct (uploadWithCompression_calls settings env (Plugin.blob_bits blob)
              (Plugin.blob_name blob) (Plugin.handlerOptions ws) tr)
    as (evs & res & h & c & t & E & K & Hh & _).
  cbn [Plugin.handlerOptions skipExistCheckOf skipExistCheck] in Hh. subst h.
  assert (Hprobe : accessKeySecret settings <> "" ->
                   exists evs0 rest,
                     (tr ++ evs)%list = (tr ++ evs0)%list
                     /\ map call_of evs0 = CallProbe :: rest).
  { intros Hne. apply truthy_iff in Hne. rewrite Hne in K.
    exists evs, (c ++ t)%list. split; [reflexivity | exact K]. }
  assert (Hkey : accessKeySecret settings = "" ->
                 (res, (tr ++ evs)%list) = (Rejected zeroLengthKeyError, tr)).
  { intros He. rewrite <- E, uploadWithCompression_run. cbv zeta.
    cbn [Plugin.handlerOptions skipExistCheckOf skipExistCheck].
    apply truthy_false_iff in He. now rewrite He. }
  destruct (uploadWithCompression_shape settings env (Plugin.blob_bits blob)
              (Plugin.blob_name blob) (Plugin.handlerOptions ws) tr)
    as (_ & _ & evs' & res' & E' & _ & _ & U).
  rewrite E in E'. inversion E' as [[Hres Hevs]]. subst res'. clear E' Hevs.
  rewrite E.
  destruct res as [imageUrl|error]; cbn [fst snd].
  - split; [reflexivity|]. split; [exact Hprobe|]. split; [exact Hkey|].
    rewrite (U imageUrl eq_refl).
    assert (L : Plugin.markdownLink (Plugin.baseFileNameOf (Plugin.blob_name blob))
                  (publicUrl settings
                     (ossPathOf settings (Plugin.blob_bits blob) (Plugin.blob_name blob)))
                ++ LF
                = "![" ++ Plugin.baseFileNameOf (Plugin.blob_name blob) ++ "]("
                    ++ publicUrl settings
                         (ossPathOf settings (Plugin.blob_bits blob) (Plugin.blob_name blob))
                    ++ ")" ++ LF)
      by (unfold Plugin.markdownLink; now rewrite !append_assoc).
    unfold Plugin.log. cbn [Plugin.activeView Plugin.ui Plugin.clipboardDenied].
    rewrite L.
    destruct (Plugin.activeView ws) as [view|];
      cbn [Plugin.setView Plugin.activeView Plugin.ui option_map];
      unfold Plugin.replaceRange; rewrite <- !app_assoc; split; reflexivity.
  - split; [reflexivity|]. split; [exact Hprobe|]. split; [exact Hkey|].
    unfold Plugin.reportFailure, Plugin.log.
    cbn [Plugin.activeView Plugin.ui Plugin.clipboardDenied].
    rewrite <- !app_assoc. split; reflexivity.
Qed.

Lemma pasted_image_is_linked_witness :
  uploadWithCompression DEFAULT_SETTINGS (Scenario.env_verifying 0)
    (Plugin.blob_bits Notes.shot) (Plugin.blob_name Notes.shot)
    (Plugin.handlerOptions Notes.workspace) []
  = (Rejected zeroLengthKeyError, []).
Proof.
  apply (proj1 (proj2 (proj2 (pasted_image_is_linked DEFAULT_SETTINGS
                                (Scenario.env_verifying 0) Notes.shot Notes.workspace [])))).
  reflexivity.
Defined.

(** X20. The menu entry, end to end.  When the file can be read, the
    upload returns, and the embeds listed for the active note are in
    order, within the text and include the file, [uploadImage] leaves the
    note with every embed of the file replaced by the Markdown link to the
    public URL of the key of the file's bytes, hides the progress notice
    and announces success; the network trace is that of the upload. *)
Theorem uploadImage_links_embeds (settings : AliyunOssSettings) (env : environment)
        (file : Plugin.TFile) (content : list byte) (ws : Plugin.Workspace)
        (view : Plugin.MarkdownView) (embeds : list Plugin.EmbedCache)
        (tr tr' : trace) (u : string) :
  Plugin.tfile_binary file = Resolved content ->
  Plugin.activeView ws = Some view ->
  Plugin.viewFile view = Some (Some embeds) ->
  Plugin.embedsOrdered 0 embeds (List.length (Plugin.value view)) ->
  existsb (fun e => String.eqb (Plugin.link e) (Plugin.tfile_name file)) embeds = true ->
  uploadWithCompression settings env content (Plugin.tfile_name file)
    (Plugin.handlerOptions ws) tr = (Resolved u, tr') ->
  Plugin.uploadImage settings env (Some file) ws tr
  = (Resolved tt,
     {| Plugin.activeView :=
          Some (Plugin.setValue view
                  (Plugin.replacedFrom 0 (Plugin.tfile_name file)
                     ("![" ++ Plugin.baseFileNameOf (Plugin.tfile_name file) ++ "]("
                       ++ publicUrl settings
                            (ossPathOf settings content (Plugin.tfile_name file))
                       ++ ")")
                     embeds (Plugin.value view)));
        Plugin.clipboardDenied := Plugin.clipboardDenied ws;
        Plugin.ui :=
          (Plugin.ui ws
           ++ [Plugin.NoticeShown "准备上传..." (Some 0);
               Plugin.NoticeHidden "准备上传...";
               Plugin.NoticeShown "上传成功！" None])%list |},
     tr').
Proof.
  intros Hbin Hv Hf Hord Hm Hup.
  destruct (uploadWithCompression_shape settings env content (Plugin.tfile_name file)
              (Plugin.handlerOptions ws) tr) as (_ & _ & evs & res & E & _ & _ & U).
  rewrite Hup in E. injection E as Hres Htr.
  pose proof (U u (eq_sym Hres)) as Hu. clear U Hres Htr.
  unfold Plugin.uploadImage. rewrite Hbin, Hup.
  rewrite (updateMarkdown_ordered (Plugin.tfile_name file) u
             (Plugin.log ws (Plugin.NoticeShown "准备上传..." (Some 0))) view embeds
             Hv Hf Hord Hm).
  rewrite Hu. unfold Plugin.log, Plugin.setView, Plugin.markdownLink.
  cbn [Plugin.activeView Plugin.ui Plugin.clipboardDenied].
  rewrite <- !app_assoc. reflexivity.
Qed.

Lemma uploadImage_links_embeds_witness :
  Plugin.uploadImage Cases.settings_with_cdn (Scenario.env_verifying 0)
    (Some Notes.a_png) Notes.workspace []
  = (Resolved tt,
     {| Plugin.activeView :=
          Some (Plugin.setValue Notes.view
                  (list_ascii_of_string
                     "See ![a](https://cdn.example.com/obsidian/12594c3ffd80f58680b4355dbbb3e78a6af7b09ec6a56ed875ff53bf39bee76d.png) and ![[b.png]] and ![a](https://cdn.example.com/obsidian/12594c3ffd80f58680b4355dbbb3e78a6af7b09ec6a56ed875ff53bf39bee76d.png)."));
        Plugin.clipboardDenied := None;
        Plugin.ui :=
          [Plugin.NoticeShown "准备上传..." (Some 0);
           Plugin.NoticeHidden "准备上传...";
           Plugin.NoticeShown "上传成功！" None] |},
     snd (uploadWithCompression Cases.settings_with_cdn (Scenario.env_verifying 0)
            Scenario.payload "a.png" (Plugin.handlerOptions Notes.workspace) [])).
Proof.
  rewrite (uploadImage_links_embeds Cases.settings_with_cdn (Scenario.env_verifying 0)
             Notes.a_png Scenario.payload Notes.workspace Notes.view Notes.embeds []
             (snd (uploadWithCompression Cases.settings_with_cdn (Scenario.env_verifying 0)
                     Scenario.payload "a.png" (Plugin.handlerOptions Notes.workspace) []))
             (publicUrl Cases.settings_with_cdn
                (ossPathOf Cases.settings_with_cdn Scenario.payload "a.png"))).
  - vm_compute. reflexivity.
  - reflexivity.
  - reflexivity.
  - reflexivity.
  - cbn. lia.
  - reflexivity.
  - vm_compute. reflexivity.
Defined.

(** X21. How [uploadImage] fails.  Whether the file is missing, the
    vault cannot read it, the upload is rejected, or (without an active
    view) the clipboard refuses the URL of a finished upload, the handler
    itself does not fail: it leaves the workspace's view as it was and
    logs the progress notice, the console entry and the notice of the
    failure with the error's message, without hiding the progress notice;
    in the first two cases no network call is made. *)
Theorem uploadImage_failures (settings : AliyunOssSettings) (env : environment)
        (ws : Plugin.Workspace) (tr : trace) :
  let failed (error : thrown) (tr' : trace) :=
    (Resolved tt,
     {| Plugin.activeView := Plugin.activeView ws;
        Plugin.clipboardDenied := Plugin.clipboardDenied ws;
        Plugin.ui :=
          (Plugin.ui ws
           ++ [Plugin.NoticeShown "准备上传..." (Some 0);
               Plugin.ConsoleError "上传失败:" error;
               Plugin.NoticeShown (Plugin.failureNotice error) None])%list |},
     tr') in
  Plugin.uploadImage settings env None ws tr = failed (newError "无效的文件") tr
  /\ (forall file error,
        Plugin.tfile_binary file = Rejected error ->
        Plugin.uploadImage settings env (Some file) ws tr = failed error tr)
  /\ (forall file content error tr',
        Plugin.tfile_binary file = Resolved content ->
        uploadWithCompression settings env content (Plugin.tfile_name file)
          (Plugin.handlerOptions ws) tr = (Rejected error, tr') ->
        Plugin.uploadImage settings env (Some file) ws tr = failed error tr')
  /\ (forall file content u error tr',
        Plugin.tfile_binary file = Resolved content ->
        uploadWithCompression settings env content (Plugin.tfile_name file)
          (Plugin.handlerOptions ws) tr = (Resolved u, tr') ->
        Plugin.activeView ws = None ->
        Plugin.clipboardDenied ws = Some error ->
        Plugin.uploadImage settings env (Some file) ws tr = failed error tr').
Proof.
  cbv zeta. unfold Plugin.uploadImage, Plugin.reportFailure, Plugin.log.
  cbn [Plugin.activeView Plugin.ui Plugin.clipboardDenied].
  split; [|split; [|split]].
  - rewrite <- !app_assoc. reflexivity.
  - intros file error H. rewrite H, <- !app_assoc. reflexivity.
  - intros file content error tr' H Hup. rewrite H, Hup, <- !app_assoc. reflexivity.
  - intros file content u error tr' H Hup Hv Hc. rewrite H, Hup.
    unfold Plugin.updateMarkdown. cbn [Plugin.activeView Plugin.clipboardDenied].
    rewrite Hv, Hc. cbn [Plugin.activeView Plugin.ui Plugin.clipboardDenied].
    rewrite ?Hv, ?Hc, <- !app_assoc. reflexivity.
Qed.

Lemma uploadImage_failures_witness :
  Plugin.uploadImage Scenario.settings
    (Scenario.env_scripted (Rejected (Scenario.http_error 403)) [])
    (Some Notes.a_png) Notes.workspace []
  = (Resolved tt,
     {| Plugin.activeView := Some Notes.view;
        Plugin.clipboardDenied := None;
        Plugin.ui :=
          [Plugin.NoticeShown "准备上传..." (Some 0);
           Plugin.ConsoleError "上传失败:" (Scenario.http_error 403);
           Plugin.NoticeShown "上传失败: Request failed, status 403" None] |},
     [Request (probeRequest Scenario.settings
                 (ossPathOf Scenario.settings Scenario.payload "a.png")
                 Scenario.date_0s)]).
Proof.
  apply (proj1 (proj2 (proj2
           (uploadImage_failures Scenario.settings
              (Scenario.env_scripted (Rejected (Scenario.http_error 403)) [])
              Notes.workspace [])))
           Notes.a_png Scenario.payload (Scenario.http_error 403)).
  - reflexivity.
  - vm_compute. reflexivity.
Defined.

(** ** Dates *)

Lemma datedFrom_app (env : environment) (evs1 evs2 : list event) :
  forall tr,
    datedFrom env tr evs1 -> datedFrom env (tr ++ evs1)%list evs2 ->
    datedFrom env tr (evs1 ++ evs2)%list.
Proof.
  induction evs1 as [|ev evs1 IH]; intros tr H1 H2.
  - now rewrite app_nil_r in H2.
  - cbn in H1 |- *. destruct H1 as [Hev H1]. split; [exact Hev|].
    apply IH; [exact H1|]. now rewrite <- app_assoc.
Qed.

Lemma retry_put_dated (env : environment) (endpoint authorization contentType : string)
      (final : list byte) (fuel : nat) :
  forall rc tr,
  exists evs,
    snd (retry_from fuel (putOperation env endpoint authorization contentType final) rc tr)
    = (tr ++ evs)%list
    /\ datedFrom env tr evs.
Proof.
  induction fuel as [|fuel IH]; intros rc tr;
    rewrite retry_from_step, putOperation_run;
    set (req := putRequest _ _ _ _ _);
    assert (Hone : exists evs,
               (tr ++ [Request req] = tr ++ evs)%list /\ datedFrom env tr evs)
      by (exists [Request req]; split; [reflexivity | cbn; auto]).
  - destruct (remote env tr req) as [response|error]; [|exact Hone].
    destruct (negb (status response =? 200)); exact Hone.
  - assert (Hmore : forall d, exists evs,
               snd (retry_from fuel
                      (putOperation env endpoint authorization contentType final)
                      (rc + 1) ((tr ++ [Request req]) ++ [Sleep d]))%list
               = (tr ++ evs)%list /\ datedFrom env tr evs).
    { intros d.
      destruct (IH (rc + 1)%nat ((tr ++ [Request req]) ++ [Sleep d])%list) as (evs & E & D).
      exists (Request req :: Sleep d :: evs). rewrite E, <- !app_assoc.
      split; [reflexivity|]. cbn. split; [reflexivity|]. split; [exact I | exact D]. }
    destruct (remote env tr req) as [response|error].
    + destruct (negb (status response =? 200)); [|exact Hone].
      destruct (rc <? maxRetries)%nat; [apply Hmore | exact Hone].
    + destruct (rc <? maxRetries)%nat; [apply Hmore | exact Hone].
Qed.

(** X22. Every request of an upload is dated at the moment it is sent:
    the [Date] header of the probe and of each PUT, retries included, is
    the UTC rendering of the clock read on the trace that precedes that
    request. *)
Theorem upload_requests_are_dated (s : AliyunOssSettings) (env : environment)
        (content : list byte) (name : string) (options : option UploadOptions) (tr : trace) :
  exists evs res,
    uploadWithCompression s env content name options tr = (res, (tr ++ evs)%list)
    /\ datedFrom env tr evs.
Proof.
  assert (Hphase : forall final tr1, exists evs res,
             transferFrom s env (ossPathOf s content name) ("image/" ++ fileExtOf name)
               final tr1 = (res, (tr1 ++ evs)%list)
             /\ datedFrom env tr1 evs).
  { intros final tr1. unfold transferFrom.
    destruct (Js.truthy (accessKeySecret s)).
    2: { exists [], (Rejected zeroLengthKeyError).
         split; [now rewrite app_nil_r | exact I]. }
    destruct (retry_put_dated env (endpointOf s (ossPathOf s content name))
                (putAuthorization s env (ossPathOf s content name)
                   ("image/" ++ fileExtOf name) tr1)
                ("image/" ++ fileExtOf name) final maxRetries 0%nat tr1) as (evs & E & D).
    destruct (retry_from _ _ _ _) as [[v|error] tr2]; cbn [snd] in E; subst tr2;
      eexists; eexists; split; try reflexivity; exact D. }
  assert (Hgo : forall tr1, exists evs res,
             transformAndPut s env content name options (fileExtOf name)
               (ossPathOf s content name) tr1 = (res, (tr1 ++ evs)%list)
             /\ datedFrom env tr1 evs).
  { intros tr1. rewrite transformAndPut_run. cbv zeta.
    destruct (enableCompression s && imageExtTest (fileExtOf name)); [|apply Hphase].
    destruct (compressor env tr1 _ _) as [final|error].
    - destruct (Hphase final
                  (tr1 ++ [Compress (compressionFile content name)
                             (compressionOptionsOf s options)])%list) as (evs & res & E & D).
      exists (Compress (compressionFile content name) (compressionOptionsOf s options) :: evs),
             res.
      rewrite E, <- app_assoc. split; [reflexivity|].
      cbn [datedFrom]. split; [exact I | exact D].
    - eexists. eexists. split; [reflexivity|]. cbn [datedFrom]. split; exact I. }
  rewrite uploadWithCompression_run. cbv zeta.
  destruct (skipExistCheckOf options); [apply Hgo|].
  destruct (Js.truthy (accessKeySecret s)).
  2: { exists [], (Rejected zeroLengthKeyError).
       split; [now rewrite app_nil_r | exact I]. }
  set (probe := probeRequest _ _ _).
  assert (Hd : header "Date" (headers probe) = JsDate.toUTCString (clock env tr))
    by reflexivity.
  assert (Hstop : forall o : outcome string, exists evs res,
             (o, (tr ++ [Request probe])%list) = (res, (tr ++ evs)%list)
             /\ datedFrom env tr evs).
  { intros o. exists [Request probe], o. split; [reflexivity|].
    cbn [datedFrom]. split; [exact Hd | exact I]. }
  assert (Hfall : exists evs res,
             transformAndPut s env content name options (fileExtOf name)
               (ossPathOf s content name) (tr ++ [Request probe])%list
             = (res, (tr ++ evs)%list)
             /\ datedFrom env tr evs).
  { destruct (Hgo (tr ++ [Request probe])%list) as (evs & res & E & D).
    exists (Request probe :: evs), res. rewrite E, <- app_assoc.
    split; [reflexivity|]. cbn [datedFrom]. split; [exact Hd | exact D]. }
  destruct (remote env tr probe) as [response|error].
  - destruct (status response =? 200); [apply Hstop | exact Hfall].
  - destruct (instanceofError error && Js.includes "404" (message_of error));
      [exact Hfall | apply Hstop].
Qed.
